(** * atc_ble.parser: a shallow embedding of the ATC advertisement decoder

    The development follows [src/atc_ble/parser.py].  Python values are
    modelled as the code has them: [bytes] objects are lists of [byte], [str]
    objects are [string]s (one [ascii] per code point, which covers every
    character the decoder inspects), [int] is [Z], [float] is the primitive
    binary64 [float], a raised exception is the [Raise] outcome of [result],
    and the decoder object is a record threaded through a state monad whose
    state survives a raised exception, as attribute writes do in Python. *)

From Stdlib Require Import ZArith List String Ascii Strings.Byte Bool Lia.
From Stdlib Require Import PrimFloat FloatOps SpecFloat Uint63.
From stdpp Require Import base option gmap strings.
Import ListNotations.

Open Scope string_scope.
Open Scope list_scope.
Open Scope Z_scope.

#[global] Set Warnings "-inexact-float".

(** ** Python values *)

Module Py.

Definition bytes := list byte.

(** The exceptions the decoder and the library calls it makes can raise. *)
Inductive exn : Set :=
  | ValueError
  | IndexError
  | OverflowError
  | StructError.

Inductive result (A : Type) : Type :=
  | Ret (a : A)
  | Raise (e : exn).
Arguments Ret {A} a.
Arguments Raise {A} e.

Definition result_map {A B} (f : A -> B) (r : result A) : result B :=
  match r with
  | Ret a => Ret (f a)
  | Raise e => Raise e
  end.

(** The value of a byte as a Python [int], and the byte of an [int] in
    0..255 (reduced modulo 256 outside it). *)
Definition byte_val (b : byte) : Z := Z.of_N (Byte.to_N b).

Definition byte_of_Z (z : Z) : byte :=
  match Byte.of_N (Z.to_N (z mod 256)) with
  | Some b => b
  | None => x00
  end.

Definition byte_eqb (a b : byte) : bool := Byte.eqb a b.

Fixpoint bytes_eqb (a b : bytes) : bool :=
  match a, b with
  | [], [] => true
  | x :: a', y :: b' => byte_eqb x y && bytes_eqb a' b'
  | _, _ => false
  end.

(** [len(x)] as a Python [int]. *)
Definition len {A} (l : list A) : Z := Z.of_nat (List.length l).

Definition str_len (s : string) : Z := Z.of_nat (String.length s).

(** Slice bounds: a negative bound counts from the end, and every bound is
    clamped to [0 .. len]. *)
Definition clamp_index (n i : Z) : Z :=
  let j := if i <? 0 then i + n else i in
  Z.max 0 (Z.min n j).

(** [l[lo:hi]]; [None] is an omitted bound. *)
Definition slice {A} (lo hi : option Z) (l : list A) : list A :=
  let n := len l in
  let a := match lo with None => 0 | Some i => clamp_index n i end in
  let b := match hi with None => n | Some i => clamp_index n i end in
  firstn (Z.to_nat (b - a)) (skipn (Z.to_nat a) l).

(** [l[::-1]]. *)
Definition reversed {A} (l : list A) : list A := List.rev l.

(** [s[i]] for a non-negative index; out of range raises [IndexError]. *)
Definition str_index (s : string) (i : nat) : result ascii :=
  match String.get i s with
  | Some c => Ret c
  | None => Raise IndexError
  end.

(** [b[i]] on a [bytes] object for a non-negative index: an [int]. *)
Definition bytes_index (b : bytes) (i : nat) : result Z :=
  match nth_error b i with
  | Some x => Ret (byte_val x)
  | None => Raise IndexError
  end.

(** [s.replace(old, new)] for a one-character [old]. *)
Fixpoint str_replace (old : ascii) (new : string) (s : string) : string :=
  match s with
  | EmptyString => EmptyString
  | String c s' =>
      if Ascii.eqb c old then new ++ str_replace old new s'
      else String c (str_replace old new s')
  end.

Definition hex_digit (c : ascii) : option Z :=
  let n := Z.of_N (N_of_ascii c) in
  if (48 <=? n) && (n <=? 57) then Some (n - 48)
  else if (97 <=? n) && (n <=? 102) then Some (n - 87)
  else if (65 <=? n) && (n <=? 70) then Some (n - 55)
  else None.

(** ASCII whitespace: space, tab, line feed, vertical tab, form feed,
    carriage return. *)
Definition is_space (c : ascii) : bool :=
  let n := Z.of_N (N_of_ascii c) in
  (n =? 32) || ((9 <=? n) && (n <=? 13)).

(** [bytes.fromhex(s)]: two hexadecimal digits per byte, ASCII whitespace
    skipped between bytes, [ValueError] on anything else. *)
Fixpoint fromhex (s : string) : result bytes :=
  match s with
  | EmptyString => Ret []
  | String c rest =>
      if is_space c then fromhex rest
      else
        match hex_digit c, rest with
        | Some hi, String d rest' =>
            match hex_digit d with
            | Some lo =>
                result_map (cons (byte_of_Z (16 * hi + lo))) (fromhex rest')
            | None => Raise ValueError
            end
        | _, _ => Raise ValueError
        end
  end.

Definition is_hex (c : ascii) : bool :=
  match hex_digit c with
  | Some _ => true
  | None => false
  end.

(** The text of an address of [n] octets: two hexadecimal digits each,
    upper or lower case, separated by single colons. *)
Fixpoint mac_text (n : nat) (s : string) : bool :=
  match n with
  | O => false
  | S n' =>
      match s with
      | String a (String b rest) =>
          is_hex a && is_hex b &&
          match rest with
          | EmptyString => Nat.eqb n' 0
          | String c s' => Ascii.eqb c ":" && mac_text n' s'
          end
      | _ => false
      end
  end.

Definition hex_char (upper : bool) (d : Z) : ascii :=
  ascii_of_N (Z.to_N (if d <? 10 then 48 + d
                      else if upper then 55 + d else 87 + d)).

(** [f"{i:02X}"] for a byte value. *)
Definition format_02X (i : Z) : string :=
  String (hex_char true (i / 16)) (String (hex_char true (i mod 16)) EmptyString).

(** [sep.join(parts)]. *)
Fixpoint str_join (sep : string) (parts : list string) : string :=
  match parts with
  | [] => EmptyString
  | [p] => p
  | p :: ps => p ++ sep ++ str_join sep ps
  end.

(** [s.split(sep)] for a one-character separator. *)
Fixpoint str_split (sep : ascii) (s : string) : list string :=
  match s with
  | EmptyString => [EmptyString]
  | String c s' =>
      if Ascii.eqb c sep then EmptyString :: str_split sep s'
      else
        match str_split sep s' with
        | h :: t => String c h :: t
        | [] => [String c EmptyString]
        end
  end.

(** [s.upper()] on ASCII text: the letters a to z are raised, every other
    character is kept.  A character outside ASCII that Python would also
    raise is kept here, so the model of [short_address] below is that of
    the source on ASCII addresses (hexadecimal octets, UUIDs) only. *)
Definition ascii_upper (c : ascii) : ascii :=
  let n := Z.of_N (N_of_ascii c) in
  if (97 <=? n) && (n <=? 122) then ascii_of_N (Z.to_N (n - 32)) else c.

Fixpoint str_upper (s : string) : string :=
  match s with
  | EmptyString => EmptyString
  | String c s' => String (ascii_upper c) (str_upper s')
  end.

(** [l[-k]] for [k] from 1. *)
Definition index_from_end {A} (l : list A) (k : nat) : result A :=
  match nth_error (List.rev l) (k - 1) with
  | Some x => Ret x
  | None => Raise IndexError
  end.

(** [n.to_bytes(1, "little")]: one byte, [OverflowError] when [n] does not
    fit (a negative [n] cannot be converted either). *)
Definition to_bytes1 (n : Z) : result bytes :=
  if (0 <=? n) && (n <? 256) then Ret [byte_of_Z n] else Raise OverflowError.

(** *** [struct.unpack] for the standard-size formats the decoder uses *)

Definition signed16 (u : Z) : Z := if u <? 32768 then u else u - 65536.

Definition word16 (little : bool) (b0 b1 : byte) : Z :=
  if little then byte_val b0 + 256 * byte_val b1
  else 256 * byte_val b0 + byte_val b1.

(** The items of a format after its byte-order character: [B] an unsigned
    byte, [H] an unsigned and [h] a signed 16-bit integer.  The buffer has
    to be consumed exactly. *)
Fixpoint unpack_items (little : bool) (fmt : string) (buf : bytes)
  : result (list Z) :=
  match fmt with
  | EmptyString =>
      match buf with
      | [] => Ret []
      | _ :: _ => Raise StructError
      end
  | String c fmt' =>
      if Ascii.eqb c "B" then
        match buf with
        | b :: buf' => result_map (cons (byte_val b)) (unpack_items little fmt' buf')
        | [] => Raise StructError
        end
      else if Ascii.eqb c "H" then
        match buf with
        | b0 :: b1 :: buf' =>
            result_map (cons (word16 little b0 b1)) (unpack_items little fmt' buf')
        | _ => Raise StructError
        end
      else if Ascii.eqb c "h" then
        match buf with
        | b0 :: b1 :: buf' =>
            result_map (cons (signed16 (word16 little b0 b1)))
                       (unpack_items little fmt' buf')
        | _ => Raise StructError
        end
      else Raise StructError
  end.

(** [struct.unpack(fmt, buf)] with an explicit byte order: ["<"] little
    endian, [">"] big endian. *)
Definition unpack (fmt : string) (buf : bytes) : result (list Z) :=
  match fmt with
  | String c items =>
      if Ascii.eqb c "<" then unpack_items true items buf
      else if Ascii.eqb c ">" then unpack_items false items buf
      else Raise StructError
  | EmptyString => Raise StructError
  end.

(** *** Numbers *)

(** An [int] converted to [float]; exact below 2^53. *)
Definition float_of_Z (z : Z) : float :=
  if z <? 0 then PrimFloat.opp (PrimFloat.of_uint63 (Uint63.of_Z (- z)))
  else PrimFloat.of_uint63 (Uint63.of_Z z).

(** [a / b] on two [int]s: true division, the correctly rounded quotient. *)
Definition truediv (a b : Z) : float :=
  PrimFloat.div (float_of_Z a) (float_of_Z b).

(** The exact value of a finite float, as [n * 2^e]. *)
Definition float_value (f : float) : option (Z * Z) :=
  match Prim2SF f with
  | S754_zero _ => Some (0, 0)
  | S754_finite s m e => Some (if s then Z.neg m else Z.pos m, e)
  | _ => None
  end.

(** [f] is within [2^-k] of the rational [num / den] ([den] positive). *)
Definition float_within (k : Z) (f : float) (num den : Z) : bool :=
  match float_value f with
  | Some (n, e) =>
      (e <=? 0) &&
      (Z.abs (n * den - num * 2 ^ (- e)) * 2 ^ k <=? den * 2 ^ (- e))
  | None => false
  end.

(** [f] is exactly the rational [num / den]. *)
Definition float_is (f : float) (num den : Z) : bool :=
  match float_value f with
  | Some (n, e) => (e <=? 0) && (n * den =? num * 2 ^ (- e))
  | None => false
  end.

(** [P] holds on the [n] integers from [z] on. *)
Fixpoint all_from (P : Z -> bool) (z : Z) (n : nat) : bool :=
  match n with
  | O => true
  | S n' => P z && all_from P (z + 1) n'
  end.

(** The values handed to the sensor store: [int] or [float]. *)
Inductive value : Set :=
  | PyInt (z : Z)
  | PyFloat (f : float).

End Py.

Import Py.

(** ** The AEAD primitive: AES-128 in CCM mode

    [Cryptodome.Cipher.AES] is a library the decoder calls.  The block cipher
    follows FIPS 197 and the mode NIST SP 800-38C (RFC 3610), on byte values
    in 0..255 held in [Z]; only decryption with verification is needed. *)

Module AES.

Definition xor_bytes (a b : list Z) : list Z :=
  List.map (fun p => Z.lxor (fst p) (snd p)) (List.combine a b).

(** Multiplication by x in GF(2^8) modulo x^8 + x^4 + x^3 + x + 1. *)
Definition xtime (a : Z) : Z :=
  let d := Z.land (Z.shiftl a 1) 255 in
  if Z.testbit a 7 then Z.lxor d 27 else d.

Fixpoint gmul_aux (n : nat) (a b acc : Z) : Z :=
  match n with
  | O => acc
  | S n' =>
      gmul_aux n' (xtime a) (Z.shiftr b 1)
               (if Z.testbit b 0 then Z.lxor acc a else acc)
  end.

Definition gmul (a b : Z) : Z := gmul_aux 8 a b 0.

(** The multiplicative inverse as the 254th power (0 is mapped to 0). *)
Definition ginv (a : Z) : Z :=
  let a2 := gmul a a in
  let a4 := gmul a2 a2 in
  let a8 := gmul a4 a4 in
  let a16 := gmul a8 a8 in
  let a32 := gmul a16 a16 in
  let a64 := gmul a32 a32 in
  let a128 := gmul a64 a64 in
  gmul a128 (gmul a64 (gmul a32 (gmul a16 (gmul a8 (gmul a4 a2))))).

Definition rotl8 (a : Z) (k : Z) : Z :=
  Z.land (Z.lor (Z.shiftl a k) (Z.shiftr a (8 - k))) 255.

Definition sbox_of (a : Z) : Z :=
  let b := ginv a in
  Z.lxor (Z.lxor (Z.lxor (Z.lxor (Z.lxor b (rotl8 b 1)) (rotl8 b 2)) (rotl8 b 3))
                 (rotl8 b 4)) 99.

Definition sbox_table : list Z :=
  Eval vm_compute in List.map (fun n => sbox_of (Z.of_nat n)) (List.seq 0 256).

Definition sbox (a : Z) : Z := List.nth (Z.to_nat a) sbox_table 0.

Definition sub_bytes (st : list Z) : list Z := List.map sbox st.

(** The state is held column by column: byte [r + 4c] is row [r] of column
    [c].  Row [r] is rotated left by [r] columns. *)
Definition shift_rows (st : list Z) : list Z :=
  List.map (fun i => let r := Nat.modulo i 4 in
                     let c := Nat.div i 4 in
                     List.nth (r + 4 * Nat.modulo (c + r) 4)%nat st 0)
           (List.seq 0 16).

Definition mix_column (col : list Z) : list Z :=
  match col with
  | [a0; a1; a2; a3] =>
      [ Z.lxor (Z.lxor (Z.lxor (gmul 2 a0) (gmul 3 a1)) a2) a3;
        Z.lxor (Z.lxor (Z.lxor a0 (gmul 2 a1)) (gmul 3 a2)) a3;
        Z.lxor (Z.lxor (Z.lxor a0 a1) (gmul 2 a2)) (gmul 3 a3);
        Z.lxor (Z.lxor (Z.lxor (gmul 3 a0) a1) a2) (gmul 2 a3) ]
  | _ => col
  end.

Definition mix_columns (st : list Z) : list Z :=
  mix_column (firstn 4 st) ++ mix_column (firstn 4 (skipn 4 st)) ++
  mix_column (firstn 4 (skipn 8 st)) ++ mix_column (firstn 4 (skipn 12 st)).

(** One step of the AES-128 key schedule: the next round key. *)
Definition next_round_key (rcon : Z) (k : list Z) : list Z :=
  let w0 := firstn 4 k in
  let w1 := firstn 4 (skipn 4 k) in
  let w2 := firstn 4 (skipn 8 k) in
  let w3 := firstn 4 (skipn 12 k) in
  let t := match w3 with
           | [b0; b1; b2; b3] => [Z.lxor (sbox b1) rcon; sbox b2; sbox b3; sbox b0]
           | _ => w3
           end in
  let w0' := xor_bytes w0 t in
  let w1' := xor_bytes w1 w0' in
  let w2' := xor_bytes w2 w1' in
  let w3' := xor_bytes w3 w2' in
  w0' ++ w1' ++ w2' ++ w3'.

Definition rcons : list Z := [1; 2; 4; 8; 16; 32; 64; 128; 27; 54].

(** The eleven round keys of a 16-byte key. *)
Fixpoint round_keys (rc : list Z) (k : list Z) : list (list Z) :=
  match rc with
  | [] => [k]
  | r :: rc' => k :: round_keys rc' (next_round_key r k)
  end.

Fixpoint rounds (ks : list (list Z)) (st : list Z) : list Z :=
  match ks with
  | [] => st
  | [k] => xor_bytes (shift_rows (sub_bytes st)) k
  | k :: ks' => rounds ks' (xor_bytes (mix_columns (shift_rows (sub_bytes st))) k)
  end.

(** Encryption of one 16-byte block under a 16-byte key. *)
Definition encrypt_block (key block : list Z) : list Z :=
  match round_keys rcons key with
  | k0 :: ks => rounds ks (xor_bytes block k0)
  | [] => block
  end.

End AES.

Module CCM.

(** [n] as [k] big-endian bytes. *)
Fixpoint be_bytes (k : nat) (n : Z) : list Z :=
  match k with
  | O => []
  | S k' => be_bytes k' (n / 256) ++ [n mod 256]
  end.

Definition pad16 (l : list Z) : list Z :=
  l ++ List.repeat 0 (Z.to_nat ((- len l) mod 16)).

(** The length prefix of the associated data. *)
Definition encode_aad (aad : list Z) : list Z :=
  let a := len aad in
  if a =? 0 then []
  else if a <? 65280 then pad16 (be_bytes 2 a ++ aad)
  else if a <? 4294967296 then pad16 ([255; 254] ++ be_bytes 4 a ++ aad)
  else pad16 ([255; 255] ++ be_bytes 8 a ++ aad).

(** CBC-MAC over the 16-byte blocks of [data], from the chaining value [x]. *)
Fixpoint cbc_mac (fuel : nat) (key x data : list Z) : list Z :=
  match fuel with
  | O => x
  | S fuel' =>
      match data with
      | [] => x
      | _ => cbc_mac fuel' key
               (AES.encrypt_block key (AES.xor_bytes x (firstn 16 data)))
               (skipn 16 data)
      end
  end.

(** The counter block number [i] for a nonce of [15 - q] bytes. *)
Definition ctr_block (q : nat) (nonce : list Z) (i : Z) : list Z :=
  [Z.of_nat q - 1] ++ nonce ++ be_bytes q i.

(** The key stream S_1, S_2, ... for [fuel] blocks starting at block [i]. *)
Fixpoint key_stream (fuel : nat) (key : list Z) (q : nat) (nonce : list Z) (i : Z)
  : list Z :=
  match fuel with
  | O => []
  | S fuel' =>
      AES.encrypt_block key (ctr_block q nonce i)
        ++ key_stream fuel' key q nonce (i + 1)
  end.

(** The tag of [plain]: the CBC-MAC of B_0, the encoded associated data and
    the padded message, truncated to [t] bytes and masked with S_0. *)
Definition compute_tag (key nonce : list Z) (t : nat) (aad plain : list Z)
  : list Z :=
  let q := (15 - List.length nonce)%nat in
  let flags := (if len aad =? 0 then 0 else 64)
               + 8 * ((Z.of_nat t - 2) / 2) + (Z.of_nat q - 1) in
  let b0 := [flags] ++ nonce ++ be_bytes q (len plain) in
  let blocks := encode_aad aad ++ pad16 plain in
  let x := cbc_mac (List.length blocks) key
             (AES.encrypt_block key b0) blocks in
  AES.xor_bytes (firstn t x)
                (firstn t (AES.encrypt_block key (ctr_block q nonce 0))).

Definition decrypt (key nonce cipher_text : list Z) : list Z :=
  let q := (15 - List.length nonce)%nat in
  AES.xor_bytes cipher_text
    (key_stream (Nat.div (List.length cipher_text + 15) 16) key q nonce 1).

End CCM.

(** The interface of the cipher object the decoder uses:
    [AES.new(key, AES.MODE_CCM, nonce=nonce, mac_len=mac_len)],
    [cipher.update(aad)] and [cipher.decrypt_and_verify(data, tag)].  The
    decoder is written against this interface; [Cryptodome] below is the
    instance the program runs with. *)
Class AeadCipher : Type := {
  cipher_state : Type;
  AES_new : bytes -> bytes -> Z -> result cipher_state;
  cipher_update : cipher_state -> bytes -> cipher_state;
  decrypt_and_verify : cipher_state -> bytes -> bytes -> result (option bytes)
}.

Module Cryptodome.

Record ccm_state : Type := {
  ccm_key : bytes;
  ccm_nonce : bytes;
  ccm_mac_len : Z;
  ccm_assoc : bytes
}.

(** The constructor refuses a nonce outside 7..13 bytes and a tag length
    that is not an even number in 4..16.  The decoder only ever passes a
    16-byte key; other key lengths are refused here. *)
Definition new (key nonce : bytes) (mac_len : Z) : result ccm_state :=
  if negb (len key =? 16) then Raise ValueError
  else if negb ((4 <=? mac_len) && (mac_len <=? 16) && (mac_len mod 2 =? 0))
  then Raise ValueError
  else if negb ((7 <=? len nonce) && (len nonce <=? 13)) then Raise ValueError
  else Ret {| ccm_key := key; ccm_nonce := nonce; ccm_mac_len := mac_len;
              ccm_assoc := [] |}.

Definition update (c : ccm_state) (aad : bytes) : ccm_state :=
  {| ccm_key := ccm_key c; ccm_nonce := ccm_nonce c;
     ccm_mac_len := ccm_mac_len c; ccm_assoc := ccm_assoc c ++ aad |}.

(** Decrypts, recomputes the tag over the plaintext and raises [ValueError]
    ("MAC check failed") unless it equals the received one. *)
Definition decrypt_and_verify (c : ccm_state) (data tag : bytes)
  : result (option bytes) :=
  let key := List.map byte_val (ccm_key c) in
  let nonce := List.map byte_val (ccm_nonce c) in
  let plain := CCM.decrypt key nonce (List.map byte_val data) in
  let expected :=
    CCM.compute_tag key nonce (Z.to_nat (ccm_mac_len c))
                    (List.map byte_val (ccm_assoc c)) plain in
  if bytes_eqb (List.map byte_of_Z expected) tag
  then Ret (Some (List.map byte_of_Z plain))
  else Raise ValueError.

End Cryptodome.

#[export] Instance Cryptodome_AES_CCM : AeadCipher := {|
  cipher_state := Cryptodome.ccm_state;
  AES_new := Cryptodome.new;
  cipher_update := Cryptodome.update;
  decrypt_and_verify := Cryptodome.decrypt_and_verify
|}.

(** What the decoder relies on from the cipher: a 16-byte key, a nonce of 7
    to 13 bytes and a 4-byte tag are accepted; CCM is a stream mode, so a
    plaintext that verifies has the length of the cipher text it came from;
    and the one exception of [decrypt_and_verify] is [ValueError]. *)
Class AeadCipherLaws (cipher : AeadCipher) : Prop := {
  AES_new_accepts :
    forall key nonce,
      len key = 16 -> 7 <= len nonce <= 13 ->
      exists c, AES_new key nonce 4 = Ret c;
  decrypt_and_verify_length :
    forall key nonce mac_len c aad data tag plain,
      AES_new key nonce mac_len = Ret c ->
      decrypt_and_verify (cipher_update c aad) data tag = Ret (Some plain) ->
      List.length plain = List.length data;
  decrypt_and_verify_raises :
    forall c data tag e,
      decrypt_and_verify c data tag = Raise e -> e = ValueError
}.

(** ** The advertisement and the decoder object *)

(** [home_assistant_bluetooth.BluetoothServiceInfo]; the dictionaries keep
    their insertion order, which is the order [items()] yields. *)
Record BluetoothServiceInfo : Type := {
  name : string;
  address : string;
  rssi : Z;
  manufacturer_data : list (Z * bytes);
  service_data : list (string * bytes);
  service_uuids : list string;
  source : string
}.

(** The predefined sensors of [sensor_state_data.SensorLibrary] the decoder
    reports, and the device key each is stored under. *)
Inductive SensorLibrary : Set :=
  | TEMPERATURE__CELSIUS
  | HUMIDITY__PERCENTAGE
  | VOLTAGE__ELECTRIC_POTENTIAL_VOLT
  | BATTERY__PERCENTAGE.

Definition device_key (d : SensorLibrary) : string :=
  match d with
  | TEMPERATURE__CELSIUS => "temperature"
  | HUMIDITY__PERCENTAGE => "humidity"
  | VOLTAGE__ELECTRIC_POTENTIAL_VOLT => "voltage"
  | BATTERY__PERCENTAGE => "battery"
  end.

(** [ATCBluetoothDeviceData]: the attributes set by [__init__], the
    attribute [encrypted] that [_parse_atc] creates ([None] while it does not
    exist), and the part of the [BluetoothData] base object the decoder
    writes.  The attribute [unhandled] is never read or written after
    [__init__] and is left out. *)
Record ATCBluetoothDeviceData : Type := {
  bindkey : option bytes;
  is_encrypted : bool;
  mac_known : bool;
  bindkey_verified : bool;
  pending : bool;
  last_service_info : option BluetoothServiceInfo;
  encrypted : option bool;
  title : option string;
  device_name : option string;
  device_sw_version : option string;
  device_manufacturer : option string;
  device_type : option string;
  sensor_values : gmap string value
}.

Definition with_mac_known (b : bool) (s : ATCBluetoothDeviceData) :=
  {| bindkey := bindkey s; is_encrypted := is_encrypted s; mac_known := b;
     bindkey_verified := bindkey_verified s; pending := pending s;
     last_service_info := last_service_info s; encrypted := encrypted s;
     title := title s; device_name := device_name s;
     device_sw_version := device_sw_version s;
     device_manufacturer := device_manufacturer s;
     device_type := device_type s; sensor_values := sensor_values s |}.

Definition with_bindkey_verified (b : bool) (s : ATCBluetoothDeviceData) :=
  {| bindkey := bindkey s; is_encrypted := is_encrypted s;
     mac_known := mac_known s; bindkey_verified := b; pending := pending s;
     last_service_info := last_service_info s; encrypted := encrypted s;
     title := title s; device_name := device_name s;
     device_sw_version := device_sw_version s;
     device_manufacturer := device_manufacturer s;
     device_type := device_type s; sensor_values := sensor_values s |}.

Definition with_last_service_info (i : option BluetoothServiceInfo)
           (s : ATCBluetoothDeviceData) :=
  {| bindkey := bindkey s; is_encrypted := is_encrypted s;
     mac_known := mac_known s; bindkey_verified := bindkey_verified s;
     pending := pending s; last_service_info := i; encrypted := encrypted s;
     title := title s; device_name := device_name s;
     device_sw_version := device_sw_version s;
     device_manufacturer := device_manufacturer s;
     device_type := device_type s; sensor_values := sensor_values s |}.

Definition with_encrypted (e : option bool) (s : ATCBluetoothDeviceData) :=
  {| bindkey := bindkey s; is_encrypted := is_encrypted s;
     mac_known := mac_known s; bindkey_verified := bindkey_verified s;
     pending := pending s; last_service_info := last_service_info s;
     encrypted := e; title := title s; device_name := device_name s;
     device_sw_version := device_sw_version s;
     device_manufacturer := device_manufacturer s;
     device_type := device_type s; sensor_values := sensor_values s |}.

Definition with_title (t : option string) (s : ATCBluetoothDeviceData) :=
  {| bindkey := bindkey s; is_encrypted := is_encrypted s;
     mac_known := mac_known s; bindkey_verified := bindkey_verified s;
     pending := pending s; last_service_info := last_service_info s;
     encrypted := encrypted s; title := t; device_name := device_name s;
     device_sw_version := device_sw_version s;
     device_manufacturer := device_manufacturer s;
     device_type := device_type s; sensor_values := sensor_values s |}.

Definition with_device_name (t : option string) (s : ATCBluetoothDeviceData) :=
  {| bindkey := bindkey s; is_encrypted := is_encrypted s;
     mac_known := mac_known s; bindkey_verified := bindkey_verified s;
     pending := pending s; last_service_info := last_service_info s;
     encrypted := encrypted s; title := title s; device_name := t;
     device_sw_version := device_sw_version s;
     device_manufacturer := device_manufacturer s;
     device_type := device_type s; sensor_values := sensor_values s |}.

Definition with_device_sw_version (t : option string)
           (s : ATCBluetoothDeviceData) :=
  {| bindkey := bindkey s; is_encrypted := is_encrypted s;
     mac_known := mac_known s; bindkey_verified := bindkey_verified s;
     pending := pending s; last_service_info := last_service_info s;
     encrypted := encrypted s; title := title s; device_name := device_name s;
     device_sw_version := t;
     device_manufacturer := device_manufacturer s;
     device_type := device_type s; sensor_values := sensor_values s |}.

Definition with_device_manufacturer (t : option string)
           (s : ATCBluetoothDeviceData) :=
  {| bindkey := bindkey s; is_encrypted := is_encrypted s;
     mac_known := mac_known s; bindkey_verified := bindkey_verified s;
     pending := pending s; last_service_info := last_service_info s;
     encrypted := encrypted s; title := title s; device_name := device_name s;
     device_sw_version := device_sw_version s;
     device_manufacturer := t;
     device_type := device_type s; sensor_values := sensor_values s |}.

Definition with_device_type (t : option string) (s : ATCBluetoothDeviceData) :=
  {| bindkey := bindkey s; is_encrypted := is_encrypted s;
     mac_known := mac_known s; bindkey_verified := bindkey_verified s;
     pending := pending s; last_service_info := last_service_info s;
     encrypted := encrypted s; title := title s; device_name := device_name s;
     device_sw_version := device_sw_version s;
     device_manufacturer := device_manufacturer s;
     device_type := t; sensor_values := sensor_values s |}.

Definition with_sensor_values (m : gmap string value)
           (s : ATCBluetoothDeviceData) :=
  {| bindkey := bindkey s; is_encrypted := is_encrypted s;
     mac_known := mac_known s; bindkey_verified := bindkey_verified s;
     pending := pending s; last_service_info := last_service_info s;
     encrypted := encrypted s; title := title s; device_name := device_name s;
     device_sw_version := device_sw_version s;
     device_manufacturer := device_manufacturer s;
     device_type := device_type s; sensor_values := m |}.

Definition with_bindkey (k : option bytes) (s : ATCBluetoothDeviceData) :=
  {| bindkey := k; is_encrypted := is_encrypted s;
     mac_known := mac_known s; bindkey_verified := bindkey_verified s;
     pending := pending s; last_service_info := last_service_info s;
     encrypted := encrypted s; title := title s; device_name := device_name s;
     device_sw_version := device_sw_version s;
     device_manufacturer := device_manufacturer s;
     device_type := device_type s; sensor_values := sensor_values s |}.

(** ** Methods run on the decoder object

    A method returns a value or raises, and leaves the object in the state
    it reached. *)
Definition M (A : Type) : Type :=
  ATCBluetoothDeviceData -> result A * ATCBluetoothDeviceData.

Definition ret {A} (a : A) : M A := fun s => (Ret a, s).

Definition raise {A} (e : exn) : M A := fun s => (Raise e, s).

Definition lift {A} (r : result A) : M A := fun s => (r, s).

Definition bind {A B} (m : M A) (k : A -> M B) : M B :=
  fun s =>
    match m s with
    | (Ret a, s') => k a s'
    | (Raise e, s') => (Raise e, s')
    end.

Definition modify (f : ATCBluetoothDeviceData -> ATCBluetoothDeviceData)
  : M unit := fun s => (Ret tt, f s).

Definition get {A} (f : ATCBluetoothDeviceData -> A) : M A :=
  fun s => (Ret (f s), s).

Declare Scope method_scope.
Delimit Scope method_scope with method.
Notation "x <- m ;; k" := (bind m (fun x => k))
  (at level 100, m at next level, right associativity) : method_scope.
Notation "m ;; k" := (bind m (fun _ => k))
  (at level 100, right associativity) : method_scope.
Open Scope method_scope.

(** The [BluetoothData] setters the decoder calls. *)
Definition set_title (t : string) : M unit := modify (with_title (Some t)).

Definition set_device_name (t : string) : M unit :=
  modify (with_device_name (Some t)).

Definition set_device_sw_version (t : string) : M unit :=
  modify (with_device_sw_version (Some t)).

Definition set_device_manufacturer (t : string) : M unit :=
  modify (with_device_manufacturer (Some t)).

Definition set_device_type (t : string) : M unit :=
  modify (with_device_type (Some t)).

Definition update_predefined_sensor (d : SensorLibrary) (v : value) : M unit :=
  modify (fun s => with_sensor_values (<[device_key d := v]> (sensor_values s)) s).

(** ** The decoder *)

(** [short_address]: the last two octets of an address, or the last group
    of an identifier, in upper case; dashes count as colons. *)
Definition short_address (address : string) : result string :=
  let results := str_split ":" (str_replace "-" ":" address) in
  match index_from_end results 1 with
  | Raise e => Raise e
  | Ret last =>
      if str_len last =? 2 then
        match index_from_end results 2 with
        | Raise e => Raise e
        | Ret before => Ret (str_upper before ++ str_upper last)%string
        end
      else Ret (str_upper last)
  end.

(** [to_mac]: the bytes as upper-case hexadecimal octets joined by colons. *)
Definition to_mac (addr : bytes) : string :=
  str_join ":" (List.map (fun i => format_02X (byte_val i)) addr).

Section Decoder.

(** The cipher the decoder is linked with and the value of [sys.platform] of
    the process it runs in. *)
Context {cipher : AeadCipher}.
Variable sys_platform : string.

Definition darwin : bool := String.eqb sys_platform "darwin".

(** [ATCBluetoothDeviceData.__init__]. *)
Definition __init__ (bindkey : option bytes) : ATCBluetoothDeviceData :=
  {| bindkey := bindkey;
     is_encrypted := false;
     mac_known := negb darwin;
     bindkey_verified := false;
     pending := true;
     last_service_info := None;
     encrypted := None;
     title := None;
     device_name := None;
     device_sw_version := None;
     device_manufacturer := None;
     device_type := None;
     sensor_values := ∅ |}.

(** The arguments [_decrypt_atc] prepares for the cipher. *)
Record aead_request : Type := {
  req_key : bytes;
  req_nonce : bytes;
  req_mac_len : Z;
  req_aad : bytes;
  req_cipherpayload : bytes;
  req_token : bytes
}.

(** "prepare the data for decryption" in [_decrypt_atc]: the nonce, the
    cipher payload, the additional data and the token. *)
Definition prepare_request (key data atc_mac : bytes) : result aead_request :=
  match to_bytes1 (len data + 3) with
  | Raise e => Raise e
  | Ret len_byte =>
      let uuid_bytes := [x16; x1a; x18] in
      let nonce :=
        List.concat [reversed atc_mac; len_byte; uuid_bytes; slice None (Some 1) data] in
      let cipherpayload := slice (Some 1) (Some (-4)) data in
      let aad := [x11] in
      let token := slice (Some (-4)) None data in
      Ret {| req_key := key; req_nonce := nonce; req_mac_len := 4;
             req_aad := aad; req_cipherpayload := cipherpayload;
             req_token := token |}
  end.

(** [not self.bindkey]: true for [None] and for an empty key. *)
Definition bindkey_falsy (k : option bytes) : bool :=
  match k with
  | None => true
  | Some b => len b =? 0
  end.

(** The end of [_decrypt_atc]: the cipher is created, fed the additional
    data and asked to decrypt and verify.  A [ValueError] raised by
    [decrypt_and_verify] is caught; one raised by [AES.new], outside the
    [try], is not. *)
Definition decrypt_request (req : aead_request) : M (option bytes) :=
  c <- lift (AES_new (req_key req) (req_nonce req) (req_mac_len req)) ;;
  let c := cipher_update c (req_aad req) in
  match decrypt_and_verify c (req_cipherpayload req) (req_token req) with
  | Raise ValueError => ret None
  | Raise e => raise e
  | Ret None =>
      modify (with_bindkey_verified false) ;;
      ret None
  | Ret (Some decrypted_payload) =>
      modify (with_bindkey_verified true) ;;
      ret (Some decrypted_payload)
  end.

(** [ATCBluetoothDeviceData._decrypt_atc]. *)
Definition _decrypt_atc (data atc_mac : bytes) : M (option bytes) :=
  k <- get bindkey ;;
  if bindkey_falsy k then
    modify (with_bindkey_verified false) ;;
    ret None
  else
    k <- get bindkey ;;
    if bindkey_falsy k || negb (len (default [] k) =? 16) then
      modify (with_bindkey_verified false) ;;
      ret None
    else
      req <- lift (prepare_request (default [] k) data atc_mac) ;;
      decrypt_request req.

(** The common tail of [_parse_atc] after a layout has been decoded. *)
Definition finish_parse (service_info : BluetoothServiceInfo) (name firmware : string)
  : M bool :=
  let identifier := address service_info in
  set_title (name ++ " (" ++ identifier ++ ")") ;;
  set_device_name (name ++ " (" ++ identifier ++ ")") ;;
  set_device_sw_version firmware ;;
  ret true.

(** The first statements of [_parse_atc]: the bytes of the advertised
    address.  [and] evaluates [mac_readable[2]] only when the length is not
    17. *)
Definition source_mac_of (service_info : BluetoothServiceInfo) : result bytes :=
  let mac_readable := address service_info in
  let guard :=
    if negb (str_len mac_readable =? 17) then
      result_map (fun c => negb (Ascii.eqb c ":")) (str_index mac_readable 2)
    else Ret false in
  match guard with
  | Raise e => Raise e
  | Ret g =>
      let mac_readable := if g then "00:00:00:00:00:00" else mac_readable in
      fromhex (str_replace ":" "" mac_readable)
  end.

(** [ATCBluetoothDeviceData._parse_atc]. *)
Definition _parse_atc (service_info : BluetoothServiceInfo) (name : string)
           (data : bytes) : M bool :=
  let msg_length := len data in
  source_mac <- lift (source_mac_of service_info) ;;
  if msg_length =? 15 then
    let firmware := "ATC (pvvx)" in
    let atc_mac_reversed := slice (Some 0) (Some 6) data in
    let atc_mac := reversed atc_mac_reversed in
    let source_mac := if darwin then atc_mac else source_mac in
    if negb darwin && negb (bytes_eqb atc_mac source_mac) then ret false
    else
      fields <- lift (unpack "<hHHBBB" (slice (Some 6) None data)) ;;
      match fields with
      | [temp; hum; volt; bat; packet_id; trg] =>
          update_predefined_sensor TEMPERATURE__CELSIUS (PyFloat (truediv temp 100)) ;;
          update_predefined_sensor HUMIDITY__PERCENTAGE (PyFloat (truediv hum 100)) ;;
          update_predefined_sensor VOLTAGE__ELECTRIC_POTENTIAL_VOLT
                                   (PyFloat (truediv volt 1000)) ;;
          update_predefined_sensor BATTERY__PERCENTAGE (PyInt bat) ;;
          finish_parse service_info name firmware
      | _ => raise ValueError
      end
  else if msg_length =? 13 then
    let firmware := "ATC (atc1441)" in
    let atc_mac := slice (Some 0) (Some 6) data in
    let source_mac := if darwin then atc_mac else source_mac in
    if negb darwin && negb (bytes_eqb atc_mac source_mac) then ret false
    else
      fields <- lift (unpack ">hBBHB" (slice (Some 6) None data)) ;;
      match fields with
      | [temp; hum; bat; volt; packet_id] =>
          update_predefined_sensor TEMPERATURE__CELSIUS (PyFloat (truediv temp 10)) ;;
          update_predefined_sensor HUMIDITY__PERCENTAGE (PyInt hum) ;;
          update_predefined_sensor VOLTAGE__ELECTRIC_POTENTIAL_VOLT
                                   (PyFloat (truediv volt 1000)) ;;
          update_predefined_sensor BATTERY__PERCENTAGE (PyInt bat) ;;
          finish_parse service_info name firmware
      | _ => raise ValueError
      end
  else if msg_length =? 11 then
    if darwin then ret false
    else
      modify (with_mac_known true) ;;
      let atc_mac := source_mac in
      let firmware := "ATC (pvvx encrypted)" in
      modify (with_encrypted (Some true)) ;;
      decrypted_data <- _decrypt_atc data atc_mac ;;
      match decrypted_data with
      | None => ret false
      | Some decrypted_data =>
          fields <- lift (unpack "<hHBB" decrypted_data) ;;
          match fields with
          | [temp; hum; bat; trg] =>
              update_predefined_sensor TEMPERATURE__CELSIUS
                                       (PyFloat (truediv temp 100)) ;;
              update_predefined_sensor HUMIDITY__PERCENTAGE
                                       (PyFloat (truediv hum 100)) ;;
              update_predefined_sensor BATTERY__PERCENTAGE (PyInt bat) ;;
              finish_parse service_info name firmware
          | _ => raise ValueError
          end
      end
  else if msg_length =? 8 then
    if darwin then ret false
    else
      modify (with_mac_known true) ;;
      let atc_mac := source_mac in
      let firmware := "ATC (atc1441 encrypted)" in
      modify (with_encrypted (Some true)) ;;
      decrypted_data <- _decrypt_atc data atc_mac ;;
      match decrypted_data with
      | None => ret false
      | Some decrypted_data =>
          d0 <- lift (bytes_index decrypted_data 0) ;;
          let temp := PrimFloat.sub (truediv d0 2) 40%float in
          d1 <- lift (bytes_index decrypted_data 1) ;;
          let hum := truediv d1 2 in
          d2 <- lift (bytes_index decrypted_data 2) ;;
          let bat := Z.land d2 127 in
          d2' <- lift (bytes_index decrypted_data 2) ;;
          let trg := Z.shiftr d2' 7 in
          let bat := if bat >? 100 then 100 else bat in
          update_predefined_sensor TEMPERATURE__CELSIUS (PyFloat temp) ;;
          update_predefined_sensor HUMIDITY__PERCENTAGE (PyFloat hum) ;;
          update_predefined_sensor BATTERY__PERCENTAGE (PyInt bat) ;;
          finish_parse service_info name firmware
      end
  else ret false.

(** The loop of [_start_update] over [service_data.items()]. *)
Fixpoint parse_items (service_info : BluetoothServiceInfo)
         (items : list (string * bytes)) : M unit :=
  match items with
  | [] => ret tt
  | (id, data) :: rest =>
      ok <- _parse_atc service_info (name service_info) data ;;
      (if ok then modify (with_last_service_info (Some service_info)) else ret tt) ;;
      parse_items service_info rest
  end.

(** [ATCBluetoothDeviceData._start_update]. *)
Definition _start_update (service_info : BluetoothServiceInfo) : M unit :=
  set_device_manufacturer "ATC" ;;
  set_device_type "ATC sensor" ;;
  parse_items service_info (service_data service_info).

End Decoder.

(** The object after a layout has been decoded: the sensor store [m] and
    the title, device name and firmware label set by the end of
    [_parse_atc]. *)
Definition decoded (m : gmap string value) (service_info : BluetoothServiceInfo)
           (name firmware : string) (s : ATCBluetoothDeviceData) :=
  with_device_sw_version (Some firmware)
    (with_device_name (Some (name ++ " (" ++ address service_info ++ ")")%string)
       (with_title (Some (name ++ " (" ++ address service_info ++ ")")%string)
          (with_sensor_values m s))).

(** What [_parse_atc] never does, whatever the outcome: it never writes
    [is_encrypted], [pending], [last_service_info] or [bindkey], and it
    writes [mac_known] only off macOS, where it writes [True]. *)
Definition parse_frame (sys_platform : string) (s s' : ATCBluetoothDeviceData) : Prop :=
  is_encrypted s' = is_encrypted s /\ pending s' = pending s /\
  last_service_info s' = last_service_info s /\ bindkey s' = bindkey s /\
  (mac_known s' = mac_known s \/ (darwin sys_platform = false /\ mac_known s' = true)).

(** Two objects that differ at most in [bindkey_verified]. *)
Definition same_but_flag (s1 s2 : ATCBluetoothDeviceData) : Prop :=
  with_bindkey_verified false s1 = with_bindkey_verified false s2.

(** The object [_start_update] hands to the first [_parse_atc]. *)
Definition labelled (s : ATCBluetoothDeviceData) : ATCBluetoothDeviceData :=
  with_device_type (Some "ATC sensor") (with_device_manufacturer (Some "ATC") s).

(** The sessions a process can hold: created by [__init__] under its
    [sys.platform], then changed only by the decoder's own methods and by
    the caller replacing the key. *)
Inductive reachable {cipher : AeadCipher} (sys_platform : string)
  : ATCBluetoothDeviceData -> Prop :=
  | reach_init (k : option bytes) :
      reachable sys_platform (__init__ sys_platform k)
  | reach_parse s service_info name data :
      reachable sys_platform s ->
      reachable sys_platform (snd (_parse_atc sys_platform service_info name data s))
  | reach_update s service_info :
      reachable sys_platform s ->
      reachable sys_platform (snd (_start_update sys_platform service_info s))
  | reach_bindkey s k :
      reachable sys_platform s ->
      reachable sys_platform (with_bindkey k s).

(** ** Vocabulary of the statements below *)

(** What the decoder stores under each key: floats for the temperature and
    the voltage, a float or a byte for the humidity, a byte for the
    battery. *)
Definition sensor_ok (k : string) (v : value) : Prop :=
  (k = "temperature" /\ exists f, v = PyFloat f) \/
  (k = "humidity" /\ ((exists f, v = PyFloat f) \/ exists h, v = PyInt h /\ 0 <= h <= 255)) \/
  (k = "voltage" /\ exists f, v = PyFloat f) \/
  (k = "battery" /\ exists b, v = PyInt b /\ 0 <= b <= 255).

(** The firmware label [_parse_atc] gives each recognised length. *)
Definition firmware_label (msg_length : Z) (firmware : string) : Prop :=
  (msg_length = 15 /\ firmware = "ATC (pvvx)") \/
  (msg_length = 13 /\ firmware = "ATC (atc1441)") \/
  (msg_length = 11 /\ firmware = "ATC (pvvx encrypted)") \/
  (msg_length = 8 /\ firmware = "ATC (atc1441 encrypted)").

(** The sensor store [m] extends [m0] by readings of the expected kinds. *)
Definition readings_over (m0 m : gmap string value) : Prop :=
  forall k v, m !! k = Some v -> sensor_ok k v \/ m0 !! k = Some v.

(** ** Test data of [tests/test_parser.py] *)

Definition bytes_to_service_info (payload : bytes) (local_name address : string)
  : BluetoothServiceInfo :=
  {| name := local_name; address := address; rssi := -60;
     manufacturer_data := [];
     service_data := [("0000181a-0000-1000-8000-00805f9b34fb", payload)];
     service_uuids := ["0000181a-0000-1000-8000-00805f9b34fb"];
     source := "" |}.

Definition test_bindkey : bytes :=
  [xb9; xea; x89; x5f; xac; x7e; xea; x6d; x30; x53; x24; x32; xa5; x16; xf3; xa3].

Definition test_mac : bytes := [xa4; xc1; x38; x8d; x18; xb2].

Definition atc1441_plain : bytes :=
  [xa4; xc1; x38; x8d; x18; xb2; x01; x12; x2f; x64; x0c; xa0; x25].

Definition pvvx_plain : bytes :=
  [xb2; x18; x8d; x38; xc1; xa4; x59; x0a; xad; x13; xb6; x09; x1f; x1e; x05].

Definition pvvx_encrypted : bytes :=
  [x11; xd6; x03; xfb; xfa; x7b; x6d; xfb; x1e; x26; xfd].

Definition atc1441_encrypted : bytes :=
  [x58; xe9; xe6; x55; x65; x81; xb3; xf9].

(** The layout-A encrypted payload with the last byte of its tag changed. *)
Definition pvvx_encrypted_bad_tag : bytes :=
  [x11; xd6; x03; xfb; xfa; x7b; x6d; xfb; x1e; x26; xfc].

(** A layout-B encrypted payload under the same key and address whose
    plaintext is [85 5e ff]: the battery field reads 127 and the flag bit is
    set. *)
Definition atc1441_encrypted_full : bytes :=
  [x58; xe9; xe6; x4e; xd6; x70; x16; x4b].

(** The advertisement of the tests for a payload, and the same with the
    address written with dashes. *)
Definition advertisement (payload : bytes) : BluetoothServiceInfo :=
  bytes_to_service_info payload "ATC_8D18B2" "A4:C1:38:8D:18:B2".

Definition advertisement_dashes (payload : bytes) : BluetoothServiceInfo :=
  bytes_to_service_info payload "ATC_8D18B2" "A4-C1-38-8D-18-B2".

(** A 16-byte key that is not the device's. *)
Definition wrong_bindkey : bytes := List.repeat x00 16.

(** A session that verified its key and was then given a key of one byte. *)
Definition rekeyed_session : ATCBluetoothDeviceData :=
  with_bindkey (Some [x01])
    (snd (_parse_atc "linux" (advertisement pvvx_encrypted) "ATC_8D18B2"
                     pvvx_encrypted (__init__ "linux" (Some test_bindkey)))).


(** * Properties of the decoder *)

(** ** Python values *)

Lemma byte_eqb_eq (a b : byte) : byte_eqb a b = true <-> a = b.
Proof.
  unfold byte_eqb. split.
  - apply Byte.byte_dec_bl.
  - apply Byte.byte_dec_lb.
Qed.

Lemma bytes_eqb_eq (a b : bytes) : bytes_eqb a b = true <-> a = b.
Proof.
  revert b. induction a as [|x a IH]; intros [|y b]; simpl; split;
    try congruence; try discriminate.
  - rewrite andb_true_iff, byte_eqb_eq, IH. intros [-> ->]. reflexivity.
  - intros [= -> ->]. rewrite andb_true_iff, byte_eqb_eq, IH. auto.
Qed.

Lemma bytes_eqb_neq (a b : bytes) : bytes_eqb a b = false <-> a <> b.
Proof.
  rewrite <- bytes_eqb_eq. destruct (bytes_eqb a b); split; congruence.
Qed.

Lemma byte_val_range (b : byte) : 0 <= byte_val b < 256.
Proof.
  unfold byte_val. pose proof (Byte.to_N_bounded b) as H.
  lia.
Qed.

Lemma byte_of_Z_val (b : byte) : byte_of_Z (byte_val b) = b.
Proof.
  unfold byte_of_Z, byte_val.
  rewrite Z.mod_small by (pose proof (Byte.to_N_bounded b); lia).
  rewrite N2Z.id, Byte.of_to_N. reflexivity.
Qed.

Lemma byte_val_of_Z (z : Z) : 0 <= z < 256 -> byte_val (byte_of_Z z) = z.
Proof.
  intros Hz. unfold byte_of_Z, byte_val.
  rewrite Z.mod_small by lia.
  destruct (Byte.of_N (Z.to_N z)) as [b|] eqn:E.
  - apply Byte.to_of_N in E. rewrite E. lia.
  - apply Byte.of_N_None_iff in E. lia.
Qed.

Lemma len_nonneg {A} (l : list A) : 0 <= len l.
Proof. unfold len. lia. Qed.

Lemma len_app {A} (l1 l2 : list A) : len (l1 ++ l2) = len l1 + len l2.
Proof. unfold len. rewrite List.length_app. lia. Qed.

Lemma len_rev {A} (l : list A) : len (reversed l) = len l.
Proof. unfold len, reversed. rewrite List.length_rev. reflexivity. Qed.

(** [l[0:k]] is the first [k] elements. *)
Lemma slice_prefix {A} (l : list A) (k : Z) :
  0 <= k -> slice (Some 0) (Some k) l = firstn (Z.to_nat k) l.
Proof.
  intros Hk. unfold slice, clamp_index, len.
  destruct (Z.ltb_spec k 0) as [?|_]; [lia|].
  change (0 <? 0) with false. cbv iota.
  rewrite (Z.max_l 0 (Z.min _ 0)) by lia.
  change (Z.to_nat 0) with 0%nat. rewrite List.skipn_O.
  rewrite Z.sub_0_r.
  destruct (Z.le_gt_cases k (Z.of_nat (List.length l))) as [H|H].
  - rewrite Z.min_r, Z.max_r by lia. reflexivity.
  - rewrite Z.min_l, Z.max_r by lia.
    rewrite Nat2Z.id. rewrite List.firstn_all.
    symmetry. apply List.firstn_all2. lia.
Qed.

(** [l[:k]] is the same slice. *)
Lemma slice_prefix_none {A} (l : list A) (k : Z) :
  0 <= k -> slice None (Some k) l = firstn (Z.to_nat k) l.
Proof.
  intros Hk. rewrite <- slice_prefix by assumption.
  unfold slice, clamp_index. change (0 <? 0) with false. cbv iota.
  rewrite (Z.max_l 0 (Z.min _ 0)) by (pose proof (len_nonneg l); lia).
  reflexivity.
Qed.

(** [l[k:]] drops the first [k] elements. *)
Lemma slice_suffix {A} (l : list A) (k : Z) :
  0 <= k -> slice (Some k) None l = skipn (Z.to_nat k) l.
Proof.
  intros Hk. unfold slice, clamp_index, len.
  destruct (Z.ltb_spec k 0) as [?|_]; [lia|].
  destruct (Z.le_gt_cases k (Z.of_nat (List.length l))) as [H|H].
  - rewrite Z.min_r, Z.max_r by lia.
    apply List.firstn_all2. rewrite List.length_skipn. lia.
  - rewrite Z.min_l, Z.max_r by lia.
    rewrite Z.sub_diag, Nat2Z.id. simpl.
    symmetry. apply List.skipn_all2. lia.
Qed.

(** [l[j:]] for a negative [j] is the last [-j] elements when there are
    that many. *)
Lemma slice_last {A} (l : list A) (j : Z) :
  - len l <= j < 0 -> slice (Some j) None l = skipn (Z.to_nat (len l + j)) l.
Proof.
  intros Hj. unfold slice, clamp_index.
  destruct (Z.ltb_spec j 0) as [_|?]; [|lia].
  rewrite Z.min_r, Z.max_r by lia.
  replace (j + len l) with (len l + j) by lia.
  apply List.firstn_all2. rewrite List.length_skipn. unfold len in *. lia.
Qed.

(** [l[1:j]] for a negative [j]: the elements from index 1 up to, excluding,
    the last [-j]. *)
Lemma slice_middle {A} (l : list A) (j : Z) :
  - len l <= j < 0 ->
  slice (Some 1) (Some j) l = firstn (Z.to_nat (len l + j - 1)) (skipn 1 l).
Proof.
  intros Hj. unfold slice, clamp_index.
  destruct (Z.ltb_spec j 0) as [_|?]; [|lia].
  change (1 <? 0) with false. cbv iota.
  rewrite (Z.min_r (len l) 1), (Z.max_r 0 1) by lia.
  rewrite Z.min_r, Z.max_r by lia.
  replace (j + len l - 1) with (len l + j - 1) by lia.
  reflexivity.
Qed.

(** ** Floating-point results

    [temp / 100] and [hum / 100] are binary64 quotients; checked over the
    whole range of a 16-bit field they are within half a unit in the last
    place of the exact hundredths, and [byte / 2 - 40.0] is exact. *)

Lemma all_from_spec (P : Z -> bool) (n : nat) (lo : Z) :
  all_from P lo n = true ->
  forall z, lo <= z < lo + Z.of_nat n -> P z = true.
Proof.
  revert lo. induction n as [|n IH]; intros lo H z Hz; [lia|].
  cbn [all_from] in H. apply andb_true_iff in H as [H0 H1].
  destruct (Z.eq_dec z lo) as [->|Hne]; [exact H0|].
  apply (IH (lo + 1) H1). lia.
Qed.

(** Hundredths: a 16-bit field, signed or unsigned, divided by 100. *)
Lemma truediv_100_nearest (raw : Z) :
  -32768 <= raw < 65536 -> float_within 44 (truediv raw 100) raw 100 = true.
Proof.
  intros H.
  apply (all_from_spec (fun z => float_within 44 (truediv z 100) z 100)
                       (Z.to_nat 98304) (-32768)).
  - vm_compute. reflexivity.
  - lia.
Qed.

(** Halves of a byte, and halves less 40, are exact. *)
Lemma truediv_2_exact (b : byte) :
  float_is (truediv (byte_val b) 2) (byte_val b) 2 = true /\
  float_is (PrimFloat.sub (truediv (byte_val b) 2) 40%float) (byte_val b - 80) 2 = true.
Proof. destruct b; vm_compute; split; reflexivity. Qed.

(** ** The cipher *)

Module AESFacts.

Import AES.

Lemma length_xor_bytes (a b : list Z) :
  List.length (xor_bytes a b) = Nat.min (List.length a) (List.length b).
Proof.
  unfold xor_bytes. rewrite List.length_map, List.length_combine. reflexivity.
Qed.

Lemma length_shift_rows (st : list Z) : List.length (shift_rows st) = 16%nat.
Proof. unfold shift_rows. rewrite List.length_map, List.length_seq. reflexivity. Qed.

Lemma length_sub_bytes (st : list Z) :
  List.length (sub_bytes st) = List.length st.
Proof. unfold sub_bytes. apply List.length_map. Qed.

(** A list of sixteen elements, spelled out. *)
Lemma list_16 {A} (l : list A) :
  List.length l = 16%nat ->
  exists a0 a1 a2 a3 a4 a5 a6 a7 a8 a9 a10 a11 a12 a13 a14 a15,
    l = [a0; a1; a2; a3; a4; a5; a6; a7; a8; a9; a10; a11; a12; a13; a14; a15].
Proof.
  intros H.
  do 16 (destruct l as [|? l]; [discriminate H|]).
  destruct l; [|discriminate H].
  repeat eexists.
Qed.

Lemma length_mix_columns (st : list Z) :
  List.length st = 16%nat -> List.length (mix_columns st) = 16%nat.
Proof.
  intros H. apply list_16 in H.
  destruct H as (a0&a1&a2&a3&a4&a5&a6&a7&a8&a9&a10&a11&a12&a13&a14&a15&->).
  reflexivity.
Qed.

Lemma length_next_round_key (rcon : Z) (k : list Z) :
  List.length k = 16%nat -> List.length (next_round_key rcon k) = 16%nat.
Proof.
  intros H. apply list_16 in H.
  destruct H as (a0&a1&a2&a3&a4&a5&a6&a7&a8&a9&a10&a11&a12&a13&a14&a15&->).
  reflexivity.
Qed.

Lemma round_keys_length (rc : list Z) (k : list Z) :
  List.length k = 16%nat ->
  List.Forall (fun rk => List.length rk = 16%nat) (round_keys rc k).
Proof.
  revert k. induction rc as [|r rc IH]; intros k Hk; cbn [round_keys].
  - constructor; [assumption|constructor].
  - constructor; [assumption|]. apply IH. apply length_next_round_key, Hk.
Qed.

Lemma length_rounds (ks : list (list Z)) (st : list Z) :
  List.Forall (fun rk => List.length rk = 16%nat) ks ->
  List.length st = 16%nat -> List.length (rounds ks st) = 16%nat.
Proof.
  revert st. induction ks as [|k ks IH]; intros st Hks Hst; [exact Hst|].
  inversion Hks as [|? ? Hk Hks']; subst.
  destruct ks as [|k' ks].
  - cbn [rounds]. rewrite length_xor_bytes, length_shift_rows, Hk. reflexivity.
  - change (rounds (k :: k' :: ks) st)
      with (rounds (k' :: ks) (xor_bytes (mix_columns (shift_rows (sub_bytes st))) k)).
    apply IH; [assumption|].
    rewrite length_xor_bytes, length_mix_columns, Hk by apply length_shift_rows.
    reflexivity.
Qed.

(** A block in, a block out. *)
Lemma length_encrypt_block (key block : list Z) :
  List.length key = 16%nat -> List.length block = 16%nat ->
  List.length (encrypt_block key block) = 16%nat.
Proof.
  intros Hkey Hblock. unfold encrypt_block.
  pose proof (round_keys_length rcons key Hkey) as Hks.
  destruct (round_keys rcons key) as [|k0 ks]; [assumption|].
  inversion Hks as [|? ? Hk0 Hks']; subst.
  apply length_rounds; [assumption|].
  rewrite length_xor_bytes, Hblock, Hk0. reflexivity.
Qed.

(** The FIPS 197 example vector (appendix C.1). *)
Example fips197_c1 :
  encrypt_block
    [0; 1; 2; 3; 4; 5; 6; 7; 8; 9; 10; 11; 12; 13; 14; 15]
    [0; 17; 34; 51; 68; 85; 102; 119; 136; 153; 170; 187; 204; 221; 238; 255]
  = [105; 196; 224; 216; 106; 123; 4; 48; 216; 205; 183; 128; 112; 180; 197; 90].
Proof. vm_compute. reflexivity. Qed.

End AESFacts.

Module CCMFacts.

Import CCM.

Lemma length_be_bytes (k : nat) (n : Z) : List.length (be_bytes k n) = k.
Proof.
  revert n. induction k as [|k IH]; intros n; cbn [be_bytes]; [reflexivity|].
  rewrite List.length_app, IH. simpl. lia.
Qed.

Lemma length_ctr_block (q : nat) (nonce : list Z) (i : Z) :
  List.length (ctr_block q nonce i) = (1 + List.length nonce + q)%nat.
Proof.
  unfold ctr_block. rewrite !List.length_app, length_be_bytes. simpl. lia.
Qed.

Lemma length_key_stream (fuel : nat) (key : list Z) (q : nat) (nonce : list Z) (i : Z) :
  List.length key = 16%nat -> (1 + List.length nonce + q = 16)%nat ->
  List.length (key_stream fuel key q nonce i) = (16 * fuel)%nat.
Proof.
  intros Hkey Hq. revert i. induction fuel as [|fuel IH]; intros i; [reflexivity|].
  cbn [key_stream]. rewrite List.length_app, IH.
  rewrite AESFacts.length_encrypt_block; [lia|assumption|].
  rewrite length_ctr_block. exact Hq.
Qed.

(** Decryption keeps the length of the cipher text. *)
Lemma length_decrypt (key nonce cipher_text : list Z) :
  List.length key = 16%nat -> (List.length nonce <= 15)%nat ->
  List.length (decrypt key nonce cipher_text) = List.length cipher_text.
Proof.
  intros Hkey Hnonce. unfold decrypt.
  rewrite AESFacts.length_xor_bytes, length_key_stream by (assumption || lia).
  pose proof (Nat.div_mod_eq (List.length cipher_text + 15) 16) as Hdm.
  pose proof (Nat.mod_upper_bound (List.length cipher_text + 15) 16) as Hub.
  lia.
Qed.

End CCMFacts.

(** The cipher of the program keeps the length. *)
#[export] Instance Cryptodome_laws : AeadCipherLaws Cryptodome_AES_CCM.
Proof.
  constructor.
  { intros key nonce Hkey Hnonce. cbn. unfold Cryptodome.new.
    rewrite Hkey. cbn [negb Z.eqb Pos.eqb].
    change (negb ((4 <=? 4) && (4 <=? 16) && (4 mod 2 =? 0))) with false. cbv iota.
    destruct (Z.leb_spec 7 (len nonce)); [|lia].
    destruct (Z.leb_spec (len nonce) 13); [|lia].
    cbn [andb negb]. eexists. reflexivity. }
  2:{ intros c data tag e. cbn. unfold Cryptodome.decrypt_and_verify.
      destruct (bytes_eqb _ tag); [discriminate|]. intros [= <-]. reflexivity. }
  intros key nonce mac_len c aad data tag plain Hnew Hdec.
  cbn in Hnew, Hdec. unfold Cryptodome.new in Hnew.
  destruct (len key =? 16) eqn:Hkey; [|discriminate Hnew].
  cbn [negb] in Hnew.
  destruct (negb _); [discriminate Hnew|].
  destruct ((7 <=? len nonce) && (len nonce <=? 13)) eqn:Hn; [|discriminate Hnew].
  cbn [negb] in Hnew. injection Hnew as <-.
  unfold Cryptodome.decrypt_and_verify in Hdec. cbn in Hdec.
  destruct (bytes_eqb _ tag); [|discriminate Hdec].
  injection Hdec as <-.
  apply Z.eqb_eq in Hkey. apply andb_true_iff in Hn as [Hn1 Hn2].
  apply Z.leb_le in Hn1, Hn2. unfold len in *.
  rewrite List.length_map, CCMFacts.length_decrypt, List.length_map.
  - reflexivity.
  - rewrite List.length_map. lia.
  - rewrite List.length_map. lia.
Qed.

(** ** The AEAD helper *)

Section DecryptFacts.

Context {cipher : AeadCipher}.

(** Unfolds the method combinators in the goal. *)
Ltac run := unfold bind, ret, raise, lift, get, modify; cbn.

(** With a usable key the helper is [decrypt_request] on the prepared
    arguments. *)
Lemma decrypt_atc_with_key (s : ATCBluetoothDeviceData) (data atc_mac key : bytes) :
  bindkey s = Some key -> len key = 16 ->
  _decrypt_atc data atc_mac s =
  bind (lift (prepare_request key data atc_mac)) decrypt_request s.
Proof.
  intros Hk Hlen. unfold _decrypt_atc.
  unfold bind at 1. unfold get at 1. rewrite Hk.
  assert (Hf : bindkey_falsy (Some key) = false).
  { simpl. apply Z.eqb_neq. lia. }
  rewrite Hf.
  unfold bind at 1. unfold get at 1. rewrite Hk, Hf.
  change (default [] (Some key)) with key. rewrite Hlen. reflexivity.
Qed.

(** A verification failure reported by the cipher leaves the whole object,
    [bindkey_verified] included, as it was. *)
Lemma decrypt_request_mac_failure (s : ATCBluetoothDeviceData) (req : aead_request) c :
  AES_new (req_key req) (req_nonce req) (req_mac_len req) = Ret c ->
  decrypt_and_verify (cipher_update c (req_aad req))
                     (req_cipherpayload req) (req_token req) = Raise ValueError ->
  decrypt_request req s = (Ret None, s).
Proof.
  intros Hnew Hfail. unfold decrypt_request. run.
  rewrite Hnew, Hfail. reflexivity.
Qed.

(** The flag is set only by a decryption that succeeded in this call. *)
Lemma decrypt_atc_verified_only_on_success (s s' : ATCBluetoothDeviceData)
      (data atc_mac : bytes) (r : result (option bytes)) :
  _decrypt_atc data atc_mac s = (r, s') ->
  bindkey_verified s' = true ->
  bindkey_verified s = true \/ exists plain, r = Ret (Some plain).
Proof.
  unfold _decrypt_atc, decrypt_request. run.
  destruct (bindkey_falsy (bindkey s)).
  { intros [= <- <-]. cbn. discriminate. }
  destruct (_ || _).
  { intros [= <- <-]. cbn. discriminate. }
  destruct (prepare_request _ _ _) as [req|e].
  2:{ intros [= <- <-]. auto. }
  destruct (AES_new _ _ _) as [c|e].
  2:{ intros [= <- <-]. auto. }
  destruct (decrypt_and_verify _ _ _) as [[p|]|[]]; intros [= <- <-]; cbn; eauto;
    discriminate.
Qed.

(** Every other attribute is left alone by the helper. *)
Lemma decrypt_atc_frame (s s' : ATCBluetoothDeviceData) (data atc_mac : bytes)
      (r : result (option bytes)) :
  _decrypt_atc data atc_mac s = (r, s') ->
  exists b, s' = with_bindkey_verified b s.
Proof.
  assert (Hid : s = with_bindkey_verified (bindkey_verified s) s) by (destruct s; reflexivity).
  unfold _decrypt_atc, decrypt_request. run.
  destruct (bindkey_falsy (bindkey s)).
  { intros [= <- <-]. eauto. }
  destruct (_ || _).
  { intros [= <- <-]. eauto. }
  destruct (prepare_request _ _ _) as [req|e].
  2:{ intros [= <- <-]. eauto. }
  destruct (AES_new _ _ _) as [c|e].
  2:{ intros [= <- <-]. eauto. }
  destruct (decrypt_and_verify _ _ _) as [[p|]|[]]; intros [= <- <-]; eauto.
Qed.

End DecryptFacts.

Section HelperClaims.

Context {cipher : AeadCipher}.

Lemma prepare_request_layout (key data atc_mac : bytes) :
  len atc_mac = 6 -> 4 <= len data <= 252 ->
  prepare_request key data atc_mac =
  Ret {| req_key := key;
         req_nonce := reversed atc_mac ++ [byte_of_Z (len data + 3)]
                        ++ [x16; x1a; x18] ++ firstn 1 data;
         req_mac_len := 4;
         req_aad := [x11];
         req_cipherpayload := firstn (Z.to_nat (len data - 5)) (skipn 1 data);
         req_token := skipn (Z.to_nat (len data - 4)) data |}.
Proof.
  intros Hmac Hlen. unfold prepare_request, to_bytes1.
  destruct (Z.leb_spec 0 (len data + 3)); [|lia].
  destruct (Z.ltb_spec (len data + 3) 256); [|lia].
  cbn [andb]. f_equal. f_equal.
  - cbn [List.concat]. rewrite slice_prefix_none by lia.
    rewrite List.app_nil_r. reflexivity.
  - rewrite slice_middle by lia. f_equal. f_equal. lia.
  - rewrite slice_last by lia. reflexivity.
Qed.

(** With a 16-byte key, a 6-byte identifier and a payload of 4 to 252
    bytes, what the helper asks of the cipher and what it makes of the
    answer. *)
Lemma decrypt_atc_cipher_calls (s : ATCBluetoothDeviceData)
      (data atc_mac key : bytes) :
  bindkey s = Some key -> len key = 16 -> len atc_mac = 6 ->
  4 <= len data <= 252 ->
  let nonce := reversed atc_mac ++ [byte_of_Z (len data + 3)]
                 ++ [x16; x1a; x18] ++ [List.nth 0 data x00] in
  let cipherpayload := firstn (Z.to_nat (len data - 5)) (skipn 1 data) in
  let token := skipn (Z.to_nat (len data - 4)) data in
  _decrypt_atc data atc_mac s =
  match AES_new key nonce 4 with
  | Raise e => (Raise e, s)
  | Ret c =>
      match decrypt_and_verify (cipher_update c [x11]) cipherpayload token with
      | Ret (Some decrypted_payload) =>
          (Ret (Some decrypted_payload), with_bindkey_verified true s)
      | Ret None => (Ret None, with_bindkey_verified false s)
      | Raise ValueError => (Ret None, s)
      | Raise e => (Raise e, s)
      end
  end.
Proof.
  intros Hk Hkey Hmac Hlen nonce cipherpayload token.
  assert (Hfirst : firstn 1 data = [List.nth 0 data x00]).
  { destruct data; [unfold len in Hlen; simpl in Hlen; lia | reflexivity]. }
  rewrite (decrypt_atc_with_key s data atc_mac key Hk Hkey).
  rewrite prepare_request_layout by assumption.
  rewrite Hfirst. fold nonce cipherpayload token.
  unfold bind at 1, lift at 1. unfold decrypt_request.
  cbn [req_key req_nonce req_mac_len req_aad req_cipherpayload req_token].
  unfold bind at 1, lift at 1.
  destruct (AES_new key nonce 4) as [c|e]; [|reflexivity].
  destruct (decrypt_and_verify _ _ _) as [[p|]|[]]; reflexivity.
Qed.

(** Without a usable key the helper returns [None] and clears the flag. *)
Lemma decrypt_atc_no_key (s : ATCBluetoothDeviceData) (data atc_mac : bytes) :
  (bindkey s = None \/ exists k, bindkey s = Some k /\ len k <> 16) ->
  _decrypt_atc data atc_mac s = (Ret None, with_bindkey_verified false s).
Proof.
  intros Hkey. unfold _decrypt_atc, bind, get, modify, ret.
  destruct Hkey as [Hnone | (k & Hsome & Hlen)].
  - rewrite Hnone. reflexivity.
  - rewrite Hsome. change (default [] (Some k)) with k.
    cbn [bindkey_falsy].
    destruct (len k =? 0); [reflexivity|].
    rewrite Hsome. change (default [] (Some k)) with k.
    apply Z.eqb_neq in Hlen. rewrite Hlen.
    cbn [negb]. rewrite orb_true_r. reflexivity.
Qed.

End HelperClaims.

(** ** The dispatcher and the four layouts *)

(** Spells out a list whose length is a known numeral. *)
Ltac explode l H :=
  repeat (destruct l as [|? l]; [discriminate H|]);
  destruct l; [|discriminate H].

Section ParseFacts.

Context {cipher : AeadCipher}.
Variable sys_platform : string.

Ltac run := unfold bind, ret, raise, lift, get, modify; cbn.

Lemma len_length {A} (l : list A) (n : nat) :
  len l = Z.of_nat n -> List.length l = n.
Proof. unfold len. lia. Qed.

Lemma parse_atc_address_raises (s : ATCBluetoothDeviceData)
      (service_info : BluetoothServiceInfo) (name : string) (data : bytes) (e : exn) :
  source_mac_of service_info = Raise e ->
  _parse_atc sys_platform service_info name data s = (Raise e, s).
Proof.
  intros H. unfold _parse_atc, bind, lift. rewrite H. reflexivity.
Qed.

(** Layout A in clear (15 bytes). *)
Lemma parse_atc_pvvx (s : ATCBluetoothDeviceData) (service_info : BluetoothServiceInfo)
      (name : string) (data source_mac : bytes) :
  source_mac_of service_info = Ret source_mac ->
  len data = 15 ->
  let byte i := byte_val (List.nth (Z.to_nat i) data x00) in
  let atc_mac := reversed (firstn 6 data) in
  _parse_atc sys_platform service_info name data s =
  if negb (darwin sys_platform) && negb (bytes_eqb atc_mac source_mac)
  then (Ret false, s)
  else
    (Ret true,
     decoded
       (<["battery" := PyInt (byte 12)]>
          (<["voltage" := PyFloat (truediv (byte 10 + 256 * byte 11) 1000)]>
             (<["humidity" := PyFloat (truediv (byte 8 + 256 * byte 9) 100)]>
                (<["temperature" :=
                     PyFloat (truediv (signed16 (byte 6 + 256 * byte 7)) 100)]>
                   (sensor_values s)))))
       service_info name "ATC (pvvx)" s).
Proof.
  intros Hmac Hlen. apply (len_length data 15) in Hlen.
  explode data Hlen.
  unfold _parse_atc, bind, lift. rewrite Hmac.
  destruct (darwin sys_platform); cbn [negb andb].
  - reflexivity.
  - change (len _ =? 15) with true. cbv iota.
    change (reversed (slice (Some 0) (Some 6) ?l)) with (reversed (firstn 6 l)).
    destruct (bytes_eqb _ source_mac); reflexivity.
Qed.

(** Layout B in clear (13 bytes). *)
Lemma parse_atc_atc1441 (s : ATCBluetoothDeviceData)
      (service_info : BluetoothServiceInfo) (name : string)
      (data source_mac : bytes) :
  source_mac_of service_info = Ret source_mac ->
  len data = 13 ->
  let byte i := byte_val (List.nth (Z.to_nat i) data x00) in
  let atc_mac := firstn 6 data in
  _parse_atc sys_platform service_info name data s =
  if negb (darwin sys_platform) && negb (bytes_eqb atc_mac source_mac)
  then (Ret false, s)
  else
    (Ret true,
     decoded
       (<["battery" := PyInt (byte 9)]>
          (<["voltage" := PyFloat (truediv (256 * byte 10 + byte 11) 1000)]>
             (<["humidity" := PyInt (byte 8)]>
                (<["temperature" :=
                     PyFloat (truediv (signed16 (256 * byte 6 + byte 7)) 10)]>
                   (sensor_values s)))))
       service_info name "ATC (atc1441)" s).
Proof.
  intros Hmac Hlen. apply (len_length data 13) in Hlen.
  explode data Hlen.
  unfold _parse_atc, bind, lift. rewrite Hmac.
  destruct (darwin sys_platform); cbn [negb andb].
  - reflexivity.
  - change (len _ =? 15) with false. change (len _ =? 13) with true. cbv iota.
    change (slice (Some 0) (Some 6) ?l) with (firstn 6 l).
    destruct (bytes_eqb _ source_mac); reflexivity.
Qed.

(** Any other length: nothing is decoded and nothing is written. *)
Lemma parse_atc_other_length (s : ATCBluetoothDeviceData)
      (service_info : BluetoothServiceInfo) (name : string)
      (data source_mac : bytes) :
  source_mac_of service_info = Ret source_mac ->
  len data <> 15 -> len data <> 13 -> len data <> 11 -> len data <> 8 ->
  _parse_atc sys_platform service_info name data s = (Ret false, s).
Proof.
  intros Hmac H15 H13 H11 H8. unfold _parse_atc, bind, lift. rewrite Hmac.
  apply Z.eqb_neq in H15, H13, H11, H8. rewrite H15, H13, H11, H8.
  reflexivity.
Qed.

(** The encrypted layouts on macOS: rejected before anything is written. *)
Lemma parse_atc_encrypted_darwin (s : ATCBluetoothDeviceData)
      (service_info : BluetoothServiceInfo) (name : string)
      (data source_mac : bytes) :
  darwin sys_platform = true ->
  source_mac_of service_info = Ret source_mac ->
  len data = 11 \/ len data = 8 ->
  _parse_atc sys_platform service_info name data s = (Ret false, s).
Proof.
  intros Hd Hmac Hlen. unfold _parse_atc, bind, lift. rewrite Hmac, Hd.
  destruct Hlen as [-> | ->]; reflexivity.
Qed.

(** The encrypted layouts elsewhere: the two attributes are written, then
    the helper runs on the transport address. *)
Lemma parse_atc_pvvx_encrypted (s : ATCBluetoothDeviceData)
      (service_info : BluetoothServiceInfo) (name : string)
      (data source_mac : bytes) :
  darwin sys_platform = false ->
  source_mac_of service_info = Ret source_mac ->
  len data = 11 ->
  _parse_atc sys_platform service_info name data s =
  match _decrypt_atc data source_mac
          (with_encrypted (Some true) (with_mac_known true s)) with
  | (Ret (Some plain), s') =>
      match unpack "<hHBB" plain with
      | Ret [temp; hum; bat; trg] =>
          (Ret true,
           decoded
             (<["battery" := PyInt bat]>
                (<["humidity" := PyFloat (truediv hum 100)]>
                   (<["temperature" := PyFloat (truediv temp 100)]>
                      (sensor_values s'))))
             service_info name "ATC (pvvx encrypted)" s')
      | Ret _ => (Raise ValueError, s')
      | Raise e => (Raise e, s')
      end
  | (Ret None, s') => (Ret false, s')
  | (Raise e, s') => (Raise e, s')
  end.
Proof.
  intros Hd Hmac Hlen. unfold _parse_atc. unfold bind at 1. unfold lift at 1.
  rewrite Hmac, Hd, Hlen.
  change (11 =? 15) with false. change (11 =? 13) with false.
  change (11 =? 11) with true. cbv iota.
  unfold bind at 1, modify at 1. unfold bind at 1, modify at 1.
  unfold bind at 1.
  destruct (_decrypt_atc data source_mac _) as [[[plain|]|e] s']; try reflexivity.
  unfold bind at 1, lift at 1.
  destruct (unpack "<hHBB" plain) as [fields|e]; [|reflexivity].
  destruct fields as [|temp [|hum [|bat [|trg [|? ?]]]]]; reflexivity.
Qed.

Lemma parse_atc_atc1441_encrypted (s : ATCBluetoothDeviceData)
      (service_info : BluetoothServiceInfo) (name : string)
      (data source_mac : bytes) :
  darwin sys_platform = false ->
  source_mac_of service_info = Ret source_mac ->
  len data = 8 ->
  _parse_atc sys_platform service_info name data s =
  match _decrypt_atc data source_mac
          (with_encrypted (Some true) (with_mac_known true s)) with
  | (Ret (Some plain), s') =>
      match plain with
      | d0 :: d1 :: d2 :: _ =>
          (Ret true,
           decoded
             (<["battery" := PyInt (Z.min (Z.land (byte_val d2) 127) 100)]>
                (<["humidity" := PyFloat (truediv (byte_val d1) 2)]>
                   (<["temperature" :=
                        PyFloat (PrimFloat.sub (truediv (byte_val d0) 2) 40%float)]>
                      (sensor_values s'))))
             service_info name "ATC (atc1441 encrypted)" s')
      | _ => (Raise IndexError, s')
      end
  | (Ret None, s') => (Ret false, s')
  | (Raise e, s') => (Raise e, s')
  end.
Proof.
  intros Hd Hmac Hlen. unfold _parse_atc. unfold bind at 1. unfold lift at 1.
  rewrite Hmac, Hd, Hlen.
  change (8 =? 15) with false. change (8 =? 13) with false.
  change (8 =? 11) with false. change (8 =? 8) with true. cbv iota.
  unfold bind at 1, modify at 1. unfold bind at 1, modify at 1.
  unfold bind at 1.
  destruct (_decrypt_atc data source_mac _) as [[[plain|]|e] s']; try reflexivity.
  destruct plain as [|d0 [|d1 [|d2 rest]]]; try reflexivity.
  unfold bind, lift, bytes_index. cbn [nth_error].
  replace (if Z.land (byte_val d2) 127 >? 100 then 100 else Z.land (byte_val d2) 127)
    with (Z.min (Z.land (byte_val d2) 127) 100).
  - reflexivity.
  - destruct (Z.gtb_spec (Z.land (byte_val d2) 127) 100); lia.
Qed.

Context {laws : AeadCipherLaws cipher}.

(** What the helper can do to the object: a plaintext sets the flag and has
    the length of the cipher payload; otherwise the flag is left or
    cleared. *)
Lemma decrypt_atc_outcome (s s' : ATCBluetoothDeviceData) (data atc_mac : bytes)
      (r : result (option bytes)) :
  _decrypt_atc data atc_mac s = (r, s') ->
  (exists plain, r = Ret (Some plain) /\ s' = with_bindkey_verified true s /\
                 List.length plain = List.length (slice (Some 1) (Some (-4)) data))
  \/ ((r = Ret None \/ exists e, r = Raise e) /\
      (s' = s \/ s' = with_bindkey_verified false s)).
Proof using laws.
  unfold _decrypt_atc, decrypt_request. run.
  destruct (bindkey_falsy (bindkey s)).
  { intros [= <- <-]. right. auto. }
  destruct (_ || _).
  { intros [= <- <-]. right. auto. }
  destruct (prepare_request _ _ _) as [req|e] eqn:Hreq.
  2:{ intros [= <- <-]. right. eauto. }
  destruct (AES_new _ _ _) as [c|e] eqn:Hnew.
  2:{ intros [= <- <-]. right. eauto. }
  destruct (decrypt_and_verify _ _ _) as [[p|]|e] eqn:Hdec.
  - intros [= <- <-]. left. exists p. repeat split.
    rewrite (decrypt_and_verify_length _ _ _ _ _ _ _ _ Hnew Hdec).
    unfold prepare_request in Hreq.
    destruct (to_bytes1 _); [|discriminate Hreq].
    injection Hreq as <-. reflexivity.
  - intros [= <- <-]. right. auto.
  - destruct e; intros [= <- <-]; right; eauto.
Qed.

(** A call that does not return [True] leaves the object as it was, or, on
    the encrypted layouts, with [mac_known] and [encrypted] written and
    [bindkey_verified] left or cleared. *)
Lemma parse_atc_failure (s s' : ATCBluetoothDeviceData)
      (service_info : BluetoothServiceInfo) (name : string) (data : bytes)
      (r : result bool) :
  _parse_atc sys_platform service_info name data s = (r, s') ->
  r <> Ret true ->
  s' = s \/
  (darwin sys_platform = false /\ (len data = 11 \/ len data = 8) /\
   exists b, (b = bindkey_verified s \/ b = false) /\
     s' = with_bindkey_verified b (with_encrypted (Some true) (with_mac_known true s))).
Proof using laws.
  intros Hrun Hr.
  destruct (source_mac_of service_info) as [m|e] eqn:Hmac.
  2:{ rewrite (parse_atc_address_raises _ _ _ _ _ Hmac) in Hrun.
      injection Hrun as <- <-. left. reflexivity. }
  destruct (Z.eq_dec (len data) 15) as [H15|H15].
  { rewrite (parse_atc_pvvx _ _ _ _ _ Hmac H15) in Hrun.
    destruct (_ && _); injection Hrun as <- <-; [left; reflexivity | congruence]. }
  destruct (Z.eq_dec (len data) 13) as [H13|H13].
  { rewrite (parse_atc_atc1441 _ _ _ _ _ Hmac H13) in Hrun.
    destruct (_ && _); injection Hrun as <- <-; [left; reflexivity | congruence]. }
  destruct (Z.eq_dec (len data) 11) as [H11|H11].
  { destruct (darwin sys_platform) eqn:Hd.
    { rewrite (parse_atc_encrypted_darwin _ _ _ _ _ Hd Hmac (or_introl H11)) in Hrun.
      injection Hrun as <- <-. left. reflexivity. }
    rewrite (parse_atc_pvvx_encrypted _ _ _ _ _ Hd Hmac H11) in Hrun.
    destruct (_decrypt_atc _ _ _) as [r1 s1] eqn:Hdec.
    apply decrypt_atc_outcome in Hdec.
    destruct Hdec as [(plain & -> & -> & Hplain) | [Hr1 Hs1]].
    - apply (len_length data 11) in H11. explode data H11.
      change (List.length (slice _ _ _)) with 6%nat in Hplain.
      explode plain Hplain.
      cbn in Hrun. injection Hrun as <- <-. congruence.
    - right. split; [reflexivity|]. split; [auto|].
      assert (Hs' : s' = s1).
      { destruct Hr1 as [-> | [e ->]]; injection Hrun as <- <-; reflexivity. }
      subst s'.
      destruct Hs1 as [-> | ->].
      + exists (bindkey_verified s). split; [auto|]. destruct s. reflexivity.
      + exists false. split; [auto|]. reflexivity. }
  destruct (Z.eq_dec (len data) 8) as [H8|H8].
  { destruct (darwin sys_platform) eqn:Hd.
    { rewrite (parse_atc_encrypted_darwin _ _ _ _ _ Hd Hmac (or_intror H8)) in Hrun.
      injection Hrun as <- <-. left. reflexivity. }
    rewrite (parse_atc_atc1441_encrypted _ _ _ _ _ Hd Hmac H8) in Hrun.
    destruct (_decrypt_atc _ _ _) as [r1 s1] eqn:Hdec.
    apply decrypt_atc_outcome in Hdec.
    destruct Hdec as [(plain & -> & -> & Hplain) | [Hr1 Hs1]].
    - apply (len_length data 8) in H8. explode data H8.
      change (List.length (slice _ _ _)) with 3%nat in Hplain.
      explode plain Hplain.
      injection Hrun as <- <-. congruence.
    - right. split; [reflexivity|]. split; [auto|].
      assert (Hs' : s' = s1).
      { destruct Hr1 as [-> | [e ->]]; injection Hrun as <- <-; reflexivity. }
      subst s'.
      destruct Hs1 as [-> | ->].
      + exists (bindkey_verified s). split; [auto|]. destruct s. reflexivity.
      + exists false. split; [auto|]. reflexivity. }
  rewrite (parse_atc_other_length _ _ _ _ _ Hmac H15 H13 H11 H8) in Hrun.
  injection Hrun as <- <-. left. reflexivity.
Qed.

Lemma parse_frame_refl (s : ATCBluetoothDeviceData) : parse_frame sys_platform s s.
Proof. unfold parse_frame. repeat split. left. reflexivity. Qed.

Lemma parse_frame_decoded (s s' : ATCBluetoothDeviceData) m service_info name firmware :
  parse_frame sys_platform s s' ->
  parse_frame sys_platform s (decoded m service_info name firmware s').
Proof. exact (fun H => H). Qed.

Lemma parse_atc_frame (s s' : ATCBluetoothDeviceData)
      (service_info : BluetoothServiceInfo) (name : string) (data : bytes)
      (r : result bool) :
  _parse_atc sys_platform service_info name data s = (r, s') ->
  parse_frame sys_platform s s'.
Proof.
  intros Hrun.
  destruct (source_mac_of service_info) as [m|e] eqn:Hmac.
  2:{ rewrite (parse_atc_address_raises _ _ _ _ _ Hmac) in Hrun.
      injection Hrun as <- <-. apply parse_frame_refl. }
  destruct (Z.eq_dec (len data) 15) as [H15|H15].
  { rewrite (parse_atc_pvvx _ _ _ _ _ Hmac H15) in Hrun.
    destruct (_ && _); injection Hrun as <- <-;
      [|apply parse_frame_decoded]; apply parse_frame_refl. }
  destruct (Z.eq_dec (len data) 13) as [H13|H13].
  { rewrite (parse_atc_atc1441 _ _ _ _ _ Hmac H13) in Hrun.
    destruct (_ && _); injection Hrun as <- <-;
      [|apply parse_frame_decoded]; apply parse_frame_refl. }
  assert (Henc : forall b,
             darwin sys_platform = false ->
             parse_frame sys_platform s (with_bindkey_verified b
                              (with_encrypted (Some true) (with_mac_known true s)))).
  { intros b Hd. unfold parse_frame. cbn. repeat split. right. auto. }
  destruct (Z.eq_dec (len data) 11) as [H11|H11].
  { destruct (darwin sys_platform) eqn:Hd.
    { rewrite (parse_atc_encrypted_darwin _ _ _ _ _ Hd Hmac (or_introl H11)) in Hrun.
      injection Hrun as <- <-. apply parse_frame_refl. }
    rewrite (parse_atc_pvvx_encrypted _ _ _ _ _ Hd Hmac H11) in Hrun.
    destruct (_decrypt_atc _ _ _) as [r1 s1] eqn:Hdec.
    apply decrypt_atc_frame in Hdec as [b ->].
    destruct r1 as [[plain|]|e].
    - destruct (unpack _ plain) as [[|temp [|hum [|bat [|trg [|? ?]]]]]|e];
        injection Hrun as <- <-; try apply parse_frame_decoded; apply Henc;
        reflexivity.
    - injection Hrun as <- <-. apply Henc. reflexivity.
    - injection Hrun as <- <-. apply Henc. reflexivity. }
  destruct (Z.eq_dec (len data) 8) as [H8|H8].
  { destruct (darwin sys_platform) eqn:Hd.
    { rewrite (parse_atc_encrypted_darwin _ _ _ _ _ Hd Hmac (or_intror H8)) in Hrun.
      injection Hrun as <- <-. apply parse_frame_refl. }
    rewrite (parse_atc_atc1441_encrypted _ _ _ _ _ Hd Hmac H8) in Hrun.
    destruct (_decrypt_atc _ _ _) as [r1 s1] eqn:Hdec.
    apply decrypt_atc_frame in Hdec as [b ->].
    destruct r1 as [[plain|]|e].
    - destruct plain as [|d0 [|d1 [|d2 rest]]];
        injection Hrun as <- <-; try apply parse_frame_decoded; apply Henc;
        reflexivity.
    - injection Hrun as <- <-. apply Henc. reflexivity.
    - injection Hrun as <- <-. apply Henc. reflexivity. }
  rewrite (parse_atc_other_length _ _ _ _ _ Hmac H15 H13 H11 H8) in Hrun.
  injection Hrun as <- <-. apply parse_frame_refl.
Qed.

(** The loop of [_start_update] writes [last_service_info] besides; the
    other attributes follow [_parse_atc]. *)
Lemma parse_items_frame (service_info : BluetoothServiceInfo)
      (items : list (string * bytes)) (s s' : ATCBluetoothDeviceData) (r : result unit) :
  parse_items sys_platform service_info items s = (r, s') ->
  is_encrypted s' = is_encrypted s /\ pending s' = pending s /\
  bindkey s' = bindkey s /\
  (mac_known s' = mac_known s \/ (darwin sys_platform = false /\ mac_known s' = true)).
Proof.
  revert s. induction items as [|[id data] rest IH]; intros s.
  - intros [= <- <-]. auto.
  - cbn [parse_items]. unfold bind at 1.
    destruct (_parse_atc _ _ _ _ s) as [r1 s1] eqn:Hp.
    apply parse_atc_frame in Hp as (He & Hpe & _ & Hk & Hm).
    destruct r1 as [ok|e].
    2:{ intros [= <- <-]. auto. }
    unfold bind at 1.
    destruct ok; cbn [modify ret].
    + intros Hrest. apply IH in Hrest. cbn in Hrest.
      destruct Hrest as (-> & -> & -> & Hm'). rewrite He, Hpe, Hk.
      repeat split. destruct Hm' as [-> | ?]; auto.
    + intros Hrest. apply IH in Hrest.
      destruct Hrest as (-> & -> & -> & Hm'). rewrite He, Hpe, Hk.
      repeat split. destruct Hm' as [-> | ?]; auto.
Qed.

Lemma start_update_frame (service_info : BluetoothServiceInfo)
      (s s' : ATCBluetoothDeviceData) (r : result unit) :
  _start_update sys_platform service_info s = (r, s') ->
  is_encrypted s' = is_encrypted s /\ pending s' = pending s /\
  bindkey s' = bindkey s /\
  (mac_known s' = mac_known s \/ (darwin sys_platform = false /\ mac_known s' = true)).
Proof.
  unfold _start_update, set_device_manufacturer, set_device_type.
  unfold bind at 1, modify at 1. unfold bind at 1, modify at 1.
  intros H. apply parse_items_frame in H. exact H.
Qed.

(** On every session of a process [mac_known] is what [__init__] made it. *)
Lemma reachable_mac_known (s : ATCBluetoothDeviceData) :
  reachable sys_platform s -> mac_known s = negb (darwin sys_platform).
Proof.
  induction 1 as [k | s si name data _ IH | s si _ IH | s k _ IH].
  - reflexivity.
  - destruct (_parse_atc _ _ _ _ s) as [r s'] eqn:Hp.
    apply parse_atc_frame in Hp as (_ & _ & _ & _ & [Hm | [Hd Hm]]); cbn.
    + congruence.
    + rewrite Hm, Hd. reflexivity.
  - destruct (_start_update _ _ s) as [r s'] eqn:Hp.
    apply start_update_frame in Hp as (_ & _ & _ & [Hm | [Hd Hm]]); cbn.
    + congruence.
    + rewrite Hm, Hd. reflexivity.
  - exact IH.
Qed.

End ParseFacts.

(** ** The claims *)

Section SessionClaims.

Context {cipher : AeadCipher} {laws : AeadCipherLaws cipher}.
Variable sys_platform : string.

(** C2: on every session of the process, a call of the decoder that does
    not succeed (it returns [False] or raises) leaves [mac_known],
    [is_encrypted], [pending], [last_service_info] and [bindkey] as they
    were, and [bindkey_verified] either as it was or cleared. *)
Theorem failed_decode_frame (s : ATCBluetoothDeviceData)
        (service_info : BluetoothServiceInfo) (name : string) (data : bytes) :
  reachable sys_platform s ->
  fst (_parse_atc sys_platform service_info name data s) <> Ret true ->
  let s' := snd (_parse_atc sys_platform service_info name data s) in
  mac_known s' = mac_known s /\
  is_encrypted s' = is_encrypted s /\
  pending s' = pending s /\
  last_service_info s' = last_service_info s /\
  bindkey s' = bindkey s /\
  (bindkey_verified s' = bindkey_verified s \/ bindkey_verified s' = false).
Proof using laws.
  intros Hreach Hfail s'. subst s'.
  apply reachable_mac_known in Hreach.
  destruct (_parse_atc sys_platform service_info name data s) as [r s'] eqn:Hrun.
  cbn [fst snd] in *.
  destruct (parse_atc_failure _ _ _ _ _ _ _ Hrun Hfail)
    as [-> | (Hd & _ & b & Hb & ->)].
  - auto 10.
  - cbn. rewrite Hreach, Hd. repeat split. destruct Hb as [-> | ->]; auto.
Qed.

(** The stray attribute [encrypted] is the one other thing a failing call
    can write. *)
Lemma failed_decode_whole_state (s : ATCBluetoothDeviceData)
      (service_info : BluetoothServiceInfo) (name : string) (data : bytes) :
  reachable sys_platform s ->
  fst (_parse_atc sys_platform service_info name data s) <> Ret true ->
  exists b e, (b = bindkey_verified s \/ b = false) /\
              (e = encrypted s \/ e = Some true) /\
              snd (_parse_atc sys_platform service_info name data s)
              = with_bindkey_verified b (with_encrypted e s).
Proof using laws.
  intros Hreach Hfail. apply reachable_mac_known in Hreach.
  destruct (_parse_atc sys_platform service_info name data s) as [r s'] eqn:Hrun.
  cbn [fst snd] in *.
  destruct (parse_atc_failure _ _ _ _ _ _ _ Hrun Hfail)
    as [-> | (Hd & _ & b & Hb & ->)].
  - exists (bindkey_verified s), (encrypted s). repeat split; auto.
    destruct s; reflexivity.
  - exists b, (Some true). repeat split; auto.
    rewrite Hd in Hreach. destruct s; cbn in *. subst. reflexivity.
Qed.

(** [is_encrypted] is never written: it keeps the value [__init__] gave
    it, whatever is decoded. *)
Lemma is_encrypted_unchanged (s : ATCBluetoothDeviceData)
      (service_info : BluetoothServiceInfo) (name : string) (data : bytes) :
  is_encrypted (snd (_parse_atc sys_platform service_info name data s))
  = is_encrypted s.
Proof.
  destruct (_parse_atc sys_platform service_info name data s) as [r s'] eqn:Hrun.
  apply parse_atc_frame in Hrun as (H & _). exact H.
Qed.

Lemma reachable_is_encrypted (s : ATCBluetoothDeviceData) :
  reachable sys_platform s -> is_encrypted s = false.
Proof.
  induction 1 as [k | s si name data _ IH | s si _ IH | s k _ IH].
  - reflexivity.
  - rewrite is_encrypted_unchanged. exact IH.
  - destruct (_start_update _ _ s) as [r s'] eqn:Hp.
    apply start_update_frame in Hp as (H & _). cbn. congruence.
  - exact IH.
Qed.

End SessionClaims.

Section LayoutClaims.

Context {cipher : AeadCipher} {laws : AeadCipherLaws cipher}.
Variable sys_platform : string.

(** C9: on an 8-byte payload that the helper decrypts, the plaintext has
    three bytes, the call succeeds, and it reports the battery as the low
    seven bits of byte 2 capped at 100 (a raw 127 gives 100), the
    temperature as byte 0 / 2 - 40.0 and the humidity as byte 1 / 2. *)
Theorem atc1441_encrypted_values (s s1 : ATCBluetoothDeviceData)
        (service_info : BluetoothServiceInfo) (name : string)
        (data source_mac plain : bytes) :
  darwin sys_platform = false ->
  source_mac_of service_info = Ret source_mac ->
  len data = 8 ->
  _decrypt_atc data source_mac
    (with_encrypted (Some true) (with_mac_known true s)) = (Ret (Some plain), s1) ->
  exists d0 d1 d2,
    plain = [d0; d1; d2] /\
    fst (_parse_atc sys_platform service_info name data s) = Ret true /\
    let reported := sensor_values (snd (_parse_atc sys_platform service_info name data s)) in
    reported !! "battery" = Some (PyInt (Z.min (byte_val d2 mod 128) 100)) /\
    (byte_val d2 mod 128 = 127 -> reported !! "battery" = Some (PyInt 100)) /\
    reported !! "temperature"
      = Some (PyFloat (PrimFloat.sub (truediv (byte_val d0) 2) 40%float)) /\
    reported !! "humidity" = Some (PyFloat (truediv (byte_val d1) 2)).
Proof using laws.
  intros Hd Hmac Hlen Hdec.
  pose proof (decrypt_atc_outcome _ _ _ _ _ Hdec) as Hout.
  destruct Hout as [(p & [= <-] & -> & Hplain) | [[Hr | [e Hr]] _]];
    [|discriminate Hr|discriminate Hr].
  pose proof Hlen as Hlen'. apply (len_length data 8) in Hlen'.
  assert (Hp : List.length plain = 3%nat).
  { rewrite Hplain. clear -Hlen'. explode data Hlen'. reflexivity. }
  explode plain Hp. rename b into d0, b0 into d1, b1 into d2.
  exists d0, d1, d2. split; [reflexivity|].
  rewrite (parse_atc_atc1441_encrypted _ _ _ _ _ _ Hd Hmac Hlen), Hdec.
  cbn [fst snd]. split; [reflexivity|].
  assert (Hland : Z.land (byte_val d2) 127 = byte_val d2 mod 128).
  { change 127 with (Z.ones 7). rewrite Z.land_ones by lia. reflexivity. }
  cbn [decoded with_device_sw_version with_device_name with_title
       with_sensor_values sensor_values].
  rewrite Hland.
  split; [|split; [|split]].
  - apply lookup_insert_eq.
  - intros ->. rewrite lookup_insert_eq. reflexivity.
  - rewrite lookup_insert_ne, lookup_insert_ne by discriminate.
    apply lookup_insert_eq.
  - rewrite lookup_insert_ne by discriminate. apply lookup_insert_eq.
Qed.

(** C6, as amended: off macOS, for every 15-byte payload of an
    advertisement whose address the decoder reads as the bytes [source_mac]
    (it does for colon-delimited octets): if the first six payload bytes
    reversed differ from [source_mac], the decoder returns [False], reports
    nothing and leaves the object untouched; otherwise it returns [True] and
    reports temperature = signed little-endian 16-bit of bytes 6-7 / 100,
    humidity = unsigned little-endian 16-bit of bytes 8-9 / 100, voltage =
    unsigned little-endian 16-bit of bytes 10-11 / 1000 and battery =
    byte 12. *)
Theorem pvvx_plain_values (s : ATCBluetoothDeviceData)
      (service_info : BluetoothServiceInfo) (name : string)
      (data source_mac : bytes) :
  darwin sys_platform = false ->
  source_mac_of service_info = Ret source_mac ->
  len data = 15 ->
  let byte i := byte_val (List.nth (Z.to_nat i) data x00) in
  let run := _parse_atc sys_platform service_info name data s in
  (reversed (firstn 6 data) <> source_mac -> run = (Ret false, s)) /\
  (reversed (firstn 6 data) = source_mac ->
   fst run = Ret true /\
   sensor_values (snd run) !! "temperature"
     = Some (PyFloat (truediv (signed16 (byte 6 + 256 * byte 7)) 100)) /\
   sensor_values (snd run) !! "humidity"
     = Some (PyFloat (truediv (byte 8 + 256 * byte 9) 100)) /\
   sensor_values (snd run) !! "voltage"
     = Some (PyFloat (truediv (byte 10 + 256 * byte 11) 1000)) /\
   sensor_values (snd run) !! "battery" = Some (PyInt (byte 12))).
Proof.
  intros Hd Hmac Hlen byte run. subst run.
  rewrite (parse_atc_pvvx _ _ _ _ _ _ Hmac Hlen), Hd. cbn [negb andb].
  split.
  - intros Hne. apply bytes_eqb_neq in Hne. rewrite Hne. reflexivity.
  - intros Heq. apply bytes_eqb_eq in Heq. rewrite Heq. cbn [negb fst snd].
    split; [reflexivity|].
    cbn [decoded with_device_sw_version with_device_name with_title
         with_sensor_values sensor_values].
    repeat split.
    + rewrite !lookup_insert_ne by discriminate. apply lookup_insert_eq.
    + rewrite !lookup_insert_ne by discriminate. apply lookup_insert_eq.
    + rewrite lookup_insert_ne by discriminate. apply lookup_insert_eq.
    + apply lookup_insert_eq.
Qed.

(** C7, as amended: for every advertisement whose address the decoder
    reads and every payload whose length is not 15, 13, 11 or 8, the decoder
    returns [False] and the object is exactly as it was. *)
Theorem unrecognized_length (s : ATCBluetoothDeviceData)
      (service_info : BluetoothServiceInfo) (name : string)
      (data source_mac : bytes) :
  source_mac_of service_info = Ret source_mac ->
  len data <> 15 -> len data <> 13 -> len data <> 11 -> len data <> 8 ->
  _parse_atc sys_platform service_info name data s = (Ret false, s).
Proof. apply parse_atc_other_length. Qed.

(** With or without a readable address, such a payload never changes the
    object and never succeeds. *)
Lemma unrecognized_length_pure (s : ATCBluetoothDeviceData)
      (service_info : BluetoothServiceInfo) (name : string) (data : bytes) :
  len data <> 15 -> len data <> 13 -> len data <> 11 -> len data <> 8 ->
  snd (_parse_atc sys_platform service_info name data s) = s /\
  fst (_parse_atc sys_platform service_info name data s) <> Ret true.
Proof.
  intros H15 H13 H11 H8.
  destruct (source_mac_of service_info) as [m|e] eqn:Hmac.
  - rewrite (parse_atc_other_length _ _ _ _ _ _ Hmac H15 H13 H11 H8).
    split; [reflexivity|discriminate].
  - rewrite (parse_atc_address_raises _ _ _ _ _ _ Hmac).
    split; [reflexivity|discriminate].
Qed.

(** Layout B in clear, in the same terms as layout A: the identifier is
    compared in its natural order, the fields are big endian. *)
Lemma atc1441_plain_values (s : ATCBluetoothDeviceData)
      (service_info : BluetoothServiceInfo) (name : string)
      (data source_mac : bytes) :
  darwin sys_platform = false ->
  source_mac_of service_info = Ret source_mac ->
  len data = 13 ->
  let byte i := byte_val (List.nth (Z.to_nat i) data x00) in
  let run := _parse_atc sys_platform service_info name data s in
  (firstn 6 data <> source_mac -> run = (Ret false, s)) /\
  (firstn 6 data = source_mac ->
   fst run = Ret true /\
   sensor_values (snd run) !! "temperature"
     = Some (PyFloat (truediv (signed16 (256 * byte 6 + byte 7)) 10)) /\
   sensor_values (snd run) !! "humidity" = Some (PyInt (byte 8)) /\
   sensor_values (snd run) !! "battery" = Some (PyInt (byte 9)) /\
   sensor_values (snd run) !! "voltage"
     = Some (PyFloat (truediv (256 * byte 10 + byte 11) 1000))).
Proof.
  intros Hd Hmac Hlen byte run. subst run.
  rewrite (parse_atc_atc1441 _ _ _ _ _ _ Hmac Hlen), Hd. cbn [negb andb].
  split.
  - intros Hne. apply bytes_eqb_neq in Hne. rewrite Hne. reflexivity.
  - intros Heq. apply bytes_eqb_eq in Heq. rewrite Heq. cbn [negb fst snd].
    split; [reflexivity|].
    cbn [decoded with_device_sw_version with_device_name with_title
         with_sensor_values sensor_values].
    repeat split.
    + rewrite !lookup_insert_ne by discriminate. apply lookup_insert_eq.
    + rewrite !lookup_insert_ne by discriminate. apply lookup_insert_eq.
    + apply lookup_insert_eq.
    + rewrite lookup_insert_ne by discriminate. apply lookup_insert_eq.
Qed.

(** Layout A encrypted: an 11-byte payload that the helper decrypts gives a
    plaintext of six bytes, and the temperature and humidity are its first
    two little-endian 16-bit fields over 100, the battery its fifth byte;
    no voltage is reported. *)
Lemma pvvx_encrypted_values (s s1 : ATCBluetoothDeviceData)
      (service_info : BluetoothServiceInfo) (name : string)
      (data source_mac plain : bytes) :
  darwin sys_platform = false ->
  source_mac_of service_info = Ret source_mac ->
  len data = 11 ->
  _decrypt_atc data source_mac
    (with_encrypted (Some true) (with_mac_known true s)) = (Ret (Some plain), s1) ->
  let byte i := byte_val (List.nth (Z.to_nat i) plain x00) in
  let run := _parse_atc sys_platform service_info name data s in
  len plain = 6 /\
  fst run = Ret true /\
  sensor_values (snd run) !! "temperature"
    = Some (PyFloat (truediv (signed16 (byte 0 + 256 * byte 1)) 100)) /\
  sensor_values (snd run) !! "humidity"
    = Some (PyFloat (truediv (byte 2 + 256 * byte 3) 100)) /\
  sensor_values (snd run) !! "battery" = Some (PyInt (byte 4)) /\
  sensor_values (snd run) !! "voltage" = sensor_values s !! "voltage".
Proof using laws.
  intros Hd Hmac Hlen Hdec byte run. subst run.
  pose proof (decrypt_atc_outcome _ _ _ _ _ Hdec) as Hout.
  destruct Hout as [(p & [= <-] & -> & Hplain) | [[Hr | [e Hr]] _]];
    [|discriminate Hr|discriminate Hr].
  pose proof Hlen as Hlen'. apply (len_length data 11) in Hlen'.
  assert (Hp : List.length plain = 6%nat).
  { rewrite Hplain. clear -Hlen'. explode data Hlen'. reflexivity. }
  subst byte. explode plain Hp.
  rewrite (parse_atc_pvvx_encrypted _ _ _ _ _ _ Hd Hmac Hlen), Hdec.
  cbn -[truediv signed16 byte_val lookup insert].
  split; [reflexivity|]. split; [reflexivity|].
  repeat split.
  - rewrite !lookup_insert_ne by discriminate. apply lookup_insert_eq.
  - rewrite lookup_insert_ne by discriminate. apply lookup_insert_eq.
  - apply lookup_insert_eq.
  - rewrite !lookup_insert_ne by discriminate. reflexivity.
Qed.

End LayoutClaims.

(** ** The vectors of the tests and the sessions that go wrong *)

(** C10: the 13-byte layout-B payload [a4 c1 38 8d 18 b2 01 12 2f 64 0c a0 25]
    from address [A4:C1:38:8D:18:B2] decodes, and yields temperature 27.4,
    humidity 47, battery 100 and voltage 3.232. *)
Theorem atc1441_plain_vector :
  let run := _parse_atc "linux" (advertisement atc1441_plain) "ATC_8D18B2"
                        atc1441_plain (__init__ "linux" None) in
  fst run = Ret true /\
  sensor_values (snd run) !! "temperature" = Some (PyFloat 27.4) /\
  sensor_values (snd run) !! "humidity" = Some (PyInt 47) /\
  sensor_values (snd run) !! "battery" = Some (PyInt 100) /\
  sensor_values (snd run) !! "voltage" = Some (PyFloat 3.232) /\
  title (snd run) = Some "ATC_8D18B2 (A4:C1:38:8D:18:B2)" /\
  device_sw_version (snd run) = Some "ATC (atc1441)".
Proof. vm_compute. repeat split. Qed.

(** The other three vectors of the tests. *)
Lemma pvvx_plain_vector :
  let run := _parse_atc "linux" (advertisement pvvx_plain) "ATC_8D18B2"
                        pvvx_plain (__init__ "linux" None) in
  fst run = Ret true /\
  sensor_values (snd run) !! "temperature" = Some (PyFloat 26.49) /\
  sensor_values (snd run) !! "humidity" = Some (PyFloat 50.37) /\
  sensor_values (snd run) !! "battery" = Some (PyInt 31) /\
  sensor_values (snd run) !! "voltage" = Some (PyFloat 2.486).
Proof. vm_compute. repeat split. Qed.

Lemma pvvx_encrypted_vector :
  let run := _parse_atc "linux" (advertisement pvvx_encrypted) "ATC_8D18B2"
                        pvvx_encrypted (__init__ "linux" (Some test_bindkey)) in
  fst run = Ret true /\
  sensor_values (snd run) !! "temperature" = Some (PyFloat 23.45) /\
  sensor_values (snd run) !! "humidity" = Some (PyFloat 41.73) /\
  sensor_values (snd run) !! "battery" = Some (PyInt 61) /\
  sensor_values (snd run) !! "voltage" = None /\
  bindkey_verified (snd run) = true.
Proof. vm_compute. repeat split. Qed.

Lemma atc1441_encrypted_vector :
  let run := _parse_atc "linux" (advertisement atc1441_encrypted) "ATC_8D18B2"
                        atc1441_encrypted (__init__ "linux" (Some test_bindkey)) in
  fst run = Ret true /\
  sensor_values (snd run) !! "temperature" = Some (PyFloat 26.5) /\
  sensor_values (snd run) !! "humidity" = Some (PyFloat 47) /\
  sensor_values (snd run) !! "battery" = Some (PyInt 100) /\
  bindkey_verified (snd run) = true.
Proof. vm_compute. repeat split. Qed.

(** C1: a session that has verified its key, then receives the same payload
    with a corrupted tag.  The helper returns [None] and the decode fails,
    but [bindkey_verified] is still true: the handler of the verification
    failure does not clear it.  The same happens when the key is replaced by
    a wrong one and the advertisement is processed again. *)
Theorem bindkey_verified_kept_after_mac_failure :
  let s0 := __init__ "linux" (Some test_bindkey) in
  let s1 := snd (_parse_atc "linux" (advertisement pvvx_encrypted) "ATC_8D18B2"
                            pvvx_encrypted s0) in
  let run := _parse_atc "linux" (advertisement pvvx_encrypted_bad_tag) "ATC_8D18B2"
                        pvvx_encrypted_bad_tag s1 in
  let rerun := _parse_atc "linux" (advertisement pvvx_encrypted) "ATC_8D18B2"
                          pvvx_encrypted (with_bindkey (Some wrong_bindkey) s1) in
  bindkey_verified s1 = true /\
  _decrypt_atc pvvx_encrypted_bad_tag test_mac s1 = (Ret None, s1) /\
  fst run = Ret false /\
  bindkey_verified (snd run) = true /\
  fst rerun = Ret false /\
  bindkey_verified (snd rerun) = true.
Proof. vm_compute. repeat split. Qed.

(** C3: an encrypted payload is decoded on Linux, and [is_encrypted] is
    still false afterwards; the decoder has written an attribute named
    [encrypted] instead. *)
Theorem is_encrypted_not_set :
  let run := _parse_atc "linux" (advertisement pvvx_encrypted) "ATC_8D18B2"
                        pvvx_encrypted (__init__ "linux" (Some test_bindkey)) in
  fst run = Ret true /\
  is_encrypted (snd run) = false /\
  encrypted (snd run) = Some true.
Proof. vm_compute. repeat split. Qed.

(** [short_address], in the same file, reads dashes as colons. *)
Lemma short_address_dashes :
  short_address "A4-C1-38-8D-18-B2" = Ret "18B2" /\
  short_address "A4:C1:38:8D:18:B2" = Ret "18B2" /\
  short_address "6ffba4e2-5a9a-4b3d-a5b2-5b5b5b5b5b5b" = Ret "5B5B5B5B5B5B".
Proof. vm_compute. repeat split. Qed.

(** C4, as stated, fails: an advertisement whose address is written with
    dashes makes the decoder raise [ValueError] from [bytes.fromhex], for
    [_parse_atc] and for [_start_update] alike; an identifier shorter than
    three characters makes it raise [IndexError]. *)
Lemma dash_address_raises :
  _parse_atc "linux" (advertisement_dashes atc1441_plain) "ATC_8D18B2"
             atc1441_plain (__init__ "linux" None)
  = (Raise ValueError, __init__ "linux" None) /\
  fst (_start_update "linux" (advertisement_dashes atc1441_plain)
                     (__init__ "linux" None)) = Raise ValueError /\
  fst (_parse_atc "darwin" (bytes_to_service_info atc1441_plain "ATC_8D18B2" "id")
                  "ATC_8D18B2" atc1441_plain (__init__ "darwin" None))
  = Raise IndexError.
Proof. vm_compute. repeat split. Qed.

(** C6, as stated, fails on the layout-A vector of the tests received from
    the same address written with dashes: the embedded identifier is that
    address, yet no measurement is reported; the decoder raises [ValueError]
    before it looks at the payload. *)
Lemma pvvx_plain_dash_address_raises :
  _parse_atc "linux" (advertisement_dashes pvvx_plain) "ATC_8D18B2"
             pvvx_plain (__init__ "linux" None)
  = (Raise ValueError, __init__ "linux" None).
Proof. vm_compute. reflexivity. Qed.

(** C7, as stated, fails on a payload of five bytes received from an
    address written with dashes: the decoder does not return [False], it
    raises [ValueError] before it looks at the length. *)
Lemma unrecognized_length_dash_address_raises :
  _parse_atc "linux" (advertisement_dashes [x01; x02; x03; x04; x05]) "ATC_8D18B2"
             [x01; x02; x03; x04; x05] (__init__ "linux" None)
  = (Raise ValueError, __init__ "linux" None).
Proof. vm_compute. reflexivity. Qed.

Section FlagIrrelevant.

Context {cipher : AeadCipher}.
Variable sys_platform : string.

Lemma same_but_flag_fields (s1 s2 : ATCBluetoothDeviceData) :
  same_but_flag s1 s2 ->
  bindkey s1 = bindkey s2 /\ sensor_values s1 = sensor_values s2.
Proof.
  unfold same_but_flag. intros H.
  split.
  - apply (f_equal bindkey) in H. exact H.
  - apply (f_equal sensor_values) in H. exact H.
Qed.

Lemma same_but_flag_decoded (s1 s2 : ATCBluetoothDeviceData) m service_info name firmware :
  same_but_flag s1 s2 ->
  same_but_flag (decoded m service_info name firmware s1)
                (decoded m service_info name firmware s2).
Proof.
  unfold same_but_flag. intros H.
  change (with_bindkey_verified false (decoded m service_info name firmware s1))
    with (decoded m service_info name firmware (with_bindkey_verified false s1)).
  change (with_bindkey_verified false (decoded m service_info name firmware s2))
    with (decoded m service_info name firmware (with_bindkey_verified false s2)).
  rewrite H. reflexivity.
Qed.

(** The helper reads the key, never the flag. *)
Lemma decrypt_atc_flag_irrelevant (s1 s2 : ATCBluetoothDeviceData) (data atc_mac : bytes) :
  same_but_flag s1 s2 ->
  fst (_decrypt_atc data atc_mac s1) = fst (_decrypt_atc data atc_mac s2) /\
  same_but_flag (snd (_decrypt_atc data atc_mac s1)) (snd (_decrypt_atc data atc_mac s2)).
Proof.
  intros Hs. pose proof (same_but_flag_fields _ _ Hs) as [Hk _].
  unfold _decrypt_atc, decrypt_request, bind, get, modify, ret, raise, lift.
  cbv beta. rewrite Hk.
  destruct (bindkey_falsy (bindkey s2)) eqn:Hf; [split; [reflexivity|exact Hs]|].
  cbv beta iota. rewrite ?Hk, ?Hf. cbn [orb].
  destruct (negb _); [split; [reflexivity|exact Hs]|].
  cbv beta iota.
  destruct (prepare_request _ _ _) as [req|e]; [|split; [reflexivity|exact Hs]].
  destruct (AES_new _ _ _) as [c|e]; [|split; [reflexivity|exact Hs]].
  destruct (decrypt_and_verify _ _ _) as [[p|]|[]];
    (split; [reflexivity|exact Hs]).
Qed.

(** So does the decoder: what it returns does not depend on the flag. *)
Lemma parse_atc_flag_irrelevant (s1 s2 : ATCBluetoothDeviceData)
      (service_info : BluetoothServiceInfo) (name : string) (data : bytes) :
  same_but_flag s1 s2 ->
  fst (_parse_atc sys_platform service_info name data s1)
  = fst (_parse_atc sys_platform service_info name data s2) /\
  same_but_flag (snd (_parse_atc sys_platform service_info name data s1))
                (snd (_parse_atc sys_platform service_info name data s2)).
Proof.
  intros Hs. pose proof (same_but_flag_fields _ _ Hs) as [_ Hv].
  destruct (source_mac_of service_info) as [m|e] eqn:Hmac.
  2:{ rewrite !(parse_atc_address_raises _ _ _ _ _ _ Hmac). auto. }
  destruct (Z.eq_dec (len data) 15) as [H15|H15].
  { rewrite !(parse_atc_pvvx _ _ _ _ _ _ Hmac H15), Hv.
    destruct (_ && _); cbn [fst snd]; [auto|].
    split; [reflexivity|]. apply same_but_flag_decoded, Hs. }
  destruct (Z.eq_dec (len data) 13) as [H13|H13].
  { rewrite !(parse_atc_atc1441 _ _ _ _ _ _ Hmac H13), Hv.
    destruct (_ && _); cbn [fst snd]; [auto|].
    split; [reflexivity|]. apply same_but_flag_decoded, Hs. }
  assert (Henc : same_but_flag (with_encrypted (Some true) (with_mac_known true s1))
                               (with_encrypted (Some true) (with_mac_known true s2))).
  { unfold same_but_flag in *.
    change (with_bindkey_verified false (with_encrypted (Some true) (with_mac_known true ?s)))
      with (with_encrypted (Some true) (with_mac_known true (with_bindkey_verified false s))).
    rewrite Hs. reflexivity. }
  pose proof (decrypt_atc_flag_irrelevant _ _ data m Henc) as [Hr Hs'].
  destruct (Z.eq_dec (len data) 11) as [H11|H11].
  { destruct (darwin sys_platform) eqn:Hd.
    { rewrite !(parse_atc_encrypted_darwin _ _ _ _ _ _ Hd Hmac (or_introl H11)). auto. }
    rewrite !(parse_atc_pvvx_encrypted _ _ _ _ _ _ Hd Hmac H11).
    destruct (_decrypt_atc data m (with_encrypted _ (with_mac_known _ s1))) as [r1 t1].
    destruct (_decrypt_atc data m (with_encrypted _ (with_mac_known _ s2))) as [r2 t2].
    cbn [fst snd] in Hr, Hs'. subst r2.
    pose proof (same_but_flag_fields _ _ Hs') as [_ Hv'].
    destruct r1 as [[plain|]|e]; cbn [fst snd]; auto.
    destruct (unpack _ plain) as [[|temp [|hum [|bat [|trg [|? ?]]]]]|e];
      cbn [fst snd]; auto.
    rewrite Hv'. split; [reflexivity|]. apply same_but_flag_decoded, Hs'. }
  destruct (Z.eq_dec (len data) 8) as [H8|H8].
  { destruct (darwin sys_platform) eqn:Hd.
    { rewrite !(parse_atc_encrypted_darwin _ _ _ _ _ _ Hd Hmac (or_intror H8)). auto. }
    rewrite !(parse_atc_atc1441_encrypted _ _ _ _ _ _ Hd Hmac H8).
    destruct (_decrypt_atc data m (with_encrypted _ (with_mac_known _ s1))) as [r1 t1].
    destruct (_decrypt_atc data m (with_encrypted _ (with_mac_known _ s2))) as [r2 t2].
    cbn [fst snd] in Hr, Hs'. subst r2.
    pose proof (same_but_flag_fields _ _ Hs') as [_ Hv'].
    destruct r1 as [[plain|]|e]; cbn [fst snd]; auto.
    destruct plain as [|d0 [|d1 [|d2 rest]]]; cbn [fst snd]; auto.
    rewrite Hv'. split; [reflexivity|]. apply same_but_flag_decoded, Hs'. }
  rewrite !(parse_atc_other_length _ _ _ _ _ _ Hmac H15 H13 H11 H8). auto.
Qed.

End FlagIrrelevant.

(** ** The helper as the decoder runs it *)

Section HelperInContext.

Context {cipher : AeadCipher}.
Variable sys_platform : string.

(** C5: [_parse_atc] runs the helper on the payloads of 11 and of 8 bytes
    and on no other: for any other length the decode is the same whatever
    the cipher.  For every payload that reaches the helper, a configured
    16-byte key and the 6-byte source identifier, the nonce handed to the
    cipher is exactly 11 bytes: the identifier reversed, one byte equal to
    [len(payload) + 3], the tag [16 1a 18] and payload byte 0; the
    additional data is the single byte [0x11]; the cipher text is the
    payload bytes 1 to [len - 5]; the tag is the last four payload bytes,
    and the tag length asked for is 4. *)
Theorem decrypt_atc_request (s : ATCBluetoothDeviceData) (data atc_mac key : bytes) :
  bindkey s = Some key -> len key = 16 -> len atc_mac = 6 ->
  let nonce := reversed atc_mac ++ [byte_of_Z (len data + 3)]
                 ++ [x16; x1a; x18] ++ [List.nth 0 data x00] in
  let cipherpayload := firstn (Z.to_nat (len data - 5)) (skipn 1 data) in
  let token := skipn (Z.to_nat (len data - 4)) data in
  (len data = 11 \/ len data = 8 ->
   len nonce = 11 /\
   byte_val (byte_of_Z (len data + 3)) = len data + 3 /\
   len cipherpayload = len data - 5 /\
   len token = 4 /\
   data = List.nth 0 data x00 :: cipherpayload ++ token /\
   _decrypt_atc data atc_mac s =
   match AES_new key nonce 4 with
   | Raise e => (Raise e, s)
   | Ret c =>
       match decrypt_and_verify (cipher_update c [x11]) cipherpayload token with
       | Ret (Some decrypted_payload) =>
           (Ret (Some decrypted_payload), with_bindkey_verified true s)
       | Ret None => (Ret None, with_bindkey_verified false s)
       | Raise ValueError => (Ret None, s)
       | Raise e => (Raise e, s)
       end
   end) /\
  (len data <> 11 -> len data <> 8 ->
   forall (cipher' : AeadCipher) service_info name t,
     @_parse_atc cipher' sys_platform service_info name data t
     = @_parse_atc cipher sys_platform service_info name data t).
Proof.
  intros Hk Hkey Hmac nonce cipherpayload token. split.
  - intros Hlen.
    assert (Hrange : 5 <= len data <= 252) by lia.
    split; [|split; [|split; [|split; [|split]]]].
    + subst nonce. rewrite !len_app, len_rev, Hmac. reflexivity.
    + apply byte_val_of_Z. lia.
    + subst cipherpayload. unfold len in *.
      rewrite List.length_firstn, List.length_skipn. lia.
    + subst token. unfold len in *. rewrite List.length_skipn. lia.
    + subst cipherpayload token.
      destruct data as [|b0 data']; [unfold len in Hrange; simpl in Hrange; lia|].
      cbn [List.nth skipn]. f_equal.
      replace (len (b0 :: data') - 4) with (Z.of_nat (S (Z.to_nat (len data' - 4)))).
      2:{ unfold len in *. simpl List.length in *. lia. }
      rewrite Nat2Z.id. cbn [skipn].
      replace (len (b0 :: data') - 5) with (len data' - 4).
      2:{ unfold len. simpl List.length. lia. }
      symmetry. apply List.firstn_skipn.
    + apply decrypt_atc_cipher_calls; [assumption | assumption | assumption | lia].
  - intros H11 H8 cipher' service_info name t.
    destruct (source_mac_of service_info) as [mac|e] eqn:Hsrc.
    2:{ rewrite (@parse_atc_address_raises cipher' _ _ _ _ _ _ Hsrc).
        rewrite (@parse_atc_address_raises cipher _ _ _ _ _ _ Hsrc). reflexivity. }
    destruct (Z.eq_dec (len data) 15) as [H15|H15].
    { rewrite (@parse_atc_pvvx cipher' _ _ _ _ _ _ Hsrc H15).
      rewrite (@parse_atc_pvvx cipher _ _ _ _ _ _ Hsrc H15). reflexivity. }
    destruct (Z.eq_dec (len data) 13) as [H13|H13].
    { rewrite (@parse_atc_atc1441 cipher' _ _ _ _ _ _ Hsrc H13).
      rewrite (@parse_atc_atc1441 cipher _ _ _ _ _ _ Hsrc H13). reflexivity. }
    rewrite (@parse_atc_other_length cipher' _ _ _ _ _ _ Hsrc H15 H13 H11 H8).
    rewrite (@parse_atc_other_length cipher _ _ _ _ _ _ Hsrc H15 H13 H11 H8).
    reflexivity.
Qed.

(** C8: without a configured key (none, or an empty one) and with a key of
    any length other than 16, the helper returns [None] whatever the
    payload: no plaintext, nothing raised, [bindkey_verified] cleared and
    nothing else of the session changed.  The session stays usable: any
    later advertisement is decoded with the same outcome, and the same
    effect on everything but the flag, as if the failed call had not
    happened.  Seen from the decoder, an encrypted-format payload then
    returns [False] with the flag cleared and no reading, title or key
    touched. *)
Theorem decrypt_atc_unusable_key (s : ATCBluetoothDeviceData) (data atc_mac : bytes) :
  (bindkey s = None \/ exists k, bindkey s = Some k /\ len k <> 16) ->
  _decrypt_atc data atc_mac s = (Ret None, with_bindkey_verified false s) /\
  bindkey_verified (snd (_decrypt_atc data atc_mac s)) = false /\
  (forall service_info name data',
     fst (_parse_atc sys_platform service_info name data' (with_bindkey_verified false s))
     = fst (_parse_atc sys_platform service_info name data' s) /\
     same_but_flag
       (snd (_parse_atc sys_platform service_info name data' (with_bindkey_verified false s)))
       (snd (_parse_atc sys_platform service_info name data' s))) /\
  (forall service_info name source_mac,
     darwin sys_platform = false ->
     source_mac_of service_info = Ret source_mac ->
     len data = 11 \/ len data = 8 ->
     let run := _parse_atc sys_platform service_info name data s in
     fst run = Ret false /\
     bindkey_verified (snd run) = false /\
     sensor_values (snd run) = sensor_values s /\
     title (snd run) = title s /\
     bindkey (snd run) = bindkey s).
Proof.
  intros Hkey.
  split; [apply decrypt_atc_no_key, Hkey|].
  split; [rewrite (decrypt_atc_no_key _ _ _ Hkey); reflexivity|].
  split.
  - intros service_info name data'.
    apply parse_atc_flag_irrelevant. reflexivity.
  - intros service_info name source_mac Hd Hsrc Hlen run. subst run.
    assert (Hkey' : bindkey (with_encrypted (Some true) (with_mac_known true s)) = None \/
                    exists k, bindkey (with_encrypted (Some true) (with_mac_known true s))
                              = Some k /\ len k <> 16) by exact Hkey.
    destruct Hlen as [H11 | H8].
    + rewrite (parse_atc_pvvx_encrypted _ _ _ _ _ _ Hd Hsrc H11).
      rewrite (decrypt_atc_no_key _ data source_mac Hkey'). cbn. auto.
    + rewrite (parse_atc_atc1441_encrypted _ _ _ _ _ _ Hd Hsrc H8).
      rewrite (decrypt_atc_no_key _ data source_mac Hkey'). cbn. auto.
Qed.

End HelperInContext.

(** ** Addresses the decoder can read *)

Lemma fromhex_format_02X (b : byte) (rest : string) :
  fromhex (format_02X (byte_val b) ++ rest) = result_map (cons b) (fromhex rest).
Proof. destruct b; reflexivity. Qed.

Lemma str_replace_format_02X (b : byte) (rest : string) :
  str_replace ":" "" (format_02X (byte_val b) ++ rest)
  = (format_02X (byte_val b) ++ str_replace ":" "" rest)%string.
Proof. destruct b; reflexivity. Qed.

Lemma str_replace_colon (rest : string) :
  str_replace ":" "" (":" ++ rest) = str_replace ":" "" rest.
Proof. reflexivity. Qed.

(** A six-byte address formatted by [to_mac] has 17 characters and is read
    back as the same six bytes. *)
Lemma source_mac_of_to_mac (service_info : BluetoothServiceInfo) (m : bytes) :
  len m = 6 -> address service_info = to_mac m ->
  source_mac_of service_info = Ret m.
Proof.
  intros Hlen Haddr. apply (len_length m 6) in Hlen. explode m Hlen.
  unfold source_mac_of. rewrite Haddr.
  change (str_len (to_mac [b; b0; b1; b2; b3; b4])) with 17.
  change (negb (17 =? 17)) with false. cbv iota.
  change (to_mac [b; b0; b1; b2; b3; b4])
    with (format_02X (byte_val b) ++ ":" ++ format_02X (byte_val b0) ++ ":" ++
          format_02X (byte_val b1) ++ ":" ++ format_02X (byte_val b2) ++ ":" ++
          format_02X (byte_val b3) ++ ":" ++ format_02X (byte_val b4) ++ "")%string.
  repeat (rewrite str_replace_format_02X || rewrite str_replace_colon).
  rewrite !fromhex_format_02X. reflexivity.
Qed.

(** A longer or shorter identifier whose third character is not a colon is
    read as the all-zero address. *)
Lemma source_mac_of_opaque (service_info : BluetoothServiceInfo) (c : ascii) :
  str_len (address service_info) <> 17 ->
  String.get 2 (address service_info) = Some c -> c <> ":"%char ->
  source_mac_of service_info = Ret [x00; x00; x00; x00; x00; x00].
Proof.
  intros Hlen Hget Hc. unfold source_mac_of, str_index.
  apply Z.eqb_neq in Hlen. rewrite Hlen, Hget. cbn [negb result_map].
  apply Ascii.eqb_neq in Hc. rewrite Hc. reflexivity.
Qed.

(** A hexadecimal digit is neither whitespace nor a colon. *)
Lemma is_hex_facts (c : ascii) :
  is_hex c = true ->
  is_space c = false /\ Ascii.eqb c ":" = false /\ exists v, hex_digit c = Some v.
Proof.
  unfold is_hex. destruct (hex_digit c) as [v|] eqn:Hv; [|discriminate].
  intros _. split; [|split; [|exists v; reflexivity]].
  - destruct c as [[] [] [] [] [] [] [] []]; try reflexivity; discriminate Hv.
  - destruct c as [[] [] [] [] [] [] [] []]; try reflexivity; discriminate Hv.
Qed.

(** The text of [n] colon-delimited octets has [3n - 1] characters and is
    read, once the colons are removed, as [n] bytes. *)
Lemma mac_text_fromhex (n : nat) (s : string) :
  mac_text n s = true ->
  String.length s = (3 * n - 1)%nat /\
  exists m, List.length m = n /\ fromhex (str_replace ":" "" s) = Ret m.
Proof.
  revert s. induction n as [|n IH]; intros s; [discriminate|].
  cbn [mac_text].
  destruct s as [|a [|b rest]]; try discriminate.
  rewrite !andb_true_iff. intros [[Ha Hb] Hrest].
  apply is_hex_facts in Ha as (Has & Hac & va & Hav).
  apply is_hex_facts in Hb as (Hbs & Hbc & vb & Hbv).
  assert (Hstep : forall tail,
             fromhex (str_replace ":" "" (String a (String b tail)))
             = result_map (cons (byte_of_Z (16 * va + vb)))
                          (fromhex (str_replace ":" "" tail))).
  { intros tail. cbn [str_replace]. rewrite Hac, Hbc.
    cbn [fromhex]. rewrite Has, Hav, Hbv. reflexivity. }
  destruct rest as [|c s'].
  - apply Nat.eqb_eq in Hrest. subst n. split; [reflexivity|].
    exists [byte_of_Z (16 * va + vb)]. split; [reflexivity|].
    rewrite Hstep. reflexivity.
  - apply andb_true_iff in Hrest as [Hc Hs'].
    apply Ascii.eqb_eq in Hc. subst c.
    destruct (IH s' Hs') as (Hlen & m & Hm & Hhex).
    split.
    + cbn [String.length]. rewrite Hlen.
      destruct n; [discriminate Hs'|]. lia.
    + exists (byte_of_Z (16 * va + vb) :: m). split; [cbn; lia|].
      rewrite Hstep. change (str_replace ":" "" (String ":" s'))
        with (str_replace ":" "" s').
      rewrite Hhex. reflexivity.
Qed.

(** Six colon-delimited octets are read as six bytes. *)
Lemma source_mac_of_mac_text (service_info : BluetoothServiceInfo) :
  mac_text 6 (address service_info) = true ->
  exists m, len m = 6 /\ source_mac_of service_info = Ret m.
Proof.
  intros H. apply mac_text_fromhex in H as (Hlen & m & Hm & Hhex).
  exists m. split; [unfold len; lia|].
  unfold source_mac_of, str_len. rewrite Hlen.
  change (negb (Z.of_nat (3 * 6 - 1) =? 17)) with false. cbv iota.
  exact Hhex.
Qed.

Section NeverRaises.

Context {cipher : AeadCipher} {laws : AeadCipherLaws cipher}.
Variable sys_platform : string.

(** On a six-byte address and a payload of 1 to 252 bytes the helper
    returns. *)
Lemma decrypt_atc_returns (s : ATCBluetoothDeviceData) (data atc_mac : bytes) :
  len atc_mac = 6 -> 1 <= len data <= 252 ->
  exists v, fst (_decrypt_atc data atc_mac s) = Ret v.
Proof using laws.
  intros Hmac Hlen.
  unfold _decrypt_atc, decrypt_request, bind, get, modify, ret, raise, lift.
  destruct (bindkey_falsy (bindkey s)) eqn:Hf; [eexists; reflexivity|].
  cbv beta iota. rewrite ?Hf. cbn [orb].
  destruct (len (default [] (bindkey s)) =? 16) eqn:Hk; [|eexists; reflexivity].
  cbn [negb]. cbv beta iota.
  unfold prepare_request, to_bytes1.
  destruct (Z.leb_spec 0 (len data + 3)); [|lia].
  destruct (Z.ltb_spec (len data + 3) 256); [|lia].
  cbn [andb req_key req_nonce req_mac_len req_aad req_cipherpayload req_token].
  match goal with
  | |- context [AES_new ?k ?n 4] =>
      destruct (AES_new_accepts k n) as [c Hc]
  end.
  { apply Z.eqb_eq, Hk. }
  { cbn [List.concat]. rewrite List.app_nil_r, !len_app, len_rev, Hmac.
    rewrite slice_prefix_none by lia.
    destruct data as [|d0 data']; [unfold len in Hlen; simpl in Hlen; lia|].
    change (len (firstn (Z.to_nat 1) (d0 :: data'))) with 1.
    change (len [byte_of_Z (len (d0 :: data') + 3)]) with 1.
    change (len [x16; x1a; x18]) with 3. lia. }
  rewrite Hc.
  destruct (decrypt_and_verify _ _ _) as [[p|]|e] eqn:Hdec;
    try (eexists; reflexivity).
  apply decrypt_and_verify_raises in Hdec. subst e. eexists; reflexivity.
Qed.

(** Whenever the address is read as six bytes, whatever the payload, the
    decoder returns. *)
Lemma readable_address_never_raises (s : ATCBluetoothDeviceData)
      (service_info : BluetoothServiceInfo) (name : string)
      (data source_mac : bytes) :
  source_mac_of service_info = Ret source_mac -> len source_mac = 6 ->
  exists ok, fst (_parse_atc sys_platform service_info name data s) = Ret ok.
Proof using laws.
  intros Hmac Hm.
  destruct (Z.eq_dec (len data) 15) as [H15|H15].
  { rewrite (parse_atc_pvvx _ _ _ _ _ _ Hmac H15).
    destruct (_ && _); eexists; reflexivity. }
  destruct (Z.eq_dec (len data) 13) as [H13|H13].
  { rewrite (parse_atc_atc1441 _ _ _ _ _ _ Hmac H13).
    destruct (_ && _); eexists; reflexivity. }
  destruct (Z.eq_dec (len data) 11) as [H11|H11].
  { destruct (darwin sys_platform) eqn:Hd.
    { rewrite (parse_atc_encrypted_darwin _ _ _ _ _ _ Hd Hmac (or_introl H11)).
      eexists; reflexivity. }
    rewrite (parse_atc_pvvx_encrypted _ _ _ _ _ _ Hd Hmac H11).
    destruct (decrypt_atc_returns
                (with_encrypted (Some true) (with_mac_known true s)) data source_mac Hm)
      as [v Hv]; [lia|].
    destruct (_decrypt_atc _ _ _) as [r1 s1] eqn:Hdec. cbn [fst] in Hv. subst r1.
    destruct v as [plain|]; [|eexists; reflexivity].
    apply decrypt_atc_outcome in Hdec.
    destruct Hdec as [(p & [= <-] & _ & Hplain) | [[Hr | [e Hr]] _]];
      [|discriminate Hr|discriminate Hr].
    apply (len_length data 11) in H11. explode data H11.
    change (List.length (slice _ _ _)) with 6%nat in Hplain.
    explode plain Hplain. eexists; reflexivity. }
  destruct (Z.eq_dec (len data) 8) as [H8|H8].
  { destruct (darwin sys_platform) eqn:Hd.
    { rewrite (parse_atc_encrypted_darwin _ _ _ _ _ _ Hd Hmac (or_intror H8)).
      eexists; reflexivity. }
    rewrite (parse_atc_atc1441_encrypted _ _ _ _ _ _ Hd Hmac H8).
    destruct (decrypt_atc_returns
                (with_encrypted (Some true) (with_mac_known true s)) data source_mac Hm)
      as [v Hv]; [lia|].
    destruct (_decrypt_atc _ _ _) as [r1 s1] eqn:Hdec. cbn [fst] in Hv. subst r1.
    destruct v as [plain|]; [|eexists; reflexivity].
    apply decrypt_atc_outcome in Hdec.
    destruct Hdec as [(p & [= <-] & _ & Hplain) | [[Hr | [e Hr]] _]];
      [|discriminate Hr|discriminate Hr].
    apply (len_length data 8) in H8. explode data H8.
    change (List.length (slice _ _ _)) with 3%nat in Hplain.
    explode plain Hplain. eexists; reflexivity. }
  rewrite (parse_atc_other_length _ _ _ _ _ _ Hmac H15 H13 H11 H8).
  eexists; reflexivity.
Qed.

(** C4, as amended: for every advertisement whose source address is six
    colon-delimited hexadecimal octets, or an opaque identifier of a length
    other than 17 whose third character is not a colon (a UUID, say), the
    decoder returns [True] or [False] and raises nothing, whatever the
    payload, the platform and the session. *)
Theorem decode_never_raises (s : ATCBluetoothDeviceData)
        (service_info : BluetoothServiceInfo) (name : string) (data : bytes) :
  mac_text 6 (address service_info) = true \/
  (str_len (address service_info) <> 17 /\
   exists c, String.get 2 (address service_info) = Some c /\ c <> ":"%char) ->
  exists ok, fst (_parse_atc sys_platform service_info name data s) = Ret ok.
Proof using laws.
  intros [Hmac | (Hlen & c & Hget & Hc)].
  - destruct (source_mac_of_mac_text _ Hmac) as (m & Hm & Hsrc).
    exact (readable_address_never_raises s service_info name data m Hsrc Hm).
  - apply (readable_address_never_raises s service_info name data
             [x00; x00; x00; x00; x00; x00]);
      [exact (source_mac_of_opaque _ _ Hlen Hget Hc) | reflexivity].
Qed.

End NeverRaises.

(** ** [short_address] and [to_mac] *)

(** [split] returns at least one part, and exactly one, the string itself,
    when the separator does not occur. *)
Lemma str_split_shape (sep : ascii) (s : string) :
  exists h tl, str_split sep s = h :: tl /\
    (tl = [] -> h = s) /\
    (tl = [] <-> forall c, In c (list_ascii_of_string s) -> c <> sep).
Proof.
  induction s as [|c s (h & tl & Hs & Hh & Htl)]; cbn [str_split].
  - exists "", []. repeat split; auto.
  - destruct (Ascii.eqb_spec c sep) as [->|Hc].
    + exists "", (str_split sep s). rewrite Hs. repeat split; try discriminate.
      intros H. exfalso. apply (H sep); [left|]; reflexivity.
    + rewrite Hs. exists (String c h), tl. repeat split.
      * intros H. rewrite (Hh H). reflexivity.
      * intros H c' [<- | Hin]; [exact Hc | exact (proj1 Htl H c' Hin)].
      * intros H. apply Htl. intros c' Hin. apply H. right. exact Hin.
Qed.

Lemma str_replace_dash (c : ascii) (s : string) :
  str_replace "-" ":" (String c s)
  = String (if Ascii.eqb c "-" then ":"%char else c) (str_replace "-" ":" s).
Proof. cbn [str_replace]. destruct (Ascii.eqb c "-"); reflexivity. Qed.

Lemma index_from_end_1 {A} (init : list A) (x : A) :
  index_from_end (init ++ [x]) 1 = Ret x.
Proof. unfold index_from_end. rewrite List.rev_app_distr. reflexivity. Qed.

Lemma index_from_end_2 {A} (init : list A) (x y : A) :
  index_from_end (init ++ [x; y]) 2 = Ret x.
Proof. unfold index_from_end. rewrite List.rev_app_distr. reflexivity. Qed.

Lemma str_replace_dash_colon (s : string) :
  str_replace "-" ":" (str_replace ":" "-" s) = str_replace "-" ":" s.
Proof.
  induction s as [|c s IH]; [reflexivity|].
  destruct (Ascii.eqb_spec c ":") as [->|Hc].
  - change (String ":" (str_replace "-" ":" (str_replace ":" "-" s))
            = String ":" (str_replace "-" ":" s)).
    rewrite IH. reflexivity.
  - apply Ascii.eqb_neq in Hc.
    replace (str_replace ":" "-" (String c s)) with (String c (str_replace ":" "-" s))
      by (cbn [str_replace]; rewrite Hc; reflexivity).
    rewrite !str_replace_dash, IH. reflexivity.
Qed.

(** An address written with dashes in place of its colons has the same
    short form as the address written with colons, and raises when it
    does. *)
Lemma short_address_dash_colon (address : string) :
  short_address (str_replace ":" "-" address) = short_address address.
Proof. unfold short_address. rewrite str_replace_dash_colon. reflexivity. Qed.

(** [short_address] raises on exactly one kind of input: two characters
    with no separator among them, where [results[-2]] does not exist. *)
Lemma short_address_raises (address : string) (e : exn) :
  short_address address = Raise e <->
  e = IndexError /\
  exists c1 c2, address = String c1 (String c2 "") /\
    c1 <> ":"%char /\ c1 <> "-"%char /\ c2 <> ":"%char /\ c2 <> "-"%char.
Proof.
  unfold short_address.
  destruct (str_split_shape ":" (str_replace "-" ":" address))
    as (h & tl & Hs & Hh & Htl).
  rewrite Hs.
  destruct (List.exists_last (l := h :: tl)) as (init & last & Hl); [discriminate|].
  rewrite Hl, index_from_end_1.
  split.
  - destruct (Z.eqb_spec (str_len last) 2) as [H2|H2]; [|discriminate].
    destruct init as [|x init].
    2:{ destruct (List.exists_last (l := x :: init)) as (init' & y & Hi); [discriminate|].
        rewrite Hi, <- List.app_assoc. cbn [List.app].
        rewrite index_from_end_2. discriminate. }
    cbn. intros [= <-]. split; [reflexivity|].
    cbn in Hl. injection Hl as -> ->.
    specialize (Hh eq_refl). pose proof (proj1 Htl eq_refl) as Hno.
    destruct address as [|c1 [|c2 [|c3 rest]]];
      try (rewrite ?str_replace_dash in Hh; subst last; unfold str_len in H2;
           cbn [String.length str_replace] in H2; lia).
    exists c1, c2. split; [reflexivity|].
    rewrite !str_replace_dash in Hno. cbn in Hno.
    assert (H1 := Hno _ (or_introl eq_refl)).
    assert (H3 := Hno _ (or_intror (or_introl eq_refl))).
    destruct (Ascii.eqb_spec c1 "-"); [congruence|].
    destruct (Ascii.eqb_spec c2 "-"); [congruence|]. auto.
  - intros (-> & c1 & c2 & -> & H1 & H1' & H2 & H2').
    rewrite !str_replace_dash in Hs.
    apply Ascii.eqb_neq in H1, H1', H2, H2'. rewrite H1', H2' in Hs.
    cbn in Hs. rewrite H1, H2 in Hs. injection Hs as <- <-.
    rewrite <- Hl.
    destruct init as [|x init]; [|destruct init; discriminate Hl].
    injection Hl as <-. reflexivity.
Qed.

(** *** [to_mac] *)

Lemma to_mac_cons (b : byte) (addr : bytes) :
  addr <> [] ->
  to_mac (b :: addr) = (format_02X (byte_val b) ++ ":" ++ to_mac addr)%string.
Proof. destruct addr; [congruence | reflexivity]. Qed.

(** [to_mac] and line 90 of the decoder are inverse to each other, for an
    address of any length. *)
Lemma to_mac_round_trip (addr : bytes) :
  fromhex (str_replace ":" "" (to_mac addr)) = Ret addr.
Proof.
  induction addr as [|b addr IH]; [reflexivity|].
  destruct addr as [|b' addr'].
  - change (to_mac [b]) with (format_02X (byte_val b) ++ "")%string.
    rewrite str_replace_format_02X, fromhex_format_02X. reflexivity.
  - rewrite to_mac_cons by discriminate.
    rewrite str_replace_format_02X, str_replace_colon, fromhex_format_02X, IH.
    reflexivity.
Qed.

Lemma mac_text_format_02X (n : nat) (b : byte) (rest : string) :
  mac_text (S n) (format_02X (byte_val b) ++ rest)
  = match rest with
    | EmptyString => Nat.eqb n 0
    | String c s' => Ascii.eqb c ":" && mac_text n s'
    end.
Proof. destruct b; reflexivity. Qed.

(** What [to_mac] prints for a non-empty address is well formed: as many
    colon-delimited octets as the address has bytes, [3n - 1] characters. *)
Lemma to_mac_well_formed (addr : bytes) :
  addr <> [] ->
  mac_text (List.length addr) (to_mac addr) = true /\
  str_len (to_mac addr) = 3 * len addr - 1.
Proof.
  intros Hne.
  assert (H : mac_text (List.length addr) (to_mac addr) = true).
  { induction addr as [|b addr IH]; [congruence|].
    destruct addr as [|b' addr'].
    - change (to_mac [b]) with (format_02X (byte_val b) ++ "")%string.
      cbn [List.length]. rewrite mac_text_format_02X. reflexivity.
    - rewrite to_mac_cons by discriminate.
      change (List.length (b :: b' :: addr')) with (S (List.length (b' :: addr'))).
      rewrite mac_text_format_02X.
      change (":" ++ to_mac (b' :: addr'))%string with (String ":" (to_mac (b' :: addr'))).
      cbv iota. rewrite IH by discriminate. reflexivity. }
  split; [exact H|].
  apply mac_text_fromhex in H as [Hlen _].
  unfold str_len, len. rewrite Hlen.
  destruct addr; [congruence|]. cbn [List.length]. lia.
Qed.

Lemma str_replace_dash_format_02X (b : byte) (rest : string) :
  str_replace "-" ":" (format_02X (byte_val b) ++ rest)
  = (format_02X (byte_val b) ++ str_replace "-" ":" rest)%string.
Proof. destruct b; reflexivity. Qed.

Lemma str_replace_dash_to_mac (addr : bytes) :
  str_replace "-" ":" (to_mac addr) = to_mac addr.
Proof.
  induction addr as [|b addr IH]; [reflexivity|].
  destruct addr as [|b' addr'].
  - change (to_mac [b]) with (format_02X (byte_val b) ++ "")%string.
    rewrite str_replace_dash_format_02X. reflexivity.
  - rewrite to_mac_cons by discriminate.
    rewrite str_replace_dash_format_02X.
    change (":" ++ to_mac (b' :: addr'))%string with (String ":" (to_mac (b' :: addr'))).
    rewrite str_replace_dash. rewrite IH. reflexivity.
Qed.

Lemma str_split_two (c1 c2 : ascii) (rest : string) :
  Ascii.eqb c1 ":" = false -> Ascii.eqb c2 ":" = false ->
  str_split ":" (String c1 (String c2 rest))
  = match str_split ":" rest with
    | h :: t => String c1 (String c2 h) :: t
    | [] => [String c1 (String c2 "")]
    end.
Proof.
  intros H1 H2. cbn [str_split]. rewrite H1, H2.
  destruct (str_split ":" rest); reflexivity.
Qed.

Lemma str_split_format_02X (b : byte) (rest : string) :
  str_split ":" (format_02X (byte_val b) ++ rest)
  = match str_split ":" rest with
    | h :: t => (format_02X (byte_val b) ++ h)%string :: t
    | [] => [format_02X (byte_val b)]
    end.
Proof. destruct b; (refine (str_split_two _ _ rest _ _); reflexivity). Qed.

Lemma str_split_to_mac (addr : bytes) :
  addr <> [] ->
  str_split ":" (to_mac addr) = List.map (fun i => format_02X (byte_val i)) addr.
Proof.
  induction addr as [|b addr IH]; [congruence|]. intros _.
  destruct addr as [|b' addr'].
  - change (to_mac [b]) with (format_02X (byte_val b) ++ "")%string.
    rewrite str_split_format_02X. reflexivity.
  - rewrite to_mac_cons by discriminate.
    rewrite str_split_format_02X.
    change (":" ++ to_mac (b' :: addr'))%string with (String ":" (to_mac (b' :: addr'))).
    cbn [str_split]. rewrite Ascii.eqb_refl. rewrite IH by discriminate.
    cbn [List.map]. f_equal; destruct b; reflexivity.
Qed.

Lemma str_upper_format_02X (b : byte) :
  str_upper (format_02X (byte_val b)) = format_02X (byte_val b).
Proof. destruct b; reflexivity. Qed.

Lemma str_len_format_02X (b : byte) : str_len (format_02X (byte_val b)) = 2.
Proof. reflexivity. Qed.

(** The short form of an address printed by [to_mac] is the hexadecimal
    digits of its last two bytes. *)
Lemma short_address_to_mac (addr : bytes) (a b : byte) :
  short_address (to_mac (addr ++ [a; b]))
  = Ret (format_02X (byte_val a) ++ format_02X (byte_val b))%string.
Proof.
  unfold short_address.
  rewrite str_replace_dash_to_mac, str_split_to_mac by (destruct addr; discriminate).
  rewrite List.map_app. cbn [List.map].
  replace (List.map (fun i => format_02X (byte_val i)) addr
             ++ [format_02X (byte_val a); format_02X (byte_val b)])
    with ((List.map (fun i => format_02X (byte_val i)) addr ++ [format_02X (byte_val a)])
            ++ [format_02X (byte_val b)])
    by (rewrite <- List.app_assoc; reflexivity).
  rewrite index_from_end_1, str_len_format_02X.
  change (2 =? 2) with true. cbv iota.
  rewrite <- List.app_assoc. cbn [List.app].
  rewrite index_from_end_2, !str_upper_format_02X. reflexivity.
Qed.

(** ** What a call can do to the object *)

Lemma readings_over_refl (m0 : gmap string value) : readings_over m0 m0.
Proof. intros k v H. right. exact H. Qed.

Lemma readings_over_insert (m0 m : gmap string value) (k0 : string) (v0 : value) :
  sensor_ok k0 v0 -> readings_over m0 m -> readings_over m0 (<[k0 := v0]> m).
Proof.
  intros Hok Hm k v H. apply lookup_insert_Some in H as [[<- <-] | [_ H]].
  - left. exact Hok.
  - apply Hm, H.
Qed.

Lemma sensor_ok_temperature (f : float) : sensor_ok "temperature" (PyFloat f).
Proof. left. eauto. Qed.

Lemma sensor_ok_voltage (f : float) : sensor_ok "voltage" (PyFloat f).
Proof. right. right. left. eauto. Qed.

Lemma sensor_ok_humidity_float (f : float) : sensor_ok "humidity" (PyFloat f).
Proof. right. left. eauto. Qed.

Lemma sensor_ok_humidity_int (h : Z) : 0 <= h <= 255 -> sensor_ok "humidity" (PyInt h).
Proof. right. left. eauto. Qed.

Lemma sensor_ok_battery (b : Z) : 0 <= b <= 255 -> sensor_ok "battery" (PyInt b).
Proof. right. right. right. eauto. Qed.

Section Shape.

Context {cipher : AeadCipher}.
Variable sys_platform : string.

(** A plaintext is returned only under a 16-byte key, and sets the flag. *)
Lemma decrypt_atc_success (s s' : ATCBluetoothDeviceData) (data atc_mac plain : bytes) :
  _decrypt_atc data atc_mac s = (Ret (Some plain), s') ->
  s' = with_bindkey_verified true s /\
  exists key, bindkey s = Some key /\ len key = 16.
Proof.
  unfold _decrypt_atc, decrypt_request, bind, get, modify, ret, raise, lift; cbn.
  destruct (bindkey_falsy (bindkey s)) eqn:Hf; [discriminate|].
  destruct (_ || _) eqn:Hor; [discriminate|].
  destruct (prepare_request _ _ _) as [req|e]; [|discriminate].
  destruct (AES_new _ _ _) as [c|e]; [|discriminate].
  destruct (decrypt_and_verify _ _ _) as [[p|]|[]]; try discriminate.
  intros [= <- <-]. split; [reflexivity|].
  destruct (bindkey s) as [key|]; [|discriminate Hf].
  exists key. split; [reflexivity|].
  apply orb_false_iff in Hor as [_ Hor]. apply negb_false_iff, Z.eqb_eq in Hor.
  exact Hor.
Qed.

(** The four things a call of [_parse_atc] can do to the object. *)
Lemma parse_atc_shape (s s' : ATCBluetoothDeviceData)
      (service_info : BluetoothServiceInfo) (name : string) (data : bytes)
      (r : result bool) :
  _parse_atc sys_platform service_info name data s = (r, s') ->
  let enc := with_encrypted (Some true) (with_mac_known true s) in
  (r <> Ret true /\ s' = s) \/
  (r <> Ret true /\ darwin sys_platform = false /\ (len data = 11 \/ len data = 8) /\
   exists b, s' = with_bindkey_verified b enc) \/
  (r = Ret true /\ (len data = 15 \/ len data = 13) /\
   exists m fw, s' = decoded m service_info name fw s /\
                firmware_label (len data) fw /\
                readings_over (sensor_values s) m) \/
  (r = Ret true /\ darwin sys_platform = false /\ (len data = 11 \/ len data = 8) /\
   (exists key, bindkey s = Some key /\ len key = 16) /\
   exists m fw, s' = decoded m service_info name fw (with_bindkey_verified true enc) /\
                firmware_label (len data) fw /\
                readings_over (sensor_values s) m).
Proof.
  intros Hrun enc.
  destruct (source_mac_of service_info) as [mac|e] eqn:Hmac.
  2:{ rewrite (parse_atc_address_raises _ _ _ _ _ _ Hmac) in Hrun.
      injection Hrun as <- <-. left. split; [discriminate | reflexivity]. }
  destruct (Z.eq_dec (len data) 15) as [H15|H15].
  { rewrite (parse_atc_pvvx _ _ _ _ _ _ Hmac H15) in Hrun.
    destruct (_ && _); injection Hrun as <- <-.
    - left. split; [discriminate | reflexivity].
    - right. right. left. split; [reflexivity|]. split; [auto|].
      eexists _, _. split; [reflexivity|]. split; [left; auto|].
      apply readings_over_insert; [apply sensor_ok_battery; pose proof (byte_val_range (nth (Z.to_nat 12) data x00)); lia|].
      apply readings_over_insert; [apply sensor_ok_voltage|].
      apply readings_over_insert; [apply sensor_ok_humidity_float|].
      apply readings_over_insert; [apply sensor_ok_temperature|].
      apply readings_over_refl. }
  destruct (Z.eq_dec (len data) 13) as [H13|H13].
  { rewrite (parse_atc_atc1441 _ _ _ _ _ _ Hmac H13) in Hrun.
    destruct (_ && _); injection Hrun as <- <-.
    - left. split; [discriminate | reflexivity].
    - right. right. left. split; [reflexivity|]. split; [auto|].
      eexists _, _. split; [reflexivity|]. split; [right; left; auto|].
      apply readings_over_insert; [apply sensor_ok_battery; pose proof (byte_val_range (nth (Z.to_nat 9) data x00)); lia|].
      apply readings_over_insert; [apply sensor_ok_voltage|].
      apply readings_over_insert; [apply sensor_ok_humidity_int; pose proof (byte_val_range (nth (Z.to_nat 8) data x00)); lia|].
      apply readings_over_insert; [apply sensor_ok_temperature|].
      apply readings_over_refl. }
  assert (Hfail : forall r1 s1,
             _decrypt_atc data mac enc = (r1, s1) -> r <> Ret true -> s' = s1 ->
             darwin sys_platform = false -> len data = 11 \/ len data = 8 ->
             (r <> Ret true /\ s' = s) \/
             (r <> Ret true /\ darwin sys_platform = false /\
              (len data = 11 \/ len data = 8) /\
              exists b, s' = with_bindkey_verified b enc) \/
             (r = Ret true /\ (len data = 15 \/ len data = 13) /\
              exists m fw, s' = decoded m service_info name fw s /\
                           firmware_label (len data) fw /\
                           readings_over (sensor_values s) m) \/
             (r = Ret true /\ darwin sys_platform = false /\
              (len data = 11 \/ len data = 8) /\
              (exists key, bindkey s = Some key /\ len key = 16) /\
              exists m fw, s' = decoded m service_info name fw
                                        (with_bindkey_verified true enc) /\
                           firmware_label (len data) fw /\
                           readings_over (sensor_values s) m)).
  { intros r1 s1 Hdec Hr -> Hd Hlen. right. left.
    apply decrypt_atc_frame in Hdec as [b ->]. repeat split; eauto. }
  destruct (Z.eq_dec (len data) 11) as [H11|H11].
  { destruct (darwin sys_platform) eqn:Hd.
    { rewrite (parse_atc_encrypted_darwin _ _ _ _ _ _ Hd Hmac (or_introl H11)) in Hrun.
      injection Hrun as <- <-. left. split; [discriminate | reflexivity]. }
    rewrite (parse_atc_pvvx_encrypted _ _ _ _ _ _ Hd Hmac H11) in Hrun.
    fold enc in Hrun.
    destruct (_decrypt_atc data mac enc) as [r1 s1] eqn:Hdec.
    destruct r1 as [[plain|]|e].
    2:{ injection Hrun as <- <-. eapply Hfail; eauto; discriminate. }
    2:{ injection Hrun as <- <-. eapply Hfail; eauto; discriminate. }
    destruct plain as [|p0 [|p1 [|p2 [|p3 [|p4 [|p5 [|p6 plain]]]]]]];
      try (injection Hrun as <- <-; eapply Hfail; eauto; discriminate).
    cbn in Hrun. injection Hrun as <- <-.
    apply decrypt_atc_success in Hdec as [-> Hkey].
    right. right. right. split; [reflexivity|]. split; [reflexivity|].
    split; [auto|]. split; [exact Hkey|].
    eexists _, _. split; [reflexivity|]. split; [right; right; left; auto|].
    apply readings_over_insert;
      [apply sensor_ok_battery; pose proof (byte_val_range p4); lia|].
    apply readings_over_insert; [apply sensor_ok_humidity_float|].
    apply readings_over_insert; [apply sensor_ok_temperature|].
    apply readings_over_refl. }
  destruct (Z.eq_dec (len data) 8) as [H8|H8].
  { destruct (darwin sys_platform) eqn:Hd.
    { rewrite (parse_atc_encrypted_darwin _ _ _ _ _ _ Hd Hmac (or_intror H8)) in Hrun.
      injection Hrun as <- <-. left. split; [discriminate | reflexivity]. }
    rewrite (parse_atc_atc1441_encrypted _ _ _ _ _ _ Hd Hmac H8) in Hrun.
    fold enc in Hrun.
    destruct (_decrypt_atc data mac enc) as [r1 s1] eqn:Hdec.
    destruct r1 as [[plain|]|e].
    2:{ injection Hrun as <- <-. eapply Hfail; eauto; discriminate. }
    2:{ injection Hrun as <- <-. eapply Hfail; eauto; discriminate. }
    destruct plain as [|d0 [|d1 [|d2 rest]]];
      try (injection Hrun as <- <-; eapply Hfail; eauto; discriminate).
    injection Hrun as <- <-.
    apply decrypt_atc_success in Hdec as [-> Hkey].
    right. right. right. split; [reflexivity|]. split; [reflexivity|].
    split; [auto|]. split; [exact Hkey|].
    eexists _, _. split; [reflexivity|]. split; [right; right; right; auto|].
    apply readings_over_insert.
    { apply sensor_ok_battery.
      pose proof (Z.land_nonneg (byte_val d2) 127). lia. }
    apply readings_over_insert; [apply sensor_ok_humidity_float|].
    apply readings_over_insert; [apply sensor_ok_temperature|].
    apply readings_over_refl. }
  rewrite (parse_atc_other_length _ _ _ _ _ _ Hmac H15 H13 H11 H8) in Hrun.
  injection Hrun as <- <-. left. split; [discriminate | reflexivity].
Qed.

(** A decode that succeeds: the length is one of the four, the encrypted
    ones only off macOS; the title and the device name are the [name]
    argument followed by the advertised address in brackets, and the
    firmware label is the one of the length. *)
Lemma parse_atc_success (s : ATCBluetoothDeviceData)
      (service_info : BluetoothServiceInfo) (name : string) (data : bytes) :
  fst (_parse_atc sys_platform service_info name data s) = Ret true ->
  let s' := snd (_parse_atc sys_platform service_info name data s) in
  (len data = 15 \/ len data = 13 \/
   (darwin sys_platform = false /\ (len data = 11 \/ len data = 8))) /\
  title s' = Some (name ++ " (" ++ address service_info ++ ")")%string /\
  device_name s' = Some (name ++ " (" ++ address service_info ++ ")")%string /\
  exists firmware,
    device_sw_version s' = Some firmware /\ firmware_label (len data) firmware.
Proof.
  intros Hok s'. subst s'.
  destruct (_parse_atc sys_platform service_info name data s) as [r t] eqn:Hrun.
  cbn [fst snd] in *. subst r.
  destruct (parse_atc_shape _ _ _ _ _ _ Hrun)
    as [[Hr _] | [[Hr _] | [(_ & Hlen & m & fw & -> & Hfw & _)
                           | (_ & Hd & Hlen & _ & m & fw & -> & Hfw & _)]]];
    try congruence.
  - split; [tauto|]. cbn. eauto.
  - split; [tauto|]. cbn. eauto.
Qed.

(** A payload of another length than the encrypted ones, and any payload on
    macOS, leaves the key state alone: [bindkey_verified], [mac_known] and
    the attribute [encrypted] are not written. *)
Lemma parse_atc_keeps_key_state (s : ATCBluetoothDeviceData)
      (service_info : BluetoothServiceInfo) (name : string) (data : bytes) :
  (len data <> 11 /\ len data <> 8) \/ darwin sys_platform = true ->
  let s' := snd (_parse_atc sys_platform service_info name data s) in
  bindkey_verified s' = bindkey_verified s /\
  mac_known s' = mac_known s /\
  encrypted s' = encrypted s.
Proof.
  intros Hcase s'. subst s'.
  destruct (_parse_atc sys_platform service_info name data s) as [r t] eqn:Hrun.
  cbn [snd].
  destruct (parse_atc_shape _ _ _ _ _ _ Hrun)
    as [[_ ->] | [(_ & Hd & Hlen & _) | [(_ & _ & m & fw & -> & _)
                                        | (_ & Hd & Hlen & _)]]];
    try (cbn; auto; fail);
    destruct Hcase as [[? ?] | ?]; try congruence; lia.
Qed.

(** A decoded encrypted payload: the session holds a 16-byte key, which is
    now marked verified, and [mac_known] and [encrypted] are [True]. *)
Lemma parse_atc_encrypted_success (s : ATCBluetoothDeviceData)
      (service_info : BluetoothServiceInfo) (name : string) (data : bytes) :
  fst (_parse_atc sys_platform service_info name data s) = Ret true ->
  len data = 11 \/ len data = 8 ->
  let s' := snd (_parse_atc sys_platform service_info name data s) in
  bindkey_verified s' = true /\ mac_known s' = true /\ encrypted s' = Some true /\
  darwin sys_platform = false /\
  exists key, bindkey s = Some key /\ len key = 16.
Proof.
  intros Hok Hlen s'. subst s'.
  destruct (_parse_atc sys_platform service_info name data s) as [r t] eqn:Hrun.
  cbn [fst snd] in *. subst r.
  destruct (parse_atc_shape _ _ _ _ _ _ Hrun)
    as [[Hr _] | [[Hr _] | [(_ & Hlen' & _)
                           | (_ & Hd & _ & Hkey & m & fw & -> & _)]]];
    try congruence; [lia|].
  cbn. auto.
Qed.

(** On macOS the address of the advertisement plays no part in the plain
    layouts: the identifier is taken from the payload, so every payload of
    15 or 13 bytes is decoded. *)
Lemma parse_atc_darwin_plain (s : ATCBluetoothDeviceData)
      (service_info : BluetoothServiceInfo) (name : string)
      (data source_mac : bytes) :
  darwin sys_platform = true ->
  source_mac_of service_info = Ret source_mac ->
  len data = 15 \/ len data = 13 ->
  fst (_parse_atc sys_platform service_info name data s) = Ret true.
Proof.
  intros Hd Hmac [Hlen | Hlen].
  - rewrite (parse_atc_pvvx _ _ _ _ _ _ Hmac Hlen), Hd. reflexivity.
  - rewrite (parse_atc_atc1441 _ _ _ _ _ _ Hmac Hlen), Hd. reflexivity.
Qed.

(** [_parse_atc] never writes the manufacturer or the device type. *)
Lemma parse_atc_keeps_labels (s s' : ATCBluetoothDeviceData)
      (service_info : BluetoothServiceInfo) (name : string) (data : bytes)
      (r : result bool) :
  _parse_atc sys_platform service_info name data s = (r, s') ->
  device_manufacturer s' = device_manufacturer s /\ device_type s' = device_type s.
Proof.
  intros Hrun.
  destruct (parse_atc_shape _ _ _ _ _ _ Hrun)
    as [[_ ->] | [(_ & _ & _ & b & ->) | [(_ & _ & m & fw & -> & _)
                                        | (_ & _ & _ & _ & m & fw & -> & _)]]];
    cbn; auto.
Qed.

(** The helper reads nothing of the session but the key: what it returns
    and what it does to the flag are the same on every session that holds
    the key [k]. *)
Lemma decrypt_atc_key_only (k : option bytes) (data atc_mac : bytes) :
  exists (r : result (option bytes)) (eff : option bool),
    forall s, bindkey s = k ->
      _decrypt_atc data atc_mac s
      = (r, match eff with
            | Some b => with_bindkey_verified b s
            | None => s
            end).
Proof.
  unfold _decrypt_atc, decrypt_request, bind, get, modify, ret, raise, lift.
  destruct (bindkey_falsy k) eqn:Hf.
  { exists (Ret None), (Some false). intros s Hk. rewrite Hk, Hf. reflexivity. }
  destruct (negb (len (default [] k) =? 16)) eqn:H16.
  { exists (Ret None), (Some false). intros s Hk.
    repeat (progress (cbv beta iota; rewrite ?Hk, ?Hf, ?H16)). reflexivity. }
  destruct (prepare_request (default [] k) data atc_mac) as [req|e] eqn:Hreq.
  2:{ exists (Raise e), None. intros s Hk.
      repeat (progress (cbv beta iota; rewrite ?Hk, ?Hf, ?H16, ?Hreq)). reflexivity. }
  destruct (AES_new (req_key req) (req_nonce req) (req_mac_len req)) as [c|e] eqn:Hnew.
  2:{ exists (Raise e), None. intros s Hk.
      repeat (progress (cbv beta iota; rewrite ?Hk, ?Hf, ?H16, ?Hreq, ?Hnew)).
      reflexivity. }
  destruct (decrypt_and_verify (cipher_update c (req_aad req))
                               (req_cipherpayload req) (req_token req))
    as [[p|]|e] eqn:Hdec.
  - exists (Ret (Some p)), (Some true). intros s Hk.
    repeat (progress (cbv beta iota; rewrite ?Hk, ?Hf, ?H16, ?Hreq, ?Hnew, ?Hdec)).
    reflexivity.
  - exists (Ret None), (Some false). intros s Hk.
    repeat (progress (cbv beta iota; rewrite ?Hk, ?Hf, ?H16, ?Hreq, ?Hnew, ?Hdec)).
    reflexivity.
  - exists (match e with ValueError => Ret None | _ => Raise e end), None.
    intros s Hk.
    repeat (progress (cbv beta iota; rewrite ?Hk, ?Hf, ?H16, ?Hreq, ?Hnew, ?Hdec)).
    destruct e; reflexivity.
Qed.

(** Neither does the decoder: whether a payload is decoded depends on the
    session only through its key, and not on the [name] argument. *)
Lemma parse_atc_result_by_key (s t : ATCBluetoothDeviceData)
      (service_info : BluetoothServiceInfo) (name name' : string) (data : bytes) :
  bindkey s = bindkey t ->
  fst (_parse_atc sys_platform service_info name data s)
  = fst (_parse_atc sys_platform service_info name' data t).
Proof.
  intros Hk.
  destruct (source_mac_of service_info) as [mac|e] eqn:Hmac.
  2:{ rewrite !(parse_atc_address_raises _ _ _ _ _ _ Hmac). reflexivity. }
  destruct (Z.eq_dec (len data) 15) as [H15|H15].
  { rewrite !(parse_atc_pvvx _ _ _ _ _ _ Hmac H15).
    destruct (_ && _); reflexivity. }
  destruct (Z.eq_dec (len data) 13) as [H13|H13].
  { rewrite !(parse_atc_atc1441 _ _ _ _ _ _ Hmac H13).
    destruct (_ && _); reflexivity. }
  destruct (decrypt_atc_key_only (bindkey t) data mac) as (r & eff & Hdec).
  destruct (Z.eq_dec (len data) 11) as [H11|H11].
  { destruct (darwin sys_platform) eqn:Hd.
    { rewrite !(parse_atc_encrypted_darwin _ _ _ _ _ _ Hd Hmac (or_introl H11)).
      reflexivity. }
    rewrite !(parse_atc_pvvx_encrypted _ _ _ _ _ _ Hd Hmac H11).
    rewrite (Hdec (with_encrypted (Some true) (with_mac_known true s)) Hk).
    rewrite (Hdec (with_encrypted (Some true) (with_mac_known true t)) eq_refl).
    destruct r as [[plain|]|e]; try reflexivity.
    destruct (unpack _ plain) as [[|temp [|hum [|bat [|trg [|? ?]]]]]|e]; reflexivity. }
  destruct (Z.eq_dec (len data) 8) as [H8|H8].
  { destruct (darwin sys_platform) eqn:Hd.
    { rewrite !(parse_atc_encrypted_darwin _ _ _ _ _ _ Hd Hmac (or_intror H8)).
      reflexivity. }
    rewrite !(parse_atc_atc1441_encrypted _ _ _ _ _ _ Hd Hmac H8).
    rewrite (Hdec (with_encrypted (Some true) (with_mac_known true s)) Hk).
    rewrite (Hdec (with_encrypted (Some true) (with_mac_known true t)) eq_refl).
    destruct r as [[plain|]|e]; try reflexivity.
    destruct plain as [|d0 [|d1 [|d2 rest]]]; reflexivity. }
  rewrite !(parse_atc_other_length _ _ _ _ _ _ Hmac H15 H13 H11 H8). reflexivity.
Qed.

Lemma decoded_decoded (m m' : gmap string value) (service_info : BluetoothServiceInfo)
      (name firmware : string) (s : ATCBluetoothDeviceData) :
  decoded m service_info name firmware (decoded m' service_info name firmware s)
  = decoded m service_info name firmware s.
Proof. reflexivity. Qed.

Lemma sensor_values_decoded (m : gmap string value) (service_info : BluetoothServiceInfo)
      (name firmware : string) (s : ATCBluetoothDeviceData) :
  sensor_values (decoded m service_info name firmware s) = m.
Proof. reflexivity. Qed.

(** Two sessions that hold the same key, whatever else their history has
    left in them, decode the same payload alike: the same return value and,
    when it is [True], the same title, firmware label and readings (the
    voltage among them on the plain layouts, which report one). *)
Lemma parse_atc_same_key (s t : ATCBluetoothDeviceData)
      (service_info : BluetoothServiceInfo) (name : string) (data : bytes) :
  bindkey s = bindkey t ->
  let rs := _parse_atc sys_platform service_info name data s in
  let rt := _parse_atc sys_platform service_info name data t in
  fst rs = fst rt /\
  (fst rs = Ret true ->
   title (snd rs) = title (snd rt) /\
   device_sw_version (snd rs) = device_sw_version (snd rt) /\
   sensor_values (snd rs) !! "temperature" = sensor_values (snd rt) !! "temperature" /\
   sensor_values (snd rs) !! "humidity" = sensor_values (snd rt) !! "humidity" /\
   sensor_values (snd rs) !! "battery" = sensor_values (snd rt) !! "battery" /\
   (len data = 15 \/ len data = 13 ->
    sensor_values (snd rs) !! "voltage" = sensor_values (snd rt) !! "voltage")).
Proof.
  intros Hk rs rt. subst rs rt.
  split; [apply parse_atc_result_by_key, Hk|].
  destruct (source_mac_of service_info) as [mac|e] eqn:Hmac.
  2:{ rewrite !(parse_atc_address_raises _ _ _ _ _ _ Hmac). discriminate. }
  destruct (Z.eq_dec (len data) 15) as [H15|H15].
  { rewrite !(parse_atc_pvvx _ _ _ _ _ _ Hmac H15).
    destruct (_ && _); [discriminate|]. intros _. cbn [snd].
    rewrite !sensor_values_decoded.
    repeat (rewrite lookup_insert_eq || (rewrite lookup_insert_ne by discriminate)).
    repeat split. }
  destruct (Z.eq_dec (len data) 13) as [H13|H13].
  { rewrite !(parse_atc_atc1441 _ _ _ _ _ _ Hmac H13).
    destruct (_ && _); [discriminate|]. intros _. cbn [snd].
    rewrite !sensor_values_decoded.
    repeat (rewrite lookup_insert_eq || (rewrite lookup_insert_ne by discriminate)).
    repeat split. }
  destruct (decrypt_atc_key_only (bindkey t) data mac) as (r & eff & Hdec).
  destruct (Z.eq_dec (len data) 11) as [H11|H11].
  { destruct (darwin sys_platform) eqn:Hd.
    { rewrite !(parse_atc_encrypted_darwin _ _ _ _ _ _ Hd Hmac (or_introl H11)).
      discriminate. }
    rewrite !(parse_atc_pvvx_encrypted _ _ _ _ _ _ Hd Hmac H11).
    rewrite (Hdec (with_encrypted (Some true) (with_mac_known true s)) Hk).
    rewrite (Hdec (with_encrypted (Some true) (with_mac_known true t)) eq_refl).
    destruct r as [[plain|]|e]; try discriminate.
    destruct (unpack _ plain) as [[|temp [|hum [|bat [|trg [|? ?]]]]]|e];
      try discriminate.
    intros _. cbn [snd]. rewrite !sensor_values_decoded.
    repeat (rewrite lookup_insert_eq || (rewrite lookup_insert_ne by discriminate)).
    repeat split. lia. }
  destruct (Z.eq_dec (len data) 8) as [H8|H8].
  { destruct (darwin sys_platform) eqn:Hd.
    { rewrite !(parse_atc_encrypted_darwin _ _ _ _ _ _ Hd Hmac (or_intror H8)).
      discriminate. }
    rewrite !(parse_atc_atc1441_encrypted _ _ _ _ _ _ Hd Hmac H8).
    rewrite (Hdec (with_encrypted (Some true) (with_mac_known true s)) Hk).
    rewrite (Hdec (with_encrypted (Some true) (with_mac_known true t)) eq_refl).
    destruct r as [[plain|]|e]; try discriminate.
    destruct plain as [|d0 [|d1 [|d2 rest]]]; try discriminate.
    intros _. cbn [snd]. rewrite !sensor_values_decoded.
    repeat (rewrite lookup_insert_eq || (rewrite lookup_insert_ne by discriminate)).
    repeat split. lia. }
  rewrite !(parse_atc_other_length _ _ _ _ _ _ Hmac H15 H13 H11 H8). discriminate.
Qed.

(** A reading just stored is stored again without effect. *)
Ltac absorb :=
  repeat (rewrite insert_id
            by (repeat (rewrite lookup_insert_ne by discriminate);
                apply lookup_insert_eq)).

Lemma flag_effect_decoded (eff : option bool) (m : gmap string value)
      (service_info : BluetoothServiceInfo) (name firmware : string)
      (s : ATCBluetoothDeviceData) :
  match eff with
  | Some b => with_bindkey_verified b
                (with_encrypted (Some true)
                   (with_mac_known true (decoded m service_info name firmware s)))
  | None => with_encrypted (Some true)
              (with_mac_known true (decoded m service_info name firmware s))
  end
  = decoded m service_info name firmware
      match eff with
      | Some b => with_bindkey_verified b
                    (with_encrypted (Some true) (with_mac_known true s))
      | None => with_encrypted (Some true) (with_mac_known true s)
      end.
Proof. destruct eff; reflexivity. Qed.

Lemma flag_effect_twice (eff : option bool) (s : ATCBluetoothDeviceData) :
  match eff with
  | Some b =>
      with_bindkey_verified b
        (with_encrypted (Some true)
           (with_mac_known true
              match eff with
              | Some b => with_bindkey_verified b
                            (with_encrypted (Some true) (with_mac_known true s))
              | None => with_encrypted (Some true) (with_mac_known true s)
              end))
  | None =>
      with_encrypted (Some true)
        (with_mac_known true
           match eff with
           | Some b => with_bindkey_verified b
                         (with_encrypted (Some true) (with_mac_known true s))
           | None => with_encrypted (Some true) (with_mac_known true s)
           end)
  end
  = match eff with
    | Some b => with_bindkey_verified b
                  (with_encrypted (Some true) (with_mac_known true s))
    | None => with_encrypted (Some true) (with_mac_known true s)
    end.
Proof. destruct eff; reflexivity. Qed.

(** Decoding the same payload of the same advertisement a second time
    returns what the first decode returned and leaves the object as the
    first left it. *)
Lemma parse_atc_idempotent (s : ATCBluetoothDeviceData)
      (service_info : BluetoothServiceInfo) (name : string) (data : bytes) :
  _parse_atc sys_platform service_info name data
             (snd (_parse_atc sys_platform service_info name data s))
  = _parse_atc sys_platform service_info name data s.
Proof.
  destruct (source_mac_of service_info) as [mac|e] eqn:Hmac.
  2:{ rewrite !(parse_atc_address_raises _ _ _ _ _ _ Hmac). reflexivity. }
  destruct (Z.eq_dec (len data) 15) as [H15|H15].
  { rewrite !(parse_atc_pvvx _ _ _ _ _ _ Hmac H15).
    destruct (_ && _); [reflexivity|].
    cbn [snd]. rewrite sensor_values_decoded, decoded_decoded. absorb.
    reflexivity. }
  destruct (Z.eq_dec (len data) 13) as [H13|H13].
  { rewrite !(parse_atc_atc1441 _ _ _ _ _ _ Hmac H13).
    destruct (_ && _); [reflexivity|].
    cbn [snd]. rewrite sensor_values_decoded, decoded_decoded. absorb.
    reflexivity. }
  destruct (decrypt_atc_key_only (bindkey s) data mac) as (r & eff & Hdec).
  assert (Hfirst : _decrypt_atc data mac (with_encrypted (Some true) (with_mac_known true s))
                   = (r, match eff with
                         | Some b => with_bindkey_verified b
                                       (with_encrypted (Some true) (with_mac_known true s))
                         | None => with_encrypted (Some true) (with_mac_known true s)
                         end)).
  { rewrite (Hdec (with_encrypted (Some true) (with_mac_known true s)) eq_refl).
    destruct eff; reflexivity. }
  assert (Hagain : forall t, bindkey t = bindkey s ->
             _decrypt_atc data mac (with_encrypted (Some true) (with_mac_known true t))
             = (r, match eff with
                   | Some b => with_bindkey_verified b
                                 (with_encrypted (Some true) (with_mac_known true t))
                   | None => with_encrypted (Some true) (with_mac_known true t)
                   end)).
  { intros t Ht.
    rewrite (Hdec (with_encrypted (Some true) (with_mac_known true t)) Ht).
    destruct eff; reflexivity. }
  assert (Hkey : bindkey match eff with
                         | Some b => with_bindkey_verified b
                                       (with_encrypted (Some true) (with_mac_known true s))
                         | None => with_encrypted (Some true) (with_mac_known true s)
                         end = bindkey s) by (destruct eff; reflexivity).
  assert (Hvals : sensor_values match eff with
                         | Some b => with_bindkey_verified b
                                       (with_encrypted (Some true) (with_mac_known true s))
                         | None => with_encrypted (Some true) (with_mac_known true s)
                         end = sensor_values s) by (destruct eff; reflexivity).
  destruct (Z.eq_dec (len data) 11) as [H11|H11].
  { destruct (darwin sys_platform) eqn:Hd.
    { rewrite !(parse_atc_encrypted_darwin _ _ _ _ _ _ Hd Hmac (or_introl H11)).
      reflexivity. }
    rewrite !(parse_atc_pvvx_encrypted _ _ _ _ _ _ Hd Hmac H11).
    rewrite Hfirst.
    destruct r as [[plain|]|e].
    - destruct (unpack _ plain) as [[|temp [|hum [|bat [|trg [|? ?]]]]]|e] eqn:Hun;
        cbn [snd]; rewrite Hagain by (exact Hkey || reflexivity);
        cbv beta iota; rewrite ?Hun;
        rewrite ?flag_effect_decoded, ?flag_effect_twice; try reflexivity.
      rewrite sensor_values_decoded, decoded_decoded, Hvals. absorb. reflexivity.
    - cbn [snd]. rewrite Hagain by exact Hkey. rewrite flag_effect_twice. reflexivity.
    - cbn [snd]. rewrite Hagain by exact Hkey. rewrite flag_effect_twice. reflexivity. }
  destruct (Z.eq_dec (len data) 8) as [H8|H8].
  { destruct (darwin sys_platform) eqn:Hd.
    { rewrite !(parse_atc_encrypted_darwin _ _ _ _ _ _ Hd Hmac (or_intror H8)).
      reflexivity. }
    rewrite !(parse_atc_atc1441_encrypted _ _ _ _ _ _ Hd Hmac H8).
    rewrite Hfirst.
    destruct r as [[plain|]|e].
    - destruct plain as [|d0 [|d1 [|d2 rest]]];
        cbn [snd]; rewrite Hagain by (exact Hkey || reflexivity);
        cbv beta iota;
        rewrite ?flag_effect_decoded, ?flag_effect_twice; try reflexivity.
      rewrite sensor_values_decoded, decoded_decoded, Hvals. absorb. reflexivity.
    - cbn [snd]. rewrite Hagain by exact Hkey. rewrite flag_effect_twice. reflexivity.
    - cbn [snd]. rewrite Hagain by exact Hkey. rewrite flag_effect_twice. reflexivity. }
  rewrite !(parse_atc_other_length _ _ _ _ _ _ Hmac H15 H13 H11 H8). reflexivity.
Qed.

(** One turn of the loop of [_start_update]. *)
Lemma parse_items_cons (service_info : BluetoothServiceInfo) (id : string)
      (data : bytes) (rest : list (string * bytes)) (s : ATCBluetoothDeviceData) :
  parse_items sys_platform service_info ((id, data) :: rest) s
  = match _parse_atc sys_platform service_info (name service_info) data s with
    | (Ret true, s') =>
        parse_items sys_platform service_info rest
                    (with_last_service_info (Some service_info) s')
    | (Ret false, s') => parse_items sys_platform service_info rest s'
    | (Raise e, s') => (Raise e, s')
    end.
Proof.
  cbn [parse_items]. unfold bind at 1.
  destruct (_parse_atc _ _ _ _ s) as [[[|]|e] s']; reflexivity.
Qed.

End Shape.

(** ** Invariants of a session *)

Section ReachableInvariant.

Context {cipher : AeadCipher}.
Variable sys_platform : string.
Variable Inv : ATCBluetoothDeviceData -> Prop.

Hypothesis Inv_init : forall k, Inv (__init__ sys_platform k).
Hypothesis Inv_parse :
  forall s service_info name data r s',
    _parse_atc sys_platform service_info name data s = (r, s') -> Inv s -> Inv s'.
Hypothesis Inv_labelled : forall s, Inv s -> Inv (labelled s).
Hypothesis Inv_cached :
  forall s service_info name data s',
    _parse_atc sys_platform service_info name data s = (Ret true, s') -> Inv s ->
    device_manufacturer s = Some "ATC" -> device_type s = Some "ATC sensor" ->
    Inv (with_last_service_info (Some service_info) s').
Hypothesis Inv_bindkey : forall s k, Inv s -> Inv (with_bindkey k s).

Lemma parse_items_invariant (service_info : BluetoothServiceInfo)
      (items : list (string * bytes)) (s : ATCBluetoothDeviceData) :
  device_manufacturer s = Some "ATC" -> device_type s = Some "ATC sensor" ->
  Inv s -> Inv (snd (parse_items sys_platform service_info items s)).
Proof.
  revert s. induction items as [|[id data] rest IH]; intros s Hm Ht Hs; [exact Hs|].
  rewrite parse_items_cons.
  destruct (_parse_atc _ _ _ _ s) as [r1 s1] eqn:Hp.
  pose proof (parse_atc_keeps_labels _ _ _ _ _ _ _ Hp) as [Hm1 Ht1].
  destruct r1 as [[|]|e].
  - apply IH; [cbn; congruence | cbn; congruence|].
    eapply Inv_cached; eauto.
  - apply IH; [congruence | congruence|].
    eapply Inv_parse; eauto.
  - cbn [snd]. eapply Inv_parse; eauto.
Qed.

Lemma reachable_invariant (s : ATCBluetoothDeviceData) :
  reachable sys_platform s -> Inv s.
Proof.
  induction 1 as [k | s si name data _ IH | s si _ IH | s k _ IH].
  - apply Inv_init.
  - destruct (_parse_atc _ _ _ _ s) as [r s'] eqn:Hp. cbn [snd].
    eapply Inv_parse; eauto.
  - unfold _start_update, set_device_manufacturer, set_device_type.
    unfold bind at 1, modify at 1. unfold bind at 1, modify at 1.
    apply parse_items_invariant; [reflexivity | reflexivity|].
    apply (Inv_labelled s IH).
  - apply Inv_bindkey, IH.
Qed.

End ReachableInvariant.

Section SessionInvariants.

Context {cipher : AeadCipher}.
Variable sys_platform : string.

(** On every session of a process: [pending] is still [True]; the attribute
    [encrypted] does not exist or is [True], and exists only off macOS; on
    macOS the key is never marked verified. *)
Lemma reachable_key_state (s : ATCBluetoothDeviceData) :
  reachable sys_platform s ->
  pending s = true /\
  (encrypted s = None \/ (encrypted s = Some true /\ darwin sys_platform = false)) /\
  (darwin sys_platform = true -> bindkey_verified s = false /\ encrypted s = None).
Proof.
  apply (reachable_invariant sys_platform
           (fun s => pending s = true /\
                     (encrypted s = None \/
                      (encrypted s = Some true /\ darwin sys_platform = false)) /\
                     (darwin sys_platform = true ->
                      bindkey_verified s = false /\ encrypted s = None))).
  - intros k. cbn. auto.
  - intros s0 si name data r s' Hrun (Hp & He & Hd).
    destruct (parse_atc_shape _ _ _ _ _ _ _ Hrun)
      as [[_ ->] | [(_ & Hdf & _ & b & ->) | [(_ & _ & m & fw & -> & _)
                                            | (_ & Hdf & _ & _ & m & fw & -> & _)]]];
      cbn; intuition congruence.
  - intros s0 H. exact H.
  - intros s0 si name data s' Hrun (Hp & He & Hd) _ _.
    destruct (parse_atc_shape _ _ _ _ _ _ _ Hrun)
      as [[Hr _] | [(Hr & _) | [(_ & _ & m & fw & -> & _)
                                | (_ & Hdf & _ & _ & m & fw & -> & _)]]];
      try congruence; cbn; intuition congruence.
  - intros s0 k H. exact H.
Qed.

(** The title and the device name are always the same text; they, the
    firmware label and the cached advertisement are set together: a session
    that caches an advertisement has a title, and a session has a title
    exactly when it has a firmware label, which is one of the four. *)
Lemma reachable_title (s : ATCBluetoothDeviceData) :
  reachable sys_platform s ->
  title s = device_name s /\
  (title s = None <-> device_sw_version s = None) /\
  (forall firmware, device_sw_version s = Some firmware ->
                    exists msg_length, firmware_label msg_length firmware) /\
  (last_service_info s <> None ->
   title s <> None /\ device_manufacturer s = Some "ATC" /\
   device_type s = Some "ATC sensor").
Proof.
  apply (reachable_invariant sys_platform
           (fun s => title s = device_name s /\
                     (title s = None <-> device_sw_version s = None) /\
                     (forall firmware, device_sw_version s = Some firmware ->
                                       exists msg_length, firmware_label msg_length firmware) /\
                     (last_service_info s <> None ->
                      title s <> None /\ device_manufacturer s = Some "ATC" /\
                      device_type s = Some "ATC sensor"))).
  - intros k. cbn. split; [reflexivity|]. split; [tauto|].
    split; [discriminate|]. congruence.
  - intros s0 si name data r s' Hrun (Ht & Hn & Hf & Hl).
    destruct (parse_atc_shape _ _ _ _ _ _ _ Hrun)
      as [[_ ->] | [(_ & _ & _ & b & ->) | [(_ & _ & m & fw & -> & Hfw & _)
                                          | (_ & _ & _ & _ & m & fw & -> & Hfw & _)]]].
    + auto.
    + exact (conj Ht (conj Hn (conj Hf Hl))).
    + cbn. split; [reflexivity|]. split; [split; discriminate|].
      split; [intros ? [= <-]; eauto|].
      intros H. destruct (Hl H) as (_ & ? & ?). repeat split; auto; discriminate.
    + cbn. split; [reflexivity|]. split; [split; discriminate|].
      split; [intros ? [= <-]; eauto|].
      intros H. destruct (Hl H) as (_ & ? & ?). repeat split; auto; discriminate.
  - intros s0 (Ht & Hn & Hf & Hl). cbn.
    split; [exact Ht|]. split; [exact Hn|]. split; [exact Hf|].
    intros H. destruct (Hl H) as (? & _). auto.
  - intros s0 si name data s' Hrun (Ht & Hn & Hf & Hl) Hman Htyp.
    destruct (parse_atc_shape _ _ _ _ _ _ _ Hrun)
      as [[Hr _] | [(Hr & _) | [(_ & _ & m & fw & -> & Hfw & _)
                                | (_ & _ & _ & _ & m & fw & -> & Hfw & _)]]];
      try congruence.
    + cbn. split; [reflexivity|]. split; [split; discriminate|].
      split; [intros ? [= <-]; eauto|].
      intros _. repeat split; auto; discriminate.
    + cbn. split; [reflexivity|]. split; [split; discriminate|].
      split; [intros ? [= <-]; eauto|].
      intros _. repeat split; auto; discriminate.
  - intros s0 k H. exact H.
Qed.


End SessionInvariants.

(** ** [_start_update] over any number of payloads *)

Section StartUpdateLoop.

Context {cipher : AeadCipher}.
Variable sys_platform : string.

Lemma start_update_unfold (service_info : BluetoothServiceInfo)
      (s : ATCBluetoothDeviceData) :
  _start_update sys_platform service_info s
  = parse_items sys_platform service_info (service_data service_info) (labelled s).
Proof. reflexivity. Qed.

(** Every update labels the device, whatever the advertisement holds and
    even when the decode raises. *)
Lemma start_update_labels (service_info : BluetoothServiceInfo)
      (s : ATCBluetoothDeviceData) :
  let s' := snd (_start_update sys_platform service_info s) in
  device_manufacturer s' = Some "ATC" /\ device_type s' = Some "ATC sensor".
Proof.
  cbv zeta. rewrite start_update_unfold.
  apply (parse_items_invariant sys_platform
           (fun s => device_manufacturer s = Some "ATC" /\
                     device_type s = Some "ATC sensor")).
  - intros s0 si name data r s' Hrun [Hm Ht].
    apply parse_atc_keeps_labels in Hrun as [-> ->]. auto.
  - intros s0 si name data s' Hrun [Hm Ht] _ _.
    apply parse_atc_keeps_labels in Hrun as [Hm' Ht']. cbn. split; congruence.
  - reflexivity.
  - reflexivity.
  - split; reflexivity.
Qed.

(** An advertisement without service data is no error, whatever its
    address; with service data, an address the decoder cannot read makes the
    update raise at the first payload, the device labelled and nothing else
    written. *)
Lemma start_update_address_raises (service_info : BluetoothServiceInfo)
      (s : ATCBluetoothDeviceData) (e : exn) :
  source_mac_of service_info = Raise e ->
  _start_update sys_platform service_info s
  = (match service_data service_info with
     | [] => Ret tt
     | _ :: _ => Raise e
     end, labelled s).
Proof.
  intros Hmac. rewrite start_update_unfold.
  destruct (service_data service_info) as [|[id data] rest]; [reflexivity|].
  rewrite parse_items_cons.
  rewrite (parse_atc_address_raises _ _ _ _ _ _ Hmac). reflexivity.
Qed.

(** An advertisement none of whose payloads has a recognised length leaves
    the object labelled and otherwise untouched. *)
Lemma start_update_unrecognized (service_info : BluetoothServiceInfo)
      (s : ATCBluetoothDeviceData) (source_mac : bytes) :
  source_mac_of service_info = Ret source_mac ->
  (forall id data, In (id, data) (service_data service_info) ->
     len data <> 15 /\ len data <> 13 /\ len data <> 11 /\ len data <> 8) ->
  _start_update sys_platform service_info s = (Ret tt, labelled s).
Proof.
  intros Hmac Hall. rewrite start_update_unfold.
  generalize (labelled s). revert Hall.
  induction (service_data service_info) as [|[id data] rest IH]; intros Hall t;
    [reflexivity|].
  rewrite parse_items_cons.
  destruct (Hall id data (or_introl eq_refl)) as (H15 & H13 & H11 & H8).
  rewrite (parse_atc_other_length _ _ _ _ _ _ Hmac H15 H13 H11 H8).
  apply IH.
  intros id' data' Hin. apply (Hall id' data'). right. exact Hin.
Qed.

(** The loop over the payloads, seen from the cached advertisement. *)
Lemma parse_items_last_service_info (s : ATCBluetoothDeviceData)
      (service_info : BluetoothServiceInfo) (items : list (string * bytes))
      (t : ATCBluetoothDeviceData) :
  bindkey t = bindkey s ->
  let run := parse_items sys_platform service_info items t in
  ((forall id data, In (id, data) items ->
      fst (_parse_atc sys_platform service_info (name service_info) data s) <> Ret true) ->
   last_service_info (snd run) = last_service_info t) /\
  (fst run = Ret tt ->
   (exists id data, In (id, data) items /\
      fst (_parse_atc sys_platform service_info (name service_info) data s) = Ret true) ->
   last_service_info (snd run) = Some service_info).
Proof.
  revert t. induction items as [|[id data] rest IH]; intros t Hk run; subst run.
  - split; [reflexivity|]. intros _ (? & ? & [] & _).
  - rewrite parse_items_cons.
    pose proof (parse_atc_result_by_key sys_platform t s service_info
                  (name service_info) (name service_info) data Hk) as Hsame.
    destruct (_parse_atc sys_platform service_info (name service_info) data t)
      as [r1 t1] eqn:Hp.
    cbn [fst] in Hsame.
    pose proof (parse_atc_frame _ _ _ _ _ _ _ Hp) as (_ & _ & Hlast & Hk1 & _).
    destruct r1 as [[|]|e].
    + destruct (IH (with_last_service_info (Some service_info) t1)) as [IH1 IH2];
        [cbn; congruence|].
      split.
      * intros Hnone. exfalso.
        apply (Hnone id data (or_introl eq_refl)). congruence.
      * intros Hret _.
        destruct (List.Exists_dec
                    (fun item => fst (_parse_atc sys_platform service_info
                                        (name service_info) (snd item) s) = Ret true)
                    rest) as [Hex | Hnex].
        { intros [id0 data0]. cbn [snd].
          destruct (fst (_parse_atc sys_platform service_info (name service_info) data0 s))
            as [[|]|]; [left; reflexivity | right; discriminate | right; discriminate]. }
        -- apply IH2; [exact Hret|].
           apply List.Exists_exists in Hex as ([id' data'] & Hin & Hok).
           exists id', data'. split; assumption.
        -- rewrite IH1; [reflexivity|].
           intros id' data' Hin Hok. apply Hnex.
           apply List.Exists_exists. exists (id', data'). split; assumption.
    + destruct (IH t1) as [IH1 IH2]; [congruence|].
      split.
      * intros Hnone. rewrite IH1; [exact Hlast|].
        intros id' data' Hin. apply (Hnone id' data'). right. exact Hin.
      * intros Hret (id' & data' & [[= <- <-] | Hin] & Hok); [congruence|].
        apply IH2; [exact Hret|]. exists id', data'. split; assumption.
    + cbn [fst snd]. split; [intros _; exact Hlast | discriminate].
Qed.

(** When no payload of the advertisement is one the decoder decodes on this
    session, the cached advertisement is left as it was, however many
    payloads there are and whether or not one of them raises. *)
Lemma start_update_no_success (s : ATCBluetoothDeviceData)
      (service_info : BluetoothServiceInfo) :
  (forall id data, In (id, data) (service_data service_info) ->
     fst (_parse_atc sys_platform service_info (name service_info) data s) <> Ret true) ->
  last_service_info (snd (_start_update sys_platform service_info s))
  = last_service_info s.
Proof.
  intros Hnone. rewrite start_update_unfold.
  apply (proj1 (parse_items_last_service_info s service_info
                  (service_data service_info) (labelled s) eq_refl)).
  exact Hnone.
Qed.

(** When the update returns and some payload is one the decoder decodes on
    this session, the advertisement is cached. *)
Lemma start_update_success (s : ATCBluetoothDeviceData)
      (service_info : BluetoothServiceInfo) (id : string) (data : bytes) :
  fst (_start_update sys_platform service_info s) = Ret tt ->
  In (id, data) (service_data service_info) ->
  fst (_parse_atc sys_platform service_info (name service_info) data s) = Ret true ->
  last_service_info (snd (_start_update sys_platform service_info s))
  = Some service_info.
Proof.
  intros Hret Hin Hok. rewrite start_update_unfold in *.
  apply (proj2 (parse_items_last_service_info s service_info
                  (service_data service_info) (labelled s) eq_refl)).
  - exact Hret.
  - exists id, data. split; assumption.
Qed.

End StartUpdateLoop.

Section StartUpdateReturns.

Context {cipher : AeadCipher} {laws : AeadCipherLaws cipher}.
Variable sys_platform : string.

(** For an advertisement whose address is six colon-delimited octets, or an
    opaque identifier of another length than 17 whose third character is
    not a colon, the update returns, whatever its payloads and however many
    they are. *)
Lemma start_update_never_raises (s : ATCBluetoothDeviceData)
      (service_info : BluetoothServiceInfo) :
  mac_text 6 (address service_info) = true \/
  (str_len (address service_info) <> 17 /\
   exists c, String.get 2 (address service_info) = Some c /\ c <> ":"%char) ->
  fst (_start_update sys_platform service_info s) = Ret tt.
Proof using laws.
  intros Haddr.
  assert (Hmac : exists m, source_mac_of service_info = Ret m /\ len m = 6).
  { destruct Haddr as [Hmac | (Hlen & c & Hget & Hc)].
    - destruct (source_mac_of_mac_text _ Hmac) as (m & Hm & Hsrc). eauto.
    - eexists. split; [exact (source_mac_of_opaque _ _ Hlen Hget Hc) | reflexivity]. }
  destruct Hmac as (m & Hsrc & Hm).
  rewrite start_update_unfold. generalize (labelled s).
  induction (service_data service_info) as [|[id data] rest IH]; intros t;
    [reflexivity|].
  rewrite parse_items_cons.
  destruct (readable_address_never_raises sys_platform t service_info
              (name service_info) data m Hsrc Hm) as [ok Hok].
  destruct (_parse_atc _ _ _ _ t) as [r1 t1]. cbn [fst] in Hok. subst r1.
  destruct ok; apply IH.
Qed.

(** A plaintext has five bytes less than the payload it came from (four of
    tag, one of counter). *)
Lemma decrypt_atc_plain_length (s s' : ATCBluetoothDeviceData)
      (data atc_mac plain : bytes) :
  _decrypt_atc data atc_mac s = (Ret (Some plain), s') ->
  len plain = Z.max 0 (len data - 5).
Proof using laws.
  intros Hdec. apply decrypt_atc_outcome in Hdec.
  destruct Hdec as [(p & [= <-] & _ & Hlen) | [[Hr | [e Hr]] _]];
    [|discriminate Hr|discriminate Hr].
  unfold len. rewrite Hlen.
  unfold slice, clamp_index.
  change (1 <? 0) with false. change (-4 <? 0) with true. cbv iota.
  rewrite List.length_firstn, List.length_skipn. unfold len. lia.
Qed.

End StartUpdateReturns.

(** A payload of more than 252 bytes cannot be decrypted: its length plus
    three does not fit the length byte of the nonce, and with a 16-byte key
    the helper raises [OverflowError], the object untouched. *)
Lemma decrypt_atc_overflow {cipher : AeadCipher} (s : ATCBluetoothDeviceData)
      (data atc_mac key : bytes) :
  bindkey s = Some key -> len key = 16 -> 252 < len data ->
  _decrypt_atc data atc_mac s = (Raise OverflowError, s).
Proof.
  intros Hk Hkey Hlen.
  rewrite (decrypt_atc_with_key s data atc_mac key Hk Hkey).
  unfold bind, lift, prepare_request, to_bytes1.
  destruct (Z.ltb_spec (len data + 3) 256); [lia|].
  rewrite andb_false_r. reflexivity.
Qed.

(** ** The flag under the cipher of the library *)

(** PyCryptodome's [decrypt_and_verify] gives the plaintext or raises
    [ValueError]; it never returns [None].  So with a 16-byte key the helper
    leaves the object alone or sets the flag: it never clears it. *)
Lemma cryptodome_decrypt_atc_flag (t : ATCBluetoothDeviceData) (data atc_mac key : bytes) :
  bindkey t = Some key -> len key = 16 ->
  snd (@_decrypt_atc Cryptodome_AES_CCM data atc_mac t) = t \/
  snd (@_decrypt_atc Cryptodome_AES_CCM data atc_mac t) = with_bindkey_verified true t.
Proof.
  intros Hk Hkey.
  rewrite (decrypt_atc_with_key t data atc_mac key Hk Hkey).
  unfold decrypt_request, bind, lift, modify, ret, raise.
  destruct (prepare_request key data atc_mac) as [req|e]; cbv beta iota;
    [|left; reflexivity].
  destruct (AES_new (req_key req) (req_nonce req) (req_mac_len req)) as [c|e];
    cbv beta iota; [|left; reflexivity].
  change (decrypt_and_verify (cipher_update c (req_aad req))
                             (req_cipherpayload req) (req_token req))
    with (Cryptodome.decrypt_and_verify (cipher_update c (req_aad req))
                                        (req_cipherpayload req) (req_token req)).
  unfold Cryptodome.decrypt_and_verify.
  destruct (bytes_eqb _ _); cbv beta iota; [right | left]; reflexivity.
Qed.

(** With the cipher the decoder is linked with, a session that holds a
    16-byte key marked verified keeps it marked through every decode,
    whatever the payload and the address, a payload that fails its tag
    check included: no failed decryption clears the flag. *)
Lemma verified_key_stays_verified (sys_platform : string) (s : ATCBluetoothDeviceData)
      (service_info : BluetoothServiceInfo) (name : string) (data key : bytes) :
  bindkey s = Some key -> len key = 16 -> bindkey_verified s = true ->
  bindkey_verified
    (snd (@_parse_atc Cryptodome_AES_CCM sys_platform service_info name data s)) = true.
Proof.
  intros Hk Hkey Hflag.
  destruct (source_mac_of service_info) as [mac|e] eqn:Hsrc.
  2:{ rewrite (parse_atc_address_raises _ _ _ _ _ _ Hsrc). exact Hflag. }
  destruct (Z.eq_dec (len data) 15) as [H15|H15].
  { rewrite (parse_atc_pvvx _ _ _ _ _ _ Hsrc H15).
    destruct (_ && _); exact Hflag. }
  destruct (Z.eq_dec (len data) 13) as [H13|H13].
  { rewrite (parse_atc_atc1441 _ _ _ _ _ _ Hsrc H13).
    destruct (_ && _); exact Hflag. }
  assert (Henc : forall r1 s1,
             @_decrypt_atc Cryptodome_AES_CCM data mac
               (with_encrypted (Some true) (with_mac_known true s)) = (r1, s1) ->
             bindkey_verified s1 = true).
  { intros r1 s1 Hrun.
    destruct (cryptodome_decrypt_atc_flag
                (with_encrypted (Some true) (with_mac_known true s)) data mac key Hk Hkey)
      as [H | H]; rewrite Hrun in H; cbn [snd] in H; subst s1; [exact Hflag | reflexivity]. }
  destruct (Z.eq_dec (len data) 11) as [H11|H11].
  { destruct (darwin sys_platform) eqn:Hd.
    { rewrite (parse_atc_encrypted_darwin _ _ _ _ _ _ Hd Hsrc (or_introl H11)).
      exact Hflag. }
    rewrite (parse_atc_pvvx_encrypted _ _ _ _ _ _ Hd Hsrc H11).
    destruct (_decrypt_atc data mac _) as [r1 s1] eqn:Hrun.
    pose proof (Henc r1 s1 eq_refl) as Hs1.
    destruct r1 as [[plain|]|e]; try exact Hs1.
    destruct (unpack _ plain) as [[|temp [|hum [|bat [|trg [|? ?]]]]]|e]; exact Hs1. }
  destruct (Z.eq_dec (len data) 8) as [H8|H8].
  { destruct (darwin sys_platform) eqn:Hd.
    { rewrite (parse_atc_encrypted_darwin _ _ _ _ _ _ Hd Hsrc (or_intror H8)).
      exact Hflag. }
    rewrite (parse_atc_atc1441_encrypted _ _ _ _ _ _ Hd Hsrc H8).
    destruct (_decrypt_atc data mac _) as [r1 s1] eqn:Hrun.
    pose proof (Henc r1 s1 eq_refl) as Hs1.
    destruct r1 as [[plain|]|e]; try exact Hs1.
    destruct plain as [|d0 [|d1 [|d2 rest]]]; exact Hs1. }
  rewrite (parse_atc_other_length _ _ _ _ _ _ Hsrc H15 H13 H11 H8). exact Hflag.
Qed.

(** ** Instances on the sessions of the tests *)

Lemma failed_decode_frame_witness :
  reachable "linux" rekeyed_session /\
  fst (_parse_atc "linux" (advertisement pvvx_encrypted) "ATC_8D18B2"
                  pvvx_encrypted rekeyed_session) <> Ret true /\
  let s' := snd (_parse_atc "linux" (advertisement pvvx_encrypted) "ATC_8D18B2"
                            pvvx_encrypted rekeyed_session) in
  mac_known s' = mac_known rekeyed_session /\
  is_encrypted s' = is_encrypted rekeyed_session /\
  pending s' = pending rekeyed_session /\
  last_service_info s' = last_service_info rekeyed_session /\
  bindkey s' = bindkey rekeyed_session /\
  (bindkey_verified s' = bindkey_verified rekeyed_session \/
   bindkey_verified s' = false).
Proof.
  assert (Hreach : reachable "linux" rekeyed_session).
  { apply reach_bindkey, reach_parse, reach_init. }
  assert (Hfail : fst (_parse_atc "linux" (advertisement pvvx_encrypted) "ATC_8D18B2"
                                  pvvx_encrypted rekeyed_session) <> Ret true).
  { vm_compute. discriminate. }
  split; [exact Hreach|]. split; [exact Hfail|].
  exact (failed_decode_frame "linux" rekeyed_session
           (advertisement pvvx_encrypted) "ATC_8D18B2" pvvx_encrypted Hreach Hfail).
Defined.

Lemma decrypt_atc_request_witness :
  let s := __init__ "linux" (Some test_bindkey) in
  let nonce := [xb2; x18; x8d; x38; xc1; xa4; x0e; x16; x1a; x18; x11] in
  let cipherpayload := [xd6; x03; xfb; xfa; x7b; x6d] in
  let token := [xfb; x1e; x26; xfd] in
  bindkey s = Some test_bindkey /\ len test_bindkey = 16 /\ len test_mac = 6 /\
  (len pvvx_encrypted = 11 \/ len pvvx_encrypted = 8) /\
  len nonce = 11 /\
  pvvx_encrypted = x11 :: cipherpayload ++ token /\
  _decrypt_atc pvvx_encrypted test_mac s =
  match AES_new test_bindkey nonce 4 with
  | Raise e => (Raise e, s)
  | Ret c =>
      match decrypt_and_verify (cipher_update c [x11]) cipherpayload token with
      | Ret (Some decrypted_payload) =>
          (Ret (Some decrypted_payload), with_bindkey_verified true s)
      | Ret None => (Ret None, with_bindkey_verified false s)
      | Raise ValueError => (Ret None, s)
      | Raise e => (Raise e, s)
      end
  end.
Proof.
  intros s nonce cipherpayload token.
  assert (H1 : bindkey s = Some test_bindkey) by reflexivity.
  assert (H2 : len test_bindkey = 16) by reflexivity.
  assert (H3 : len test_mac = 6) by reflexivity.
  assert (H4 : len pvvx_encrypted = 11 \/ len pvvx_encrypted = 8) by (left; reflexivity).
  repeat (split; [assumption|]).
  destruct (proj1 (decrypt_atc_request "linux" s pvvx_encrypted test_mac test_bindkey
                     H1 H2 H3) H4)
    as (Hn & _ & _ & _ & Hdata & Hrun).
  split; [exact Hn|]. split; [exact Hdata | exact Hrun].
Defined.

Lemma decrypt_atc_unusable_key_witness :
  let s := rekeyed_session in
  let s' := snd (_decrypt_atc pvvx_encrypted test_mac s) in
  bindkey_verified s = true /\
  (bindkey s = None \/ exists k, bindkey s = Some k /\ len k <> 16) /\
  _decrypt_atc pvvx_encrypted test_mac s = (Ret None, with_bindkey_verified false s) /\
  bindkey_verified s' = false /\
  fst (_parse_atc "linux" (advertisement pvvx_encrypted) "ATC_8D18B2" pvvx_encrypted s)
  = Ret false /\
  bindkey_verified
    (snd (_parse_atc "linux" (advertisement pvvx_encrypted) "ATC_8D18B2" pvvx_encrypted s))
  = false /\
  fst (_parse_atc "linux" (advertisement pvvx_plain) "ATC_8D18B2" pvvx_plain
                  (with_bindkey_verified false s)) = Ret true /\
  fst (_parse_atc "linux" (advertisement pvvx_encrypted) "ATC_8D18B2" pvvx_encrypted
                  (with_bindkey (Some test_bindkey) s')) = Ret true.
Proof.
  intros s s'.
  assert (H0 : bindkey_verified s = true) by (vm_compute; reflexivity).
  assert (H : bindkey s = None \/ exists k, bindkey s = Some k /\ len k <> 16).
  { right. exists [x01]. split; [reflexivity|]. vm_compute. discriminate. }
  split; [exact H0|]. split; [exact H|].
  destruct (decrypt_atc_unusable_key "linux" s pvvx_encrypted test_mac H)
    as (Hdec & Hflag & Hnext & Hparse).
  split; [exact Hdec|]. split; [exact Hflag|].
  destruct (Hparse (advertisement pvvx_encrypted) "ATC_8D18B2" test_mac
                   eq_refl eq_refl (or_introl eq_refl)) as (Hfalse & Hcleared & _).
  split; [exact Hfalse|]. split; [exact Hcleared|].
  split.
  - rewrite (proj1 (Hnext (advertisement pvvx_plain) "ATC_8D18B2" pvvx_plain)).
    vm_compute. reflexivity.
  - vm_compute. reflexivity.
Defined.

Lemma atc1441_encrypted_values_witness :
  let s := __init__ "linux" (Some test_bindkey) in
  let s1 := with_bindkey_verified true (with_encrypted (Some true) (with_mac_known true s)) in
  let run := _parse_atc "linux" (advertisement atc1441_encrypted_full) "ATC_8D18B2"
                        atc1441_encrypted_full s in
  darwin "linux" = false /\
  source_mac_of (advertisement atc1441_encrypted_full) = Ret test_mac /\
  len atc1441_encrypted_full = 8 /\
  _decrypt_atc atc1441_encrypted_full test_mac
    (with_encrypted (Some true) (with_mac_known true s)) = (Ret (Some [x85; x5e; xff]), s1) /\
  fst run = Ret true /\
  sensor_values (snd run) !! "battery" = Some (PyInt 100) /\
  sensor_values (snd run) !! "temperature" = Some (PyFloat 26.5) /\
  sensor_values (snd run) !! "humidity" = Some (PyFloat 47).
Proof.
  intros s s1 run.
  assert (H1 : darwin "linux" = false) by reflexivity.
  assert (H2 : source_mac_of (advertisement atc1441_encrypted_full) = Ret test_mac)
    by reflexivity.
  assert (H3 : len atc1441_encrypted_full = 8) by reflexivity.
  assert (H4 : _decrypt_atc atc1441_encrypted_full test_mac
                 (with_encrypted (Some true) (with_mac_known true s))
               = (Ret (Some [x85; x5e; xff]), s1)).
  { vm_compute. reflexivity. }
  repeat (split; [assumption|]).
  destruct (atc1441_encrypted_values "linux" s s1
              (advertisement atc1441_encrypted_full) "ATC_8D18B2"
              atc1441_encrypted_full test_mac [x85; x5e; xff] H1 H2 H3 H4)
    as (d0 & d1 & d2 & Hplain & Hok & Hbat & Hfull & Htemp & Hhum).
  injection Hplain as <- <- <-.
  split; [exact Hok|]. split; [|split].
  - exact (Hfull eq_refl).
  - exact Htemp.
  - exact Hhum.
Defined.

Lemma decode_never_raises_witness :
  (mac_text 6 (address (advertisement pvvx_encrypted_bad_tag)) = true \/
   (str_len (address (advertisement pvvx_encrypted_bad_tag)) <> 17 /\
    exists c, String.get 2 (address (advertisement pvvx_encrypted_bad_tag)) = Some c /\
              c <> ":"%char)) /\
  exists ok,
    fst (_parse_atc "linux" (advertisement pvvx_encrypted_bad_tag) "ATC_8D18B2"
                    pvvx_encrypted_bad_tag (__init__ "linux" (Some test_bindkey)))
    = Ret ok.
Proof.
  assert (H : mac_text 6 (address (advertisement pvvx_encrypted_bad_tag)) = true \/
              (str_len (address (advertisement pvvx_encrypted_bad_tag)) <> 17 /\
               exists c, String.get 2 (address (advertisement pvvx_encrypted_bad_tag))
                         = Some c /\ c <> ":"%char)).
  { left. reflexivity. }
  split; [exact H|].
  exact (decode_never_raises "linux" (__init__ "linux" (Some test_bindkey))
           (advertisement pvvx_encrypted_bad_tag) "ATC_8D18B2"
           pvvx_encrypted_bad_tag H).
Defined.

Lemma pvvx_plain_values_witness :
  let run := _parse_atc "linux" (advertisement pvvx_plain) "ATC_8D18B2" pvvx_plain
                        (__init__ "linux" None) in
  darwin "linux" = false /\
  source_mac_of (advertisement pvvx_plain) = Ret test_mac /\
  len pvvx_plain = 15 /\
  reversed (firstn 6 pvvx_plain) = test_mac /\
  fst run = Ret true /\
  sensor_values (snd run) !! "temperature" = Some (PyFloat 26.49) /\
  sensor_values (snd run) !! "humidity" = Some (PyFloat 50.37) /\
  sensor_values (snd run) !! "voltage" = Some (PyFloat 2.486) /\
  sensor_values (snd run) !! "battery" = Some (PyInt 31).
Proof.
  intros run.
  assert (H1 : darwin "linux" = false) by reflexivity.
  assert (H2 : source_mac_of (advertisement pvvx_plain) = Ret test_mac) by reflexivity.
  assert (H3 : len pvvx_plain = 15) by reflexivity.
  assert (H4 : reversed (firstn 6 pvvx_plain) = test_mac) by reflexivity.
  repeat (split; [assumption|]).
  exact (proj2 (pvvx_plain_values "linux" (__init__ "linux" None)
                  (advertisement pvvx_plain) "ATC_8D18B2" pvvx_plain test_mac
                  H1 H2 H3) H4).
Defined.

Lemma unrecognized_length_witness :
  source_mac_of (advertisement [x01; x02; x03; x04; x05]) = Ret test_mac /\
  len [x01; x02; x03; x04; x05] <> 15 /\ len [x01; x02; x03; x04; x05] <> 13 /\
  len [x01; x02; x03; x04; x05] <> 11 /\ len [x01; x02; x03; x04; x05] <> 8 /\
  _parse_atc "linux" (advertisement [x01; x02; x03; x04; x05]) "ATC_8D18B2"
             [x01; x02; x03; x04; x05] (__init__ "linux" None)
  = (Ret false, __init__ "linux" None).
Proof.
  assert (H0 : source_mac_of (advertisement [x01; x02; x03; x04; x05]) = Ret test_mac)
    by reflexivity.
  assert (H1 : len [x01; x02; x03; x04; x05] <> 15) by (vm_compute; discriminate).
  assert (H2 : len [x01; x02; x03; x04; x05] <> 13) by (vm_compute; discriminate).
  assert (H3 : len [x01; x02; x03; x04; x05] <> 11) by (vm_compute; discriminate).
  assert (H4 : len [x01; x02; x03; x04; x05] <> 8) by (vm_compute; discriminate).
  repeat (split; [assumption|]).
  exact (unrecognized_length "linux" (__init__ "linux" None)
           (advertisement [x01; x02; x03; x04; x05]) "ATC_8D18B2"
           [x01; x02; x03; x04; x05] test_mac H0 H1 H2 H3 H4).
Defined.

Lemma reachable_is_encrypted_witness :
  reachable "linux" rekeyed_session /\ is_encrypted rekeyed_session = false.
Proof.
  assert (H : reachable "linux" rekeyed_session).
  { apply reach_bindkey, reach_parse, reach_init. }
  split; [exact H|].
  exact (reachable_is_encrypted "linux" rekeyed_session H).
Defined.

Lemma source_mac_of_to_mac_witness :
  len test_mac = 6 /\
  address (advertisement pvvx_plain) = to_mac test_mac /\
  source_mac_of (advertisement pvvx_plain) = Ret test_mac.
Proof.
  assert (H1 : len test_mac = 6) by reflexivity.
  assert (H2 : address (advertisement pvvx_plain) = to_mac test_mac) by reflexivity.
  split; [exact H1|]. split; [exact H2|].
  exact (source_mac_of_to_mac (advertisement pvvx_plain) test_mac H1 H2).
Defined.

Lemma truediv_100_nearest_witness :
  -32768 <= 2649 < 65536 /\ float_within 44 (truediv 2649 100) 2649 100 = true.
Proof.
  assert (H : -32768 <= 2649 < 65536) by lia.
  split; [exact H|]. exact (truediv_100_nearest 2649 H).
Defined.

Lemma atc1441_plain_values_witness :
  let run := _parse_atc "linux" (advertisement atc1441_plain) "ATC_8D18B2" atc1441_plain
                        (__init__ "linux" None) in
  darwin "linux" = false /\
  source_mac_of (advertisement atc1441_plain) = Ret test_mac /\
  len atc1441_plain = 13 /\
  firstn 6 atc1441_plain = test_mac /\
  fst run = Ret true /\
  sensor_values (snd run) !! "temperature" = Some (PyFloat 27.4) /\
  sensor_values (snd run) !! "humidity" = Some (PyInt 47) /\
  sensor_values (snd run) !! "battery" = Some (PyInt 100) /\
  sensor_values (snd run) !! "voltage" = Some (PyFloat 3.232).
Proof.
  intros run.
  assert (H1 : darwin "linux" = false) by reflexivity.
  assert (H2 : source_mac_of (advertisement atc1441_plain) = Ret test_mac) by reflexivity.
  assert (H3 : len atc1441_plain = 13) by reflexivity.
  assert (H4 : firstn 6 atc1441_plain = test_mac) by reflexivity.
  repeat (split; [assumption|]).
  exact (proj2 (atc1441_plain_values "linux" (__init__ "linux" None)
                  (advertisement atc1441_plain) "ATC_8D18B2" atc1441_plain test_mac
                  H1 H2 H3) H4).
Defined.

Lemma pvvx_encrypted_values_witness :
  let s := __init__ "linux" (Some test_bindkey) in
  let s1 := with_bindkey_verified true (with_encrypted (Some true) (with_mac_known true s)) in
  let run := _parse_atc "linux" (advertisement pvvx_encrypted) "ATC_8D18B2"
                        pvvx_encrypted s in
  darwin "linux" = false /\
  source_mac_of (advertisement pvvx_encrypted) = Ret test_mac /\
  len pvvx_encrypted = 11 /\
  _decrypt_atc pvvx_encrypted test_mac
    (with_encrypted (Some true) (with_mac_known true s))
  = (Ret (Some [x29; x09; x4d; x10; x3d; x04]), s1) /\
  fst run = Ret true /\
  sensor_values (snd run) !! "temperature" = Some (PyFloat 23.45) /\
  sensor_values (snd run) !! "humidity" = Some (PyFloat 41.73) /\
  sensor_values (snd run) !! "battery" = Some (PyInt 61) /\
  sensor_values (snd run) !! "voltage" = None.
Proof.
  intros s s1 run.
  assert (H1 : darwin "linux" = false) by reflexivity.
  assert (H2 : source_mac_of (advertisement pvvx_encrypted) = Ret test_mac) by reflexivity.
  assert (H3 : len pvvx_encrypted = 11) by reflexivity.
  assert (H4 : _decrypt_atc pvvx_encrypted test_mac
                 (with_encrypted (Some true) (with_mac_known true s))
               = (Ret (Some [x29; x09; x4d; x10; x3d; x04]), s1)).
  { vm_compute. reflexivity. }
  repeat (split; [assumption|]).
  destruct (pvvx_encrypted_values "linux" s s1 (advertisement pvvx_encrypted)
              "ATC_8D18B2" pvvx_encrypted test_mac [x29; x09; x4d; x10; x3d; x04]
              H1 H2 H3 H4)
    as (_ & Hok & Htemp & Hhum & Hbat & Hvolt).
  split; [exact Hok|]. split; [exact Htemp|]. split; [exact Hhum|].
  split; [exact Hbat|]. exact Hvolt.
Defined.

Lemma decrypt_request_mac_failure_witness :
  let s := __init__ "linux" (Some test_bindkey) in
  let req := {| req_key := test_bindkey;
                req_nonce := [xb2; x18; x8d; x38; xc1; xa4; x0e; x16; x1a; x18; x11];
                req_mac_len := 4; req_aad := [x11];
                req_cipherpayload := [xd6; x03; xfb; xfa; x7b; x6d];
                req_token := [xfb; x1e; x26; xfc] |} in
  let c := {| Cryptodome.ccm_key := req_key req; Cryptodome.ccm_nonce := req_nonce req;
              Cryptodome.ccm_mac_len := 4; Cryptodome.ccm_assoc := [] |} in
  AES_new (req_key req) (req_nonce req) (req_mac_len req) = Ret c /\
  decrypt_and_verify (cipher_update c (req_aad req))
                     (req_cipherpayload req) (req_token req) = Raise ValueError /\
  decrypt_request req s = (Ret None, s).
Proof.
  intros s req c.
  assert (H1 : AES_new (req_key req) (req_nonce req) (req_mac_len req) = Ret c)
    by reflexivity.
  assert (H2 : decrypt_and_verify (cipher_update c (req_aad req))
                                  (req_cipherpayload req) (req_token req)
               = Raise ValueError).
  { vm_compute. reflexivity. }
  split; [exact H1|]. split; [exact H2|].
  exact (decrypt_request_mac_failure s req c H1 H2).
Defined.

Lemma decrypt_atc_verified_only_on_success_witness :
  let s := __init__ "linux" (Some test_bindkey) in
  let s' := with_bindkey_verified true s in
  let r := Ret (Some [x29; x09; x4d; x10; x3d; x04]) in
  _decrypt_atc pvvx_encrypted test_mac s = (r, s') /\
  bindkey_verified s' = true /\
  (bindkey_verified s = true \/ exists plain, r = Ret (Some plain)).
Proof.
  intros s s' r.
  assert (H1 : _decrypt_atc pvvx_encrypted test_mac s = (r, s')).
  { vm_compute. reflexivity. }
  assert (H2 : bindkey_verified s' = true) by reflexivity.
  split; [exact H1|]. split; [exact H2|].
  exact (decrypt_atc_verified_only_on_success s s' pvvx_encrypted test_mac r H1 H2).
Defined.

Lemma to_mac_well_formed_witness :
  test_mac <> [] /\
  mac_text (List.length test_mac) (to_mac test_mac) = true /\
  str_len (to_mac test_mac) = 3 * len test_mac - 1.
Proof.
  assert (H : test_mac <> []) by discriminate.
  split; [exact H|]. exact (to_mac_well_formed test_mac H).
Defined.

Lemma parse_atc_success_witness :
  let run := _parse_atc "linux" (advertisement pvvx_encrypted) "ATC_8D18B2"
                        pvvx_encrypted (__init__ "linux" (Some test_bindkey)) in
  fst run = Ret true /\
  (len pvvx_encrypted = 15 \/ len pvvx_encrypted = 13 \/
   (darwin "linux" = false /\ (len pvvx_encrypted = 11 \/ len pvvx_encrypted = 8))) /\
  title (snd run) = Some "ATC_8D18B2 (A4:C1:38:8D:18:B2)" /\
  device_name (snd run) = Some "ATC_8D18B2 (A4:C1:38:8D:18:B2)" /\
  exists firmware,
    device_sw_version (snd run) = Some firmware /\
    firmware_label (len pvvx_encrypted) firmware.
Proof.
  intros run.
  assert (H : fst run = Ret true) by (vm_compute; reflexivity).
  split; [exact H|].
  exact (parse_atc_success "linux" (__init__ "linux" (Some test_bindkey))
           (advertisement pvvx_encrypted) "ATC_8D18B2" pvvx_encrypted H).
Defined.

Lemma parse_atc_keeps_key_state_witness :
  let s := snd (_parse_atc "linux" (advertisement pvvx_encrypted) "ATC_8D18B2"
                           pvvx_encrypted (__init__ "linux" (Some test_bindkey))) in
  let s' := snd (_parse_atc "linux" (advertisement pvvx_plain) "ATC_8D18B2"
                            pvvx_plain s) in
  ((len pvvx_plain <> 11 /\ len pvvx_plain <> 8) \/ darwin "linux" = true) /\
  bindkey_verified s = true /\
  bindkey_verified s' = bindkey_verified s /\
  mac_known s' = mac_known s /\
  encrypted s' = encrypted s.
Proof.
  intros s s'.
  assert (H : (len pvvx_plain <> 11 /\ len pvvx_plain <> 8) \/ darwin "linux" = true).
  { left. split; vm_compute; discriminate. }
  split; [exact H|]. split; [vm_compute; reflexivity|].
  exact (parse_atc_keeps_key_state "linux" s (advertisement pvvx_plain) "ATC_8D18B2"
           pvvx_plain H).
Defined.

Lemma parse_atc_encrypted_success_witness :
  let s := __init__ "linux" (Some test_bindkey) in
  let run := _parse_atc "linux" (advertisement atc1441_encrypted) "ATC_8D18B2"
                        atc1441_encrypted s in
  fst run = Ret true /\
  (len atc1441_encrypted = 11 \/ len atc1441_encrypted = 8) /\
  bindkey_verified (snd run) = true /\ mac_known (snd run) = true /\
  encrypted (snd run) = Some true /\ darwin "linux" = false /\
  exists key, bindkey s = Some key /\ len key = 16.
Proof.
  intros s run.
  assert (H1 : fst run = Ret true) by (vm_compute; reflexivity).
  assert (H2 : len atc1441_encrypted = 11 \/ len atc1441_encrypted = 8)
    by (right; reflexivity).
  split; [exact H1|]. split; [exact H2|].
  exact (parse_atc_encrypted_success "linux" s (advertisement atc1441_encrypted)
           "ATC_8D18B2" atc1441_encrypted H1 H2).
Defined.

Lemma parse_atc_darwin_plain_witness :
  let service_info :=
    bytes_to_service_info pvvx_plain "ATC_8D18B2"
                          "6FFBA4E2-5A9A-4B3D-A5B2-5B5B5B5B5B5B" in
  darwin "darwin" = true /\
  source_mac_of service_info = Ret [x00; x00; x00; x00; x00; x00] /\
  (len pvvx_plain = 15 \/ len pvvx_plain = 13) /\
  fst (_parse_atc "darwin" service_info "ATC_8D18B2" pvvx_plain
                  (__init__ "darwin" None)) = Ret true.
Proof.
  intros service_info.
  assert (H1 : darwin "darwin" = true) by reflexivity.
  assert (H2 : source_mac_of service_info = Ret [x00; x00; x00; x00; x00; x00])
    by reflexivity.
  assert (H3 : len pvvx_plain = 15 \/ len pvvx_plain = 13) by (left; reflexivity).
  split; [exact H1|]. split; [exact H2|]. split; [exact H3|].
  exact (parse_atc_darwin_plain "darwin" (__init__ "darwin" None) service_info
           "ATC_8D18B2" pvvx_plain [x00; x00; x00; x00; x00; x00] H1 H2 H3).
Defined.

Lemma parse_atc_same_key_witness :
  let s := __init__ "linux" (Some test_bindkey) in
  let t := snd (_parse_atc "linux" (advertisement pvvx_plain) "ATC_8D18B2"
                           pvvx_plain s) in
  let rs := _parse_atc "linux" (advertisement pvvx_encrypted) "ATC_8D18B2"
                       pvvx_encrypted s in
  let rt := _parse_atc "linux" (advertisement pvvx_encrypted) "ATC_8D18B2"
                       pvvx_encrypted t in
  bindkey s = bindkey t /\
  fst rs = fst rt /\
  (fst rs = Ret true ->
   title (snd rs) = title (snd rt) /\
   device_sw_version (snd rs) = device_sw_version (snd rt) /\
   sensor_values (snd rs) !! "temperature" = sensor_values (snd rt) !! "temperature" /\
   sensor_values (snd rs) !! "humidity" = sensor_values (snd rt) !! "humidity" /\
   sensor_values (snd rs) !! "battery" = sensor_values (snd rt) !! "battery" /\
   (len pvvx_encrypted = 15 \/ len pvvx_encrypted = 13 ->
    sensor_values (snd rs) !! "voltage" = sensor_values (snd rt) !! "voltage")).
Proof.
  intros s t rs rt.
  assert (H : bindkey s = bindkey t) by reflexivity.
  split; [exact H|].
  exact (parse_atc_same_key "linux" s t (advertisement pvvx_encrypted) "ATC_8D18B2"
           pvvx_encrypted H).
Defined.

Lemma reachable_key_state_witness :
  reachable "linux" rekeyed_session /\
  pending rekeyed_session = true /\
  (encrypted rekeyed_session = None \/
   (encrypted rekeyed_session = Some true /\ darwin "linux" = false)) /\
  (darwin "linux" = true ->
   bindkey_verified rekeyed_session = false /\ encrypted rekeyed_session = None).
Proof.
  assert (H : reachable "linux" rekeyed_session).
  { apply reach_bindkey, reach_parse, reach_init. }
  split; [exact H|].
  exact (reachable_key_state "linux" rekeyed_session H).
Defined.

Lemma reachable_title_witness :
  reachable "linux" rekeyed_session /\
  title rekeyed_session = device_name rekeyed_session /\
  (title rekeyed_session = None <-> device_sw_version rekeyed_session = None) /\
  (forall firmware, device_sw_version rekeyed_session = Some firmware ->
                    exists msg_length, firmware_label msg_length firmware) /\
  (last_service_info rekeyed_session <> None ->
   title rekeyed_session <> None /\
   device_manufacturer rekeyed_session = Some "ATC" /\
   device_type rekeyed_session = Some "ATC sensor").
Proof.
  assert (H : reachable "linux" rekeyed_session).
  { apply reach_bindkey, reach_parse, reach_init. }
  split; [exact H|].
  exact (reachable_title "linux" rekeyed_session H).
Defined.


Lemma start_update_address_raises_witness :
  let service_info := advertisement_dashes atc1441_plain in
  let s := __init__ "linux" None in
  source_mac_of service_info = Raise ValueError /\
  _start_update "linux" service_info s
  = (match service_data service_info with
     | [] => Ret tt
     | _ :: _ => Raise ValueError
     end, labelled s).
Proof.
  intros service_info s.
  assert (H : source_mac_of service_info = Raise ValueError) by reflexivity.
  split; [exact H|].
  exact (start_update_address_raises "linux" service_info s ValueError H).
Defined.

Lemma start_update_unrecognized_witness :
  let service_info := advertisement [x01; x02; x03; x04; x05] in
  let s := __init__ "linux" None in
  source_mac_of service_info = Ret test_mac /\
  (forall id data, In (id, data) (service_data service_info) ->
     len data <> 15 /\ len data <> 13 /\ len data <> 11 /\ len data <> 8) /\
  _start_update "linux" service_info s = (Ret tt, labelled s).
Proof.
  intros service_info s.
  assert (H1 : source_mac_of service_info = Ret test_mac) by reflexivity.
  assert (H2 : forall id data, In (id, data) (service_data service_info) ->
                 len data <> 15 /\ len data <> 13 /\ len data <> 11 /\ len data <> 8).
  { intros id data [[= <- <-] | []]. repeat split; vm_compute; discriminate. }
  split; [exact H1|]. split; [exact H2|].
  exact (start_update_unrecognized "linux" service_info s test_mac H1 H2).
Defined.

Lemma start_update_no_success_witness :
  let service_info := advertisement pvvx_encrypted_bad_tag in
  let s := __init__ "linux" (Some test_bindkey) in
  (forall id data, In (id, data) (service_data service_info) ->
     fst (_parse_atc "linux" service_info (name service_info) data s) <> Ret true) /\
  last_service_info (snd (_start_update "linux" service_info s)) = last_service_info s.
Proof.
  intros service_info s.
  assert (H : forall id data, In (id, data) (service_data service_info) ->
                fst (_parse_atc "linux" service_info (name service_info) data s)
                <> Ret true).
  { intros id data [[= <- <-] | []]. vm_compute. discriminate. }
  split; [exact H|].
  exact (start_update_no_success "linux" s service_info H).
Defined.

Lemma start_update_success_witness :
  let service_info := advertisement pvvx_plain in
  let s := __init__ "linux" None in
  fst (_start_update "linux" service_info s) = Ret tt /\
  In ("0000181a-0000-1000-8000-00805f9b34fb", pvvx_plain) (service_data service_info) /\
  fst (_parse_atc "linux" service_info (name service_info) pvvx_plain s) = Ret true /\
  last_service_info (snd (_start_update "linux" service_info s)) = Some service_info.
Proof.
  intros service_info s.
  assert (H1 : fst (_start_update "linux" service_info s) = Ret tt)
    by (vm_compute; reflexivity).
  assert (H2 : In ("0000181a-0000-1000-8000-00805f9b34fb", pvvx_plain)
                  (service_data service_info)) by (left; reflexivity).
  assert (H3 : fst (_parse_atc "linux" service_info (name service_info) pvvx_plain s)
               = Ret true) by (vm_compute; reflexivity).
  split; [exact H1|]. split; [exact H2|]. split; [exact H3|].
  exact (start_update_success "linux" s service_info
           "0000181a-0000-1000-8000-00805f9b34fb" pvvx_plain H1 H2 H3).
Defined.

Lemma start_update_never_raises_witness :
  let service_info := advertisement pvvx_encrypted_bad_tag in
  (mac_text 6 (address service_info) = true \/
   (str_len (address service_info) <> 17 /\
    exists c, String.get 2 (address service_info) = Some c /\ c <> ":"%char)) /\
  fst (_start_update "linux" service_info (__init__ "linux" (Some test_bindkey)))
  = Ret tt.
Proof.
  intros service_info.
  assert (H : mac_text 6 (address service_info) = true \/
              (str_len (address service_info) <> 17 /\
               exists c, String.get 2 (address service_info) = Some c /\
                         c <> ":"%char)).
  { left. reflexivity. }
  split; [exact H|].
  exact (start_update_never_raises "linux" (__init__ "linux" (Some test_bindkey))
           service_info H).
Defined.

Lemma decrypt_atc_plain_length_witness :
  let s := __init__ "linux" (Some test_bindkey) in
  let plain := [x29; x09; x4d; x10; x3d; x04] in
  _decrypt_atc pvvx_encrypted test_mac s
  = (Ret (Some plain), with_bindkey_verified true s) /\
  len plain = Z.max 0 (len pvvx_encrypted - 5).
Proof.
  intros s plain.
  assert (H : _decrypt_atc pvvx_encrypted test_mac s
              = (Ret (Some plain), with_bindkey_verified true s)).
  { vm_compute. reflexivity. }
  split; [exact H|].
  exact (decrypt_atc_plain_length s (with_bindkey_verified true s)
           pvvx_encrypted test_mac plain H).
Defined.

Lemma decrypt_atc_overflow_witness :
  let s := __init__ "linux" (Some test_bindkey) in
  let data := List.repeat x00 253 in
  bindkey s = Some test_bindkey /\ len test_bindkey = 16 /\ 252 < len data /\
  _decrypt_atc data test_mac s = (Raise OverflowError, s).
Proof.
  intros s data.
  assert (H1 : bindkey s = Some test_bindkey) by reflexivity.
  assert (H2 : len test_bindkey = 16) by reflexivity.
  assert (H3 : 252 < len data) by (vm_compute; reflexivity).
  split; [exact H1|]. split; [exact H2|]. split; [exact H3|].
  exact (decrypt_atc_overflow s data test_mac test_bindkey H1 H2 H3).
Defined.

Lemma verified_key_stays_verified_witness :
  let s := snd (_parse_atc "linux" (advertisement pvvx_encrypted) "ATC_8D18B2"
                           pvvx_encrypted (__init__ "linux" (Some test_bindkey))) in
  let run := _parse_atc "linux" (advertisement pvvx_encrypted_bad_tag) "ATC_8D18B2"
                        pvvx_encrypted_bad_tag s in
  bindkey s = Some test_bindkey /\ len test_bindkey = 16 /\ bindkey_verified s = true /\
  fst run = Ret false /\
  bindkey_verified (snd run) = true.
Proof.
  intros s run.
  assert (H1 : bindkey s = Some test_bindkey) by (vm_compute; reflexivity).
  assert (H2 : len test_bindkey = 16) by reflexivity.
  assert (H3 : bindkey_verified s = true) by (vm_compute; reflexivity).
  split; [exact H1|]. split; [exact H2|]. split; [exact H3|].
  split; [vm_compute; reflexivity|].
  exact (verified_key_stays_verified "linux" s (advertisement pvvx_encrypted_bad_tag)
           "ATC_8D18B2" pvvx_encrypted_bad_tag test_bindkey H1 H2 H3).
Defined.
